(** * Resumable paginated multi-source search: the four connectors

    A shallow embedding of [api_1_ieee.py], [api_2_springer.py],
    [api_3_scopus.py] and [api_4_pubmed.py].

    Python values that travel through the connectors are JSON documents
    (responses, records, [all_results], checkpoint files), so they are
    modelled by one type [json] on which the dictionary and list operations
    of Python are written out together with the exceptions they raise.
    Numbers are integers (no floats); strings are byte strings.

    A connector method is a computation [M A] over a [state] made of the
    instance attributes ([self]) and of the world outside it (checkpoint
    file, result file, the requests issued so far and a chronological list
    of the effects performed).  An exception leaves the state as it was when
    it was raised, as in Python.  [while] loops take fuel. *)

From Stdlib Require Import ZArith List String Ascii Lia Bool DecimalString.
Import ListNotations.
Open Scope string_scope.
Open Scope Z_scope.
Set Warnings "-register-all".

(* ================================================================== *)
(** * Python strings *)

Module PyStr.

(** [str(n)] for an [int]. *)
Definition of_Z (z : Z) : string := NilZero.string_of_int (Z.to_int z).

(** [sep.join(l)] on strings. *)
Definition join (sep : string) (l : list string) : string := String.concat sep l.

(** [s.split(sep)] for a non-empty separator: non-overlapping occurrences,
    leftmost first.  [skip] counts the characters of a separator that is
    being consumed, [cur] is the piece read so far. *)
Fixpoint split_from (sep : string) (skip : nat) (cur : string) (s : string)
  : list string :=
  match s with
  | EmptyString => [cur]
  | String c rest =>
      match skip with
      | S k => split_from sep k cur rest
      | O =>
          if String.prefix sep s
          then cur :: split_from sep (String.length sep - 1)%nat EmptyString rest
          else split_from sep 0%nat (cur ++ String c EmptyString) rest
      end
  end.

Definition split (sep s : string) : list string := split_from sep 0%nat EmptyString s.

(** ASCII white space, as [str.strip()] removes it. *)
Definition is_space (c : ascii) : bool :=
  let n := nat_of_ascii c in
  ((9 <=? n)%nat && (n <=? 13)%nat) || ((28 <=? n)%nat && (n <=? 32)%nat).

Fixpoint lstrip (s : string) : string :=
  match s with
  | EmptyString => EmptyString
  | String c rest => if is_space c then lstrip rest else s
  end.

Fixpoint rstrip (s : string) : string :=
  match s with
  | EmptyString => EmptyString
  | String c rest =>
      match rstrip rest with
      | EmptyString => if is_space c then EmptyString else String c EmptyString
      | r => String c r
      end
  end.

Definition strip (s : string) : string := rstrip (lstrip s).

(** [s.replace(a, b)] for single characters. *)
Fixpoint replace_char (a b : ascii) (s : string) : string :=
  match s with
  | EmptyString => EmptyString
  | String c rest => String (if Ascii.eqb c a then b else c) (replace_char a b rest)
  end.

(** [needle in s]. *)
Fixpoint contains (needle s : string) : bool :=
  String.prefix needle s ||
  match s with
  | EmptyString => false
  | String _ rest => contains needle rest
  end.

(** The characters of a string, as iterating over it yields them. *)
Fixpoint chars (s : string) : list string :=
  match s with
  | EmptyString => []
  | String c rest => String c EmptyString :: chars rest
  end.

Definition hex_digit (n : nat) : ascii :=
  ascii_of_nat (if (n <? 10)%nat then 48 + n else 55 + n)%nat.

Definition is_unreserved (c : ascii) : bool :=
  let n := nat_of_ascii c in
  ((48 <=? n)%nat && (n <=? 57)%nat) || ((65 <=? n)%nat && (n <=? 90)%nat) ||
  ((97 <=? n)%nat && (n <=? 122)%nat) ||
  (n =? 95)%nat || (n =? 46)%nat || (n =? 45)%nat || (n =? 126)%nat.

(** [urllib.parse.quote_plus]. *)
Fixpoint quote_plus (s : string) : string :=
  match s with
  | EmptyString => EmptyString
  | String c rest =>
      let n := nat_of_ascii c in
      if is_unreserved c then String c (quote_plus rest)
      else if (n =? 32)%nat then String "+" (quote_plus rest)
      else String "%" (String (hex_digit (n / 16)) (String (hex_digit (n mod 16))
             (quote_plus rest)))
  end.

(** [int(s)] on a string: optional surrounding white space, optional
    sign, decimal digits. *)
Definition to_Z (s : string) : option Z :=
  let t := strip s in
  let digits := match t with
                | String "+" r => match r with
                                  | String "-" _ | String "+" _ => EmptyString
                                  | _ => r
                                  end
                | _ => t
                end in
  option_map Z.of_int (NilZero.int_of_string digits).

(** Number of lines of a text that ends each line with a line feed. *)
Fixpoint count_lines (s : string) : nat :=
  match s with
  | EmptyString => 0%nat
  | String c rest =>
      ((if Ascii.eqb c "010"%char then 1 else 0) + count_lines rest)%nat
  end.

End PyStr.

(* ================================================================== *)
(** * Python values and exceptions *)

Inductive json : Type :=
| JNull
| JBool (b : bool)
| JNum (z : Z)
| JStr (s : string)
| JArr (items : list json)
| JObj (fields : list (string * json)).

(** The exceptions the connectors can meet. *)
Inductive exn : Type :=
| KeyError (key : string)
| IndexError
| TypeError
| ValueError
| AttributeError
| ConnectionError             (* the HTTP layer raised: no response *)
| HTTPError (status : Z)      (* [urlopen] on a status outside 2xx *)
| JSONDecodeError
| ParseError.                 (* [xml.etree.ElementTree.fromstring] *)

Definition result (A : Type) : Type := (exn + A)%type.

Module Py.

Definition ok {A} (a : A) : result A := inr a.
Definition err {A} (e : exn) : result A := inl e.

Definition rbind {A B} (r : result A) (f : A -> result B) : result B :=
  match r with
  | inl e => inl e
  | inr a => f a
  end.

Fixpoint mapR {A B} (f : A -> result B) (l : list A) : result (list B) :=
  match l with
  | [] => ok []
  | a :: l' => rbind (f a) (fun b => rbind (mapR f l') (fun bs => ok (b :: bs)))
  end.

(** Python dictionaries with string keys keep insertion order; [d[k] = v]
    replaces in place or appends. *)
Definition dict := list (string * json).

Fixpoint lookup (k : string) (d : dict) : option json :=
  match d with
  | [] => None
  | (k', v) :: d' => if String.eqb k k' then Some v else lookup k d'
  end.

Fixpoint dict_set (k : string) (v : json) (d : dict) : dict :=
  match d with
  | [] => [(k, v)]
  | (k', v') :: d' =>
      if String.eqb k k' then (k, v) :: d' else (k', v') :: dict_set k v d'
  end.

Definition mem (k : string) (d : dict) : bool :=
  match lookup k d with Some _ => true | None => false end.

(** [{k: f(k) for k in keys}] *)
Definition dict_comp (keys : list string) (f : string -> json) : dict :=
  fold_left (fun d k => dict_set k (f k) d) keys [].

(** Truth value of an object. *)
Definition truthy (j : json) : bool :=
  match j with
  | JNull => false
  | JBool b => b
  | JNum z => negb (z =? 0)
  | JStr s => negb (String.eqb s EmptyString)
  | JArr l => match l with [] => false | _ => true end
  | JObj d => match d with [] => false | _ => true end
  end.

(** An object that behaves as an [int] in arithmetic and comparisons
    ([bool] is a subclass of [int]). *)
Definition as_int (j : json) : option Z :=
  match j with
  | JNum z => Some z
  | JBool b => Some (if b then 1 else 0)
  | _ => None
  end.

(** [j == n] for an integer literal [n]. *)
Definition eq_int (j : json) (n : Z) : bool :=
  match as_int j with Some z => z =? n | None => false end.

(** [j == s] for a string literal [s]. *)
Definition eq_str (j : json) (s : string) : bool :=
  match j with JStr t => String.eqb t s | _ => false end.

(** [n >= j] for an integer [n]. *)
Definition int_ge (n : Z) (j : json) : result bool :=
  match as_int j with Some z => ok (z <=? n) | None => err TypeError end.

(** [j + n] for an integer [n] (the right-hand side of [j += n]). *)
Definition add_int (j : json) (n : Z) : result json :=
  match as_int j with Some z => ok (JNum (z + n)) | None => err TypeError end.

(** [j.get(k, default)] *)
Definition get (j : json) (k : string) (default : json) : result json :=
  match j with
  | JObj d => ok (match lookup k d with Some v => v | None => default end)
  | _ => err AttributeError
  end.

(** [j[k]] for a string [k] *)
Definition getitem (j : json) (k : string) : result json :=
  match j with
  | JObj d => match lookup k d with Some v => ok v | None => err (KeyError k) end
  | _ => err TypeError
  end.

(** [j[0]] *)
Definition getitem0 (j : json) : result json :=
  match j with
  | JArr (x :: _) => ok x
  | JArr [] => err IndexError
  | JStr (String c _) => ok (JStr (String c EmptyString))
  | JStr EmptyString => err IndexError
  | JObj _ => err (KeyError "0")
  | _ => err TypeError
  end.

(** [j[k] = v], giving the object after the assignment *)
Definition setitem (j : json) (k : string) (v : json) : result json :=
  match j with
  | JObj d => ok (JObj (dict_set k v d))
  | _ => err TypeError
  end.

(** [k in j] for a string [k] *)
Definition contains (j : json) (k : string) : result bool :=
  match j with
  | JObj d => ok (mem k d)
  | JArr l => ok (existsb (fun x => eq_str x k) l)
  | JStr s => ok (PyStr.contains k s)
  | _ => err TypeError
  end.

(** The objects [for x in j] yields. *)
Definition iter (j : json) : result (list json) :=
  match j with
  | JArr l => ok l
  | JObj d => ok (map (fun kv => JStr (fst kv)) d)
  | JStr s => ok (map JStr (PyStr.chars s))
  | _ => err TypeError
  end.

Definition as_str (j : json) : result string :=
  match j with JStr s => ok s | _ => err TypeError end.

(** [sep.join(l)]: every item must be a string. *)
Definition join (sep : string) (l : list json) : result json :=
  rbind (mapR as_str l) (fun ss => ok (JStr (PyStr.join sep ss))).

(** [int(j)] *)
Definition int (j : json) : result Z :=
  match j with
  | JNum z => ok z
  | JBool b => ok (if b then 1 else 0)
  | JStr s => match PyStr.to_Z s with Some z => ok z | None => err ValueError end
  | _ => err TypeError
  end.

(** [any(d.values())] *)
Definition any_value (d : dict) : bool := existsb (fun kv => truthy (snd kv)) d.

(** [len(l)] as an [int] *)
Definition len {A} (l : list A) : Z := Z.of_nat (List.length l).

(** [range(a, b)] *)
Definition range (a b : Z) : list Z :=
  map (fun n => a + Z.of_nat n) (seq 0 (Z.to_nat (b - a))).

(** [l[i]], with negative indices counting from the end *)
Definition index {A} (l : list A) (i : Z) : result A :=
  let n := if i <? 0 then i + len l else i in
  if n <? 0 then err IndexError
  else match nth_error l (Z.to_nat n) with
       | Some a => ok a
       | None => err IndexError
       end.

End Py.

(** ** Element trees *)

Inductive xml : Type :=
| Elem (tag : string) (attrib : list (string * string)) (text : option string)
       (children : list xml).

Module ET.

Definition tag (e : xml) : string := match e with Elem t _ _ _ => t end.
Definition attrib (e : xml) : list (string * string) :=
  match e with Elem _ a _ _ => a end.
Definition text (e : xml) : option string := match e with Elem _ _ t _ => t end.
Definition children (e : xml) : list xml := match e with Elem _ _ _ c => c end.

(** [e.findall('t1/t2/...')], the path given by its steps. *)
Fixpoint findall (path : list string) (e : xml) : list xml :=
  match path with
  | [] => [e]
  | t :: p =>
      flat_map (findall p) (filter (fun c => String.eqb (tag c) t) (children e))
  end.

(** [e.find(path)] *)
Definition find (path : list string) (e : xml) : option xml := hd_error (findall path e).

(** [e.attrib.get(k)] *)
Fixpoint attr (k : string) (a : list (string * string)) : option string :=
  match a with
  | [] => None
  | (k', v) :: a' => if String.eqb k k' then Some v else attr k a'
  end.

(** An optional text as a Python object. *)
Definition text_json (t : option string) : json :=
  match t with Some s => JStr s | None => JNull end.

End ET.

(* ================================================================== *)
(** * The instance, the world and the effects *)

(** Messages handed to [log_callback].  The elapsed time printed by some of
    them is not part of the model. *)
Inductive log_msg : Type :=
| RequestAnnounced (backend : string) (n : Z)   (* "<B> API request <n> made." *)
| RequestTimed (backend : string) (n : Z)       (* "... made at <t> seconds." *)
| BudgetReached (backend : string) (budget : Z) (* "... Pausing for 24 hours." *)
| ResultsSaved (file : string).                 (* "All results saved to ..." *)

(** What a connector does to the outside, in the order it does it.  [Merge]
    records the assignment of a ResultCell into [all_results]. *)
Inductive event : Type :=
| Sleep (seconds : Z)
| Request (url : string)
| Log (m : log_msg)
| Progress (n : Z)
| Merge (item : string) (name : option string) (keyword : string) (cell : list json)
| SaveCheckpoint (doc : json)
| WriteResults (file : string) (doc : json)
| RemoveCheckpoint (file : string).

(** The attributes of a connector object that [search] reads and writes.
    [item_index] is called [query_index] in [api_1_ieee.py]. *)
Record instance : Type := mkInstance {
  all_results : json;
  total_saved_records : Z;
  item_index : Z;
  keyword_index : Z;
  name_index : Z;
  request_counter : Z;
  request_log : string
}.

(** What the HTTP layer hands back for a request. *)
Inductive body : Type :=
| Garbled                (* neither JSON nor XML *)
| JsonDoc (j : json)
| XmlDoc (x : xml).

Inductive response : Type :=
| NoResponse             (* the transport failed *)
| Http (status : Z) (content : body).

(** The backend: what it answers to the [n]-th request of the run. *)
Definition network : Type := nat -> string -> response.

(** Files hold JSON documents ([json.dump] / [json.load]). *)
Record world : Type := mkWorld {
  files : list (string * json);
  issued : nat;                    (* requests sent so far *)
  trace : list event               (* oldest first *)
}.

Record state : Type := mkState { self : instance; env : world }.

(** Credentials and the daily budget, fixed by [__init__]. *)
Record config : Type := mkConfig {
  api_key : string;
  insttoken : string;
  max_requests_per_day : Z
}.

Module FS.
Definition exists_ (path : string) (fs : list (string * json)) : bool :=
  Py.mem path fs.
Definition read (path : string) (fs : list (string * json)) : option json :=
  Py.lookup path fs.
Definition write (path : string) (doc : json) (fs : list (string * json)) :=
  Py.dict_set path doc fs.
Definition remove (path : string) (fs : list (string * json)) :=
  filter (fun kv => negb (String.eqb (fst kv) path)) fs.
End FS.

Definition set_all_results (v : json) (i : instance) : instance :=
  mkInstance v (total_saved_records i) (item_index i) (keyword_index i)
             (name_index i) (request_counter i) (request_log i).
Definition set_total_saved_records (v : Z) (i : instance) : instance :=
  mkInstance (all_results i) v (item_index i) (keyword_index i)
             (name_index i) (request_counter i) (request_log i).
Definition set_keyword_index (v : Z) (i : instance) : instance :=
  mkInstance (all_results i) (total_saved_records i) (item_index i) v
             (name_index i) (request_counter i) (request_log i).
Definition set_name_index (v : Z) (i : instance) : instance :=
  mkInstance (all_results i) (total_saved_records i) (item_index i) (keyword_index i)
             v (request_counter i) (request_log i).
Definition set_request_counter (v : Z) (i : instance) : instance :=
  mkInstance (all_results i) (total_saved_records i) (item_index i) (keyword_index i)
             (name_index i) v (request_log i).
Definition set_request_log (v : string) (i : instance) : instance :=
  mkInstance (all_results i) (total_saved_records i) (item_index i) (keyword_index i)
             (name_index i) (request_counter i) v.

Definition set_files (v : list (string * json)) (w : world) : world :=
  mkWorld v (issued w) (trace w).
Definition set_issued (v : nat) (w : world) : world :=
  mkWorld (files w) v (trace w).
Definition add_event (e : event) (w : world) : world :=
  mkWorld (files w) (issued w) (trace w ++ [e]).

(** ** Computations *)

Inductive outcome (A : Type) : Type :=
| Ret (a : A)
| Raise (e : exn)
| Timeout.               (* a [while] loop ran out of fuel *)
Arguments Ret {A} a.
Arguments Raise {A} e.
Arguments Timeout {A}.

Definition M (A : Type) : Type := state -> outcome A * state.

Definition ret {A} (a : A) : M A := fun st => (Ret a, st).
Definition raise {A} (e : exn) : M A := fun st => (Raise e, st).
Definition timeout {A} : M A := fun st => (Timeout, st).

Definition bind {A B} (m : M A) (f : A -> M B) : M B :=
  fun st =>
    match m st with
    | (Ret a, st') => f a st'
    | (Raise e, st') => (Raise e, st')
    | (Timeout, st') => (Timeout, st')
    end.

Declare Scope py_scope.
Delimit Scope py_scope with py.
Notation "x <- m ;; k" := (bind m (fun x => k))
  (at level 100, m at next level, right associativity) : py_scope.
Notation "m ;; k" := (bind m (fun _ => k))
  (at level 100, right associativity) : py_scope.
Open Scope py_scope.

(** A pure operation that may raise. *)
Definition lift {A} (r : result A) : M A :=
  match r with
  | inl e => raise e
  | inr a => ret a
  end.

Definition read {A} (f : instance -> A) : M A := fun st => (Ret (f (self st)), st).
Definition assign (f : instance -> instance) : M unit :=
  fun st => (Ret tt, mkState (f (self st)) (env st)).
Definition emit (e : event) : M unit :=
  fun st => (Ret tt, mkState (self st) (add_event e (env st))).

Definition sleep (seconds : Z) : M unit := emit (Sleep seconds).
Definition log_callback (m : log_msg) : M unit := emit (Log m).
Definition progress_callback (n : Z) : M unit := emit (Progress n).

(** [for x in l: body(x)] *)
Fixpoint for_each {A} (l : list A) (body : A -> M unit) : M unit :=
  match l with
  | [] => ret tt
  | x :: l' => body x ;; for_each l' body
  end.

(** Sending a request: the backend answers according to how many requests
    it has seen. *)
Definition send (net : network) (url : string) : M response :=
  fun st =>
    let w := env st in
    (Ret (net (issued w) url),
     mkState (self st) (set_issued (S (issued w)) (add_event (Request url) w))).

(** [response.json()] and [json.loads(response.read())] *)
Definition parse_json (b : body) : M json :=
  match b with
  | JsonDoc j => ret j
  | _ => raise JSONDecodeError
  end.

(** [ET.fromstring(content)] *)
Definition fromstring (b : body) : result xml :=
  match b with
  | XmlDoc x => Py.ok x
  | _ => Py.err ParseError
  end.

(** Files *)
Definition path_exists (path : string) : M bool :=
  fun st => (Ret (FS.exists_ path (files (env st))), st).
Definition read_file (path : string) : M (option json) :=
  fun st => (Ret (FS.read path (files (env st))), st).
Definition write_file (path : string) (doc : json) : M unit :=
  fun st => (Ret tt, mkState (self st) (set_files (FS.write path doc (files (env st))) (env st))).
Definition remove_file (path : string) : M unit :=
  fun st => (Ret tt, mkState (self st) (set_files (FS.remove path (files (env st))) (env st))).

Definition LF : string := String "010"%char EmptyString.
Definition DQ : string := String "034"%char EmptyString.

(* ================================================================== *)
(** * Checkpoint store (the same methods in the four classes) *)

Module Checkpoint.

Definition as_int (j : json) : M Z :=
  match j with JNum z => ret z | _ => raise TypeError end.

(** [load_checkpoint] of [api_1_ieee.py] and [api_4_pubmed.py]. *)
Definition load_checkpoint (checkpoint_file : string) : M (option json) :=
  read_file checkpoint_file.

(** [load_checkpoint] of [api_2_springer.py] and [api_3_scopus.py], which
    also copies the two request fields into the instance (an integer and
    a string, as [save_checkpoint] writes them). *)
Definition load_checkpoint_restoring (checkpoint_file : string) : M (option json) :=
  data <- read_file checkpoint_file ;;
  match data with
  | Some d =>
      c <- lift (Py.get d "request_counter" (JNum 0)) ;;
      c' <- as_int c ;;
      assign (set_request_counter c') ;;
      l <- lift (Py.get d "request_log" (JStr EmptyString)) ;;
      l' <- lift (Py.as_str l) ;;
      assign (set_request_log l') ;;
      ret (Some d)
  | None => ret None
  end.

(** [save_checkpoint(self, data)]: the two request fields of [data] are
    overwritten by the instance's, then the document is written. *)
Definition save_checkpoint (checkpoint_file : string) (data : json) : M unit :=
  c <- read request_counter ;;
  data1 <- lift (Py.setitem data "request_counter" (JNum c)) ;;
  l <- read request_log ;;
  data2 <- lift (Py.setitem data1 "request_log" (JStr l)) ;;
  emit (SaveCheckpoint data2) ;;
  write_file checkpoint_file data2.

(** The dictionary literal [checkpoint_data] built after each cell;
    [index_key] is ["query_index"] or ["item_index"]. *)
Definition checkpoint_data (index_key : string) (s : instance) (i j k : Z) : json :=
  JObj [ ("all_results", all_results s);
         ("total_saved_records", JNum (total_saved_records s));
         (index_key, JNum i);
         ("keyword_index", JNum j);
         ("name_index", JNum k);
         ("request_counter", JNum (request_counter s));
         ("request_log", JStr (request_log s)) ].

(** The attribute values [__init__] sets before looking for a checkpoint. *)
Definition fresh : instance := mkInstance (JObj []) 0 0 0 0 0 EmptyString.

Definition set_item_index (v : Z) (s : instance) : instance :=
  mkInstance (all_results s) (total_saved_records s) v (keyword_index s)
             (name_index s) (request_counter s) (request_log s).

(** [__init__]: default attributes, then the state of the checkpoint when
    there is one.  [restoring] selects the [load_checkpoint] of
    [api_2]/[api_3], whose [else] branch also clears the request fields.
    Index and counter fields of a checkpoint are integers and its log a
    string; a document with other values there is rejected at once. *)
Definition init (restoring : bool) (index_key checkpoint_file : string) : M unit :=
  assign (fun _ => fresh) ;;
  checkpoint_data <-
    (if restoring then load_checkpoint_restoring checkpoint_file
     else load_checkpoint checkpoint_file) ;;
  match checkpoint_data with
  | Some d =>
      if Py.truthy d then
        r <- lift (Py.getitem d "all_results") ;;
        assign (set_all_results r) ;;
        t <- lift (Py.getitem d "total_saved_records") ;;
        t' <- as_int t ;;
        assign (set_total_saved_records t') ;;
        i <- lift (Py.getitem d index_key) ;;
        i' <- as_int i ;;
        assign (set_item_index i') ;;
        j <- lift (Py.getitem d "keyword_index") ;;
        j' <- as_int j ;;
        assign (set_keyword_index j') ;;
        k <- lift (Py.getitem d "name_index") ;;
        k' <- as_int k ;;
        assign (set_name_index k') ;;
        c <- lift (Py.get d "request_counter" (JNum 0)) ;;
        c' <- as_int c ;;
        assign (set_request_counter c') ;;
        l <- lift (Py.get d "request_log" (JStr EmptyString)) ;;
        l' <- lift (Py.as_str l) ;;
        assign (set_request_log l')
      else
        assign (set_item_index 0) ;;
        assign (set_keyword_index 0) ;;
        assign (set_name_index 0) ;;
        if restoring
        then assign (set_request_log EmptyString) ;; assign (set_request_counter 0)
        else ret tt
  | None =>
      assign (set_item_index 0) ;;
      assign (set_keyword_index 0) ;;
      assign (set_name_index 0) ;;
      if restoring
      then assign (set_request_log EmptyString) ;; assign (set_request_counter 0)
      else ret tt
  end.

End Checkpoint.

(* ================================================================== *)
(** * The three-level iteration shared by the four [search] methods *)

(** The four [search] methods differ in how one (name, keyword) cell is
    fetched, in the names of their files and of the first checkpoint index,
    and in two places of the iteration itself:
    - [api_1] (l.132, 204, 206) and [api_4] (l.181, 228, 230) set
      [self.keyword_index = 0] after the keyword loop of a single-name term
      and again at the end of the body of the outer loop, and
      [self.name_index = 0] after the name loop; [api_2] and [api_3] have
      none of these three statements ([resets_indices]);
    - [api_4] leaves a cell with [continue] when the id search found
      nothing: its [cell] then returns [None]. *)
Record connector : Type := mkConnector {
  checkpoint_file : string;
  results_file : string;
  index_key : string;
  resets_indices : bool;
  cell : bool -> string -> string -> string -> M (option (list json))
         (* nested?, primary term, bias name, keyword *)
}.

Module Results.

(** [j[p1]...[pn]] *)
Fixpoint get_path (path : list string) (j : json) : result json :=
  match path with
  | [] => Py.ok j
  | p :: path' => Py.rbind (Py.getitem j p) (get_path path')
  end.

(** [j[p1]...[pn][k] = v]: the object [j] after the assignment. *)
Fixpoint set_path (path : list string) (k : string) (v : json) (j : json)
  : result json :=
  match path with
  | [] => Py.setitem j k v
  | p :: path' =>
      Py.rbind (Py.getitem j p) (fun sub =>
      Py.rbind (set_path path' k v sub) (fun sub' =>
      Py.setitem j p sub'))
  end.

(** [j[p1]...[pn][k] += n] *)
Definition add_path (path : list string) (k : string) (n : Z) (j : json)
  : result json :=
  Py.rbind (get_path path j) (fun d =>
  Py.rbind (Py.getitem d k) (fun cur =>
  Py.rbind (Py.add_int cur n) (fun new =>
  set_path path k new j))).

(** [{"Total records": 0, "Records": {kw: [] for kw in keywords}}] *)
Definition empty_entry (keywords : list string) : json :=
  JObj [ ("Total records", JNum 0);
         ("Records", JObj (Py.dict_comp keywords (fun _ => JArr []))) ].

(** The entry of a term with several bias names. *)
Definition empty_nested_entry (bias_names keywords : list string) : json :=
  JObj [ ("Total records", JNum 0);
         ("Records", JObj (Py.dict_comp bias_names (fun _ => empty_entry keywords))) ].

End Results.

Section Orchestrator.

Variable C : connector.

(** [if item not in self.all_results: self.all_results[item] = entry] *)
Definition ensure_entry (item : string) (entry : json) : M unit :=
  r <- read all_results ;;
  present <- lift (Py.contains r item) ;;
  if present then ret tt
  else r' <- lift (Py.setitem r item entry) ;; assign (set_all_results r').

(** One Python statement on [self.all_results]. *)
Definition on_results (f : json -> result json) : M unit :=
  r <- read all_results ;;
  r' <- lift (f r) ;;
  assign (set_all_results r').

Definition add_total (n : Z) : M unit :=
  t <- read total_saved_records ;;
  assign (set_total_saved_records (t + n)).

(** The statements that follow the pagination of a cell of a single-name
    term: the cell, the term's count, the run's count. *)
Definition merge_flat (item keyword : string) (records : list json) : M unit :=
  on_results (Results.set_path [item; "Records"] keyword (JArr records)) ;;
  emit (Merge item None keyword records) ;;
  on_results (Results.add_path [item] "Total records" (Py.len records)) ;;
  add_total (Py.len records).

(** The same for a cell of one bias name of a term with several. *)
Definition merge_nested (item name keyword : string) (records : list json) : M unit :=
  on_results (Results.set_path [item; "Records"; name; "Records"] keyword (JArr records)) ;;
  emit (Merge item (Some name) keyword records) ;;
  on_results (Results.add_path [item; "Records"; name] "Total records" (Py.len records)) ;;
  on_results (Results.add_path [item] "Total records" (Py.len records)) ;;
  add_total (Py.len records).

(** [checkpoint_data = {...}; self.save_checkpoint(checkpoint_data)] *)
Definition checkpoint (i j k : Z) : M unit :=
  s <- read (fun s => s) ;;
  Checkpoint.save_checkpoint (checkpoint_file C)
    (Checkpoint.checkpoint_data (index_key C) s i j k).

(** The body of the keyword loop. *)
Definition keyword_body (nested : bool) (keywords : list string)
           (item name : string) (i k j : Z) : M unit :=
  keyword <- lift (Py.index keywords j) ;;
  fetched <- cell C nested item name keyword ;;
  match fetched with
  | None => ret tt                                           (* [continue] *)
  | Some records =>
      (if nested then merge_nested item name keyword records
       else merge_flat item keyword records) ;;
      checkpoint i (j + 1) k
  end.

(** [for j in range(self.keyword_index, len(keywords)): ...] *)
Definition keyword_loop (nested : bool) (keywords : list string)
           (item name : string) (i k : Z) : M unit :=
  j0 <- read keyword_index ;;
  for_each (Py.range j0 (Py.len keywords)) (keyword_body nested keywords item name i k).

Definition reset_keyword_index : M unit :=
  if resets_indices C then assign (set_keyword_index 0) else ret tt.
Definition reset_name_index : M unit :=
  if resets_indices C then assign (set_name_index 0) else ret tt.

(** The name loop of a term with several bias names. *)
Definition name_body (keywords bias_names : list string) (item : string) (i k : Z)
  : M unit :=
  name <- lift (Py.index bias_names k) ;;
  keyword_loop true keywords item name i k ;;
  assign (set_keyword_index 0).

(** The body of the outer loop. *)
Definition item_body (query_terms keywords : list string) (i : Z) : M unit :=
  item <- lift (Py.index query_terms i) ;;
  let bias_names := PyStr.split " or " item in
  (if Py.len bias_names =? 1 then
     ensure_entry item (Results.empty_entry keywords) ;;
     name <- lift (Py.index bias_names 0) ;;
     keyword_loop false keywords item name i 0 ;;
     reset_keyword_index
   else
     ensure_entry item (Results.empty_nested_entry bias_names keywords) ;;
     k0 <- read name_index ;;
     for_each (Py.range k0 (Py.len bias_names)) (name_body keywords bias_names item i) ;;
     reset_name_index) ;;
  reset_keyword_index ;;
  assign (set_name_index 0).

(** What follows the outer loop: the final document, then the removal of
    the checkpoint. *)
Definition finish : M unit :=
  t <- read total_saved_records ;;
  r <- read all_results ;;
  let final_output := JObj [("Total", JNum t); ("Biases", r)] in
  emit (WriteResults (results_file C) final_output) ;;
  write_file (results_file C) final_output ;;
  log_callback (ResultsSaved (results_file C)) ;;
  present <- path_exists (checkpoint_file C) ;;
  if present
  then emit (RemoveCheckpoint (checkpoint_file C)) ;; remove_file (checkpoint_file C)
  else ret tt.

(** [search(self, query_terms, keywords, log_callback, progress_callback)] *)
Definition search (query_terms keywords : list string) : M unit :=
  i0 <- read item_index ;;
  for_each (Py.range i0 (Py.len query_terms)) (item_body query_terms keywords) ;;
  finish.

End Orchestrator.

(* ================================================================== *)
(** * [api_1_ieee.py] *)

Module IEEEAPI.

Definition end_point : string := "https://ieeexploreapi.ieee.org/api/v1/search/articles".
Definition checkpoint_file : string := "checkpoint_ieee.json".
Definition results_file : string := "1_IEEE_results.json".

Definition init : M unit := Checkpoint.init false "query_index" checkpoint_file.

Definition form_query (bias keyword : string) : string :=
  PyStr.join " OR "
    (map (fun term => "(" ++ DQ ++ PyStr.strip term ++ DQ ++ " AND " ++ DQ ++ keyword ++ DQ ++ ")")
         (PyStr.split " or " bias)).

Definition url_of (api_key query_text : string) (start_record : Z) : string :=
  end_point ++ "?apikey=" ++ api_key ++ "&format=json&max_records=25"
    ++ "&start_record=" ++ PyStr.of_Z start_record
    ++ "&querytext=" ++ PyStr.quote_plus query_text.

Definition log_line (n : Z) (url : string) : string :=
  "IEEE API request #" ++ PyStr.of_Z n ++ ": " ++ url ++ LF.

Section WithBackend.
Variable net : network.
Variable api_key : string.

(** [urlopen] raises on a failed transport and on a status outside 2xx. *)
Definition urlopen (url : string) : M body :=
  r <- send net url ;;
  match r with
  | NoResponse => raise ConnectionError
  | Http status content =>
      if (200 <=? status) && (status <? 300) then ret content
      else raise (HTTPError status)
  end.

Definition call_api (query_text : string) (start_record : Z) : M json :=
  sleep 1 ;;
  let url := url_of api_key query_text start_record in
  c <- read request_counter ;;
  l <- read request_log ;;
  assign (set_request_log (l ++ log_line (c + 1) url)) ;;
  data <- urlopen url ;;
  c <- read request_counter ;;
  assign (set_request_counter (c + 1)) ;;
  parse_json data.

(** The record appended for one article (l.92-108). *)
Definition record_of (article : json) : result json :=
  Py.rbind (Py.get article "title" (JStr "null")) (fun title =>
  Py.rbind (Py.get article "abstract" (JStr "null")) (fun abstract =>
  Py.rbind (Py.get article "authors" (JObj [])) (fun a =>
  Py.rbind (Py.get a "authors" (JArr [])) (fun a' =>
  Py.rbind (Py.iter a') (fun authors =>
  Py.rbind (Py.mapR (fun author => Py.get author "full_name" (JStr "null")) authors)
           (fun names =>
  Py.rbind (Py.join ", " names) (fun authors =>
  Py.rbind (Py.get article "doi" (JStr "No DOI")) (fun doi =>
  Py.rbind (Py.get article "publication_year" (JStr "null")) (fun publication_year =>
  Py.rbind (Py.get article "isbn" (JStr "null")) (fun isbn =>
  Py.rbind (Py.get article "issn" (JStr "null")) (fun issn =>
  Py.ok (JObj [ ("title", title); ("abstract", abstract); ("authors", authors);
                ("doi", doi); ("isbn", isbn); ("issn", issn);
                ("publication year", publication_year) ])))))))))))).

(** The records of one page: [for article in articles: ...append(...)]. *)
Definition records_of_page (response_data : json) : result (list json) :=
  Py.rbind (Py.get response_data "articles" (JArr [])) (fun articles =>
  Py.rbind (Py.iter articles) (fun articles =>
  Py.mapR record_of articles)).

(** The [while True] loop of a cell (l.84-116). *)
Fixpoint page_loop (fuel : nat) (query_text : string) (start_record : Z)
         (total_records : json) (records_for_keyword : list json)
  : M (list json) :=
  match fuel with
  | O => timeout
  | S fuel' =>
      response_data <- call_api query_text start_record ;;
      total_records <-
        (if Py.eq_int total_records 0
         then lift (Py.get response_data "total_records" (JNum 0))
         else ret total_records) ;;
      page <- lift (records_of_page response_data) ;;
      let records_for_keyword := (records_for_keyword ++ page)%list in
      last <- lift (Py.int_ge (start_record + 24) total_records) ;;
      if last then ret records_for_keyword
      else
        c <- read request_counter ;;
        log_callback (RequestTimed "IEEE" c) ;;
        progress_callback c ;;
        page_loop fuel' query_text (start_record + 25) total_records records_for_keyword
  end.

(** From the head of the keyword loop to the end of the pagination. *)
Definition cell (fuel : nat) (nested : bool) (query name keyword : string)
  : M (option (list json)) :=
  let query_text := form_query (if nested then name else query) keyword in
  c <- read request_counter ;;
  log_callback (RequestAnnounced "IEEE" (c + 1)) ;;
  records <- page_loop fuel query_text 1 (JNum 0) [] ;;
  ret (Some records).

Definition connector (fuel : nat) : connector :=
  mkConnector checkpoint_file results_file "query_index" true (cell fuel).

Definition search (fuel : nat) (query_terms keywords : list string) : M unit :=
  search (connector fuel) query_terms keywords.

End WithBackend.

End IEEEAPI.

(* ================================================================== *)
(** * [api_2_springer.py] *)

Module SpringerAPI.

Definition base_url : string := "https://api.springernature.com".
Definition api_path : string := "/openaccess/json".
Definition checkpoint_file : string := "checkpoint_springer.json".
Definition results_file : string := "2_springer_results.json".

(** The constants of [__init__]. *)
Definition config_of (api_key : string) : config := mkConfig api_key EmptyString 500.

Definition init : M unit := Checkpoint.init true "item_index" checkpoint_file.

Definition log_line (n : Z) (url : string) : string :=
  "Springer API request #" ++ PyStr.of_Z n ++ ": " ++ url ++ LF.

(** One element of the list comprehension of [extract_data]. *)
Definition record_of (record : json) : result json :=
  Py.rbind (Py.get record "title" (JStr "null")) (fun title =>
  Py.rbind (Py.get record "abstract" (JStr "null")) (fun abstract =>
  Py.rbind (Py.get record "creators" (JArr [])) (fun creators =>
  Py.rbind (Py.iter creators) (fun creators =>
  Py.rbind (Py.mapR (fun author => Py.get author "creator" (JStr "null")) creators)
           (fun names =>
  Py.rbind (Py.join ", " names) (fun authors =>
  Py.rbind (Py.get record "doi" (JStr "No DOI")) (fun doi =>
  Py.rbind (Py.get record "isbn" (JStr "null")) (fun isbn =>
  Py.rbind (Py.get record "issn" (JStr "null")) (fun issn =>
  Py.rbind (Py.get record "publicationDate" (JStr "null")) (fun publicationDate =>
  Py.ok (JObj [ ("title", title); ("abstract", abstract); ("authors", authors);
                ("doi", doi); ("isbn", isbn); ("issn", issn);
                ("publicationDate", publicationDate) ]))))))))))).

Definition extract_data (data : json) : result (list json) :=
  Py.rbind (Py.get data "records" (JArr [])) (fun records =>
  Py.rbind (Py.iter records) (fun records =>
  Py.mapR record_of records)).

Section WithBackend.
Variable net : network.
Variable cfg : config.

Definition get_data_from_url (url : string) : M json :=
  c <- read request_counter ;;
  (if max_requests_per_day cfg <=? c then
     log_callback (BudgetReached "Springer" (max_requests_per_day cfg)) ;;
     sleep (24 * 60 * 60) ;;
     assign (set_request_counter 0)
   else ret tt) ;;
  c <- read request_counter ;;
  l <- read request_log ;;
  assign (set_request_log (l ++ log_line (c + 1) url)) ;;
  response <- send net url ;;
  match response with
  | NoResponse => raise ConnectionError
  | Http _ content =>
      data <- parse_json content ;;
      c <- read request_counter ;;
      assign (set_request_counter (c + 1)) ;;
      ret data
  end.

(** The loop [while current_url:] of a cell, entered with a non-empty
    [current_url]. *)
Fixpoint page_loop (fuel : nat) (current_url : string) (total_records : Z)
         (item_results : list json) : M (list json) :=
  match fuel with
  | O => timeout
  | S fuel' =>
      sleep 1 ;;
      data <- get_data_from_url current_url ;;
      c <- read request_counter ;;
      log_callback (RequestTimed "Springer" c) ;;
      if negb (Py.truthy data) then ret item_results            (* [break] *)
      else
        total_records <-
          (if total_records =? 0 then
             lift (Py.rbind (Py.getitem data "result") (fun r =>
                   Py.rbind (Py.getitem0 r) (fun r0 =>
                   Py.rbind (Py.getitem r0 "total") Py.int)))
           else ret total_records) ;;
        page <- lift (extract_data data) ;;
        let item_results := (item_results ++ page)%list in
        next <- lift (Py.get data "nextPage" JNull) ;;
        if Py.truthy next then
          path <- lift (Py.as_str next) ;;       (* [self.base_url + current_url] *)
          c <- read request_counter ;;
          progress_callback c ;;
          page_loop fuel' (base_url ++ path) total_records item_results
        else
          c <- read request_counter ;;
          progress_callback c ;;
          ret item_results
  end.

Definition initial_url (nested : bool) (name keyword : string) : string :=
  let query := "(" ++ DQ ++ PyStr.strip name ++ DQ ++ " AND " ++ DQ ++ keyword ++ DQ ++ ")" in
  base_url ++ api_path ++ "?q=" ++ query ++ "&api_key=" ++ api_key cfg
    ++ (if nested then "&p=100&s=1" else EmptyString).

Definition cell (fuel : nat) (nested : bool) (item name keyword : string)
  : M (option (list json)) :=
  item_results <- page_loop fuel (initial_url nested name keyword) 0 [] ;;
  ret (Some item_results).

Definition connector (fuel : nat) : connector :=
  mkConnector checkpoint_file results_file "item_index" false (cell fuel).

Definition search (fuel : nat) (initial_terms secondary_terms : list string) : M unit :=
  search (connector fuel) initial_terms secondary_terms.

End WithBackend.

End SpringerAPI.

(* ================================================================== *)
(** * [api_3_scopus.py] *)

Module ScopusAPI.

Definition base_url : string := "https://api.elsevier.com/content/search/scopus".
Definition checkpoint_file : string := "checkpoint_scopus.json".
Definition results_file : string := "3_scopus_results.json".

Definition config_of (api_key insttoken : string) : config := mkConfig api_key insttoken 500.

Definition init : M unit := Checkpoint.init true "item_index" checkpoint_file.

Definition log_line (n : Z) (url : string) : string :=
  "Scopus API request #" ++ PyStr.of_Z n ++ ": " ++ url ++ LF.

(** [article_data] for one entry (l.72-80). *)
Definition article_data (entry : json) : result Py.dict :=
  Py.rbind (Py.get entry "dc:title" JNull) (fun title =>
  Py.rbind (Py.get entry "dc:description" JNull) (fun abstract =>
  Py.rbind (Py.get entry "author" (JArr [])) (fun author =>
  Py.rbind (Py.iter author) (fun author =>
  Py.rbind (Py.mapR (fun a => Py.get a "authname" (JStr "null")) author) (fun names =>
  Py.rbind (Py.join ", " names) (fun authors =>
  Py.rbind (Py.get entry "prism:doi" JNull) (fun doi =>
  Py.rbind (Py.get entry "prism:isbn" (JStr "null")) (fun isbn =>
  Py.rbind (Py.get entry "prism:issn" (JStr "null")) (fun issn =>
  Py.rbind (Py.get entry "prism:coverDate" (JStr EmptyString)) (fun coverDate =>
  Py.rbind (match coverDate with
            | JStr s => Py.ok (hd EmptyString (PyStr.split "-" s))
            | _ => Py.err AttributeError
            end) (fun year =>
  Py.ok [ ("title", title); ("abstract", abstract); ("authors", authors);
          ("doi", doi); ("isbn", isbn); ("issn", issn);
          ("publication year", JStr year) ]))))))))))).

(** The loop of [extract_titles_and_abstracts]: an entry is appended only
    if one of its values is true. *)
Fixpoint extract_entries (entries : list json) (results : list json)
  : result (list json) :=
  match entries with
  | [] => Py.ok results
  | entry :: rest =>
      Py.rbind (article_data entry) (fun d =>
      extract_entries rest
        (if Py.any_value d then (results ++ [JObj d])%list else results))
  end.

Definition extract_titles_and_abstracts (data : json) : result (list json) :=
  Py.rbind (Py.get data "search-results" (JObj [])) (fun sr =>
  Py.rbind (Py.get sr "entry" (JArr [])) (fun entries =>
  Py.rbind (Py.iter entries) (fun entries =>
  extract_entries entries []))).

(** [next((link['@href'] for link in links if link['@ref'] == 'next'), None)] *)
Fixpoint next_href (links : list json) : result json :=
  match links with
  | [] => Py.ok JNull
  | link :: rest =>
      Py.rbind (Py.getitem link "@ref") (fun ref =>
      if Py.eq_str ref "next" then Py.getitem link "@href" else next_href rest)
  end.

Section WithBackend.
Variable net : network.
Variable cfg : config.

(** Returns [None] on a status other than 200. *)
Definition get_data_from_url (url : string) : M json :=
  c <- read request_counter ;;
  (if max_requests_per_day cfg <=? c then
     log_callback (BudgetReached "Scopus" (max_requests_per_day cfg)) ;;
     sleep (24 * 60 * 60) ;;
     assign (set_request_counter 0)
   else ret tt) ;;
  c <- read request_counter ;;
  l <- read request_log ;;
  assign (set_request_log (l ++ log_line (c + 1) url)) ;;
  response <- send net url ;;
  match response with
  | NoResponse => raise ConnectionError
  | Http status content =>
      if negb (status =? 200) then ret JNull
      else
        data <- parse_json content ;;
        c <- read request_counter ;;
        assign (set_request_counter (c + 1)) ;;
        ret data
  end.

(** [total_records == 0 and 'search-results' in data and
    'opensearch:totalResults' in data['search-results']], then the
    assignment it guards. *)
Definition read_total (total_records : Z) (data : json) : result Z :=
  if total_records =? 0 then
    Py.rbind (Py.contains data "search-results") (fun has_sr =>
    if has_sr then
      Py.rbind (Py.getitem data "search-results") (fun sr =>
      Py.rbind (Py.contains sr "opensearch:totalResults") (fun has_total =>
      if has_total then
        Py.rbind (Py.getitem data "search-results") (fun sr =>
        Py.rbind (Py.getitem sr "opensearch:totalResults") Py.int)
      else Py.ok total_records))
    else Py.ok total_records)
  else Py.ok total_records.

(** The loop [while current_url:] of a cell.  A next link that is true
    but not a string is refused when it is found (Python would enter the
    next iteration and fail there, inside the HTTP layer). *)
Fixpoint page_loop (fuel : nat) (current_url : string) (total_records : Z)
         (item_results : list json) : M (list json) :=
  match fuel with
  | O => timeout
  | S fuel' =>
      sleep 1 ;;
      data <- get_data_from_url current_url ;;
      c <- read request_counter ;;
      log_callback (RequestTimed "Scopus" c) ;;
      if negb (Py.truthy data) then ret item_results            (* [break] *)
      else
        total_records <- lift (read_total total_records data) ;;
        page <- lift (extract_titles_and_abstracts data) ;;
        let item_results := (item_results ++ page)%list in
        next_link <- lift (Py.rbind (Py.getitem data "search-results") (fun sr =>
                           Py.rbind (Py.getitem sr "link") (fun links =>
                           Py.rbind (Py.iter links) next_href))) ;;
        if Py.truthy next_link then
          url <- lift (Py.as_str next_link) ;;
          c <- read request_counter ;;
          progress_callback c ;;
          page_loop fuel' url total_records item_results
        else
          c <- read request_counter ;;
          progress_callback c ;;
          ret item_results
  end.

Definition initial_url (name keyword : string) : string :=
  let query := "(" ++ DQ ++ PyStr.strip name ++ DQ ++ " AND " ++ DQ ++ keyword ++ DQ ++ ")" in
  base_url ++ "?query=" ++ query
    ++ "&httpAccept=application%2Fjson&count=25&view=COMPLETE&apikey=" ++ api_key cfg
    ++ "&insttoken=" ++ insttoken cfg.

Definition cell (fuel : nat) (nested : bool) (item name keyword : string)
  : M (option (list json)) :=
  item_results <- page_loop fuel (initial_url name keyword) 0 [] ;;
  ret (Some item_results).

Definition connector (fuel : nat) : connector :=
  mkConnector checkpoint_file results_file "item_index" false (cell fuel).

Definition search (fuel : nat) (initial_terms secondary_terms : list string) : M unit :=
  search (connector fuel) initial_terms secondary_terms.

End WithBackend.

End ScopusAPI.

(* ================================================================== *)
(** * [api_4_pubmed.py] *)

Module PubMedAPI.

Definition base_url : string := "https://eutils.ncbi.nlm.nih.gov/entrez/eutils".
Definition esearch_path : string := "/esearch.fcgi".
Definition efetch_path : string := "/efetch.fcgi".
Definition checkpoint_file : string := "checkpoint_pubmed.json".
Definition results_file : string := "4_pubmed_results_all.json".

Definition config_of (api_key : string) : config := mkConfig api_key EmptyString 500.

Definition init : M unit := Checkpoint.init false "item_index" checkpoint_file.

Definition log_line (n : Z) (url : string) : string :=
  "PubMed API request #" ++ PyStr.of_Z n ++ ": " ++ url ++ LF.

(** [d[k] = e.text if e is found] *)
Definition set_text (k : string) (e : option xml) (d : Py.dict) : Py.dict :=
  match e with
  | Some x => Py.dict_set k (ET.text_json (ET.text x)) d
  | None => d
  end.

(** The loop over the children of [ArticleIdList] (l.84-88). *)
Definition set_ids (article_ids : option xml) (d : Py.dict) : Py.dict :=
  match article_ids with
  | Some ids =>
      fold_left (fun d article_id =>
                   match ET.attr "IdType" (ET.attrib article_id) with
                   | Some t =>
                       if String.eqb t "doi"
                       then Py.dict_set "doi" (ET.text_json (ET.text article_id)) d
                       else if String.eqb t "isbn"
                       then Py.dict_set "isbn" (ET.text_json (ET.text article_id)) d
                       else d
                   | None => d
                   end)
                (ET.children ids) d
  | None => d
  end.

(** One element of [author_names] (l.101-106). *)
Definition author_name (author : xml) : result json :=
  match ET.find ["LastName"] author, ET.find ["ForeName"] author with
  | Some last, Some fore =>
      match ET.text last, ET.text fore with
      | Some l, Some f => Py.ok (JStr (l ++ " " ++ f))
      | _, _ => Py.err TypeError
      end
  | _, _ => Py.ok (JStr "null")
  end.

Definition set_authors (authors : option xml) (d : Py.dict) : result Py.dict :=
  match authors with
  | Some a =>
      Py.rbind (Py.mapR author_name (ET.findall ["Author"] a)) (fun author_names =>
      Py.rbind (Py.join ", " author_names) (fun s =>
      Py.ok (Py.dict_set "authors" s d)))
  | None => Py.ok d
  end.

Definition within (article : option xml) (path : list string) : option xml :=
  match article with
  | Some a => ET.find path a
  | None => None
  end.

(** [article_data] as the body of the loop of [extract_pubmed_data]
    fills it (l.67-107); [None] when the article has no citation
    ([continue]). *)
Definition article_data (pubmed_article : xml) : result (option Py.dict) :=
  match ET.find ["MedlineCitation"] pubmed_article with
  | None => Py.ok None                                       (* [continue] *)
  | Some medline_citation =>
      let article_title := ET.find ["Article"; "ArticleTitle"] medline_citation in
      let d := [("title", match article_title with
                          | Some t => ET.text_json (ET.text t)
                          | None => JStr "null"
                          end)] in
      let article := ET.find ["Article"] medline_citation in
      let d := set_text "abstract" (within article ["Abstract"; "AbstractText"]) d in
      let d := set_ids (ET.find ["PubmedData"; "ArticleIdList"] pubmed_article) d in
      let journal := within article ["Journal"] in
      let d := set_text "issn" (within journal ["ISSN"]) d in
      let d := set_text "publication year"
                        (within article ["Journal"; "JournalIssue"; "PubDate"; "Year"]) d in
      Py.rbind (set_authors (within article ["AuthorList"]) d) (fun d =>
      Py.ok (Some d))
  end.

(** The loop of [extract_pubmed_data]: an article is appended only if one
    of its values is true (l.109-110). *)
Fixpoint extract_articles (l : list xml) (articles : list json) : result (list json) :=
  match l with
  | [] => Py.ok articles
  | pubmed_article :: rest =>
      Py.rbind (article_data pubmed_article) (fun r =>
      extract_articles rest
        (match r with
         | Some d => if Py.any_value d then (articles ++ [JObj d])%list else articles
         | None => articles
         end))
  end.

Definition extract_pubmed_data (xml_content : body) : result (list json) :=
  Py.rbind (fromstring xml_content) (fun root =>
  extract_articles (ET.findall ["PubmedArticle"] root) []).

(** [[l[k:k+100] for k in range(0, len(l), 100)]] *)
Fixpoint chunks_from {A} (n : nat) (l : list A) : list (list A) :=
  match n with
  | O => []
  | S n' =>
      match l with
      | [] => []
      | _ => firstn 100 l :: chunks_from n' (skipn 100 l)
      end
  end.
Definition chunks {A} (l : list A) : list (list A) := chunks_from (List.length l) l.

(** [",".join(pmid_chunk)] on texts that may be [None]. *)
Definition join_ids (chunk : list (option string)) : result string :=
  Py.rbind (Py.join "," (map ET.text_json chunk)) Py.as_str.

Section WithBackend.
Variable net : network.
Variable cfg : config.

(** Returns the raw content, whatever the status. *)
Definition get_data_from_url (url : string) : M body :=
  c <- read request_counter ;;
  (if max_requests_per_day cfg <=? c then
     log_callback (BudgetReached "PubMed" (max_requests_per_day cfg)) ;;
     sleep (24 * 60 * 60) ;;
     assign (set_request_counter 0)
   else ret tt) ;;
  c <- read request_counter ;;
  l <- read request_log ;;
  assign (set_request_log (l ++ log_line (c + 1) url)) ;;
  response <- send net url ;;
  match response with
  | NoResponse => raise ConnectionError
  | Http _ content =>
      c <- read request_counter ;;
      assign (set_request_counter (c + 1)) ;;
      ret content
  end.

Definition esearch_url (query : string) (retstart retmax : Z) : string :=
  base_url ++ esearch_path ++ "?db=pubmed&term=" ++ query
    ++ "&retstart=" ++ PyStr.of_Z retstart ++ "&retmax=" ++ PyStr.of_Z retmax
    ++ "&api_key=" ++ api_key cfg.

Definition efetch_url (pmid_chunk : string) : string :=
  base_url ++ efetch_path ++ "?db=pubmed&id=" ++ pmid_chunk
    ++ "&retmode=xml&api_key=" ++ api_key cfg.

(** The [while True] loop of [get_pmids_for_search_term]. *)
Fixpoint id_loop (fuel : nat) (query : string) (retstart : Z)
         (pmids : list (option string)) : M (list (option string)) :=
  match fuel with
  | O => timeout
  | S fuel' =>
      esearch_response <- get_data_from_url (esearch_url query retstart 100) ;;
      c <- read request_counter ;;
      log_callback (RequestAnnounced "PubMed" c) ;;
      root <- lift (fromstring esearch_response) ;;
      let current_pmids := map ET.text (ET.findall ["IdList"; "Id"] root) in
      match current_pmids with
      | [] => ret pmids                                        (* [break] *)
      | _ => id_loop fuel' query (retstart + 100) (pmids ++ current_pmids)%list
      end
  end.

Definition get_pmids_for_search_term (fuel : nat) (search_term : string)
  : M (list (option string)) :=
  match PyStr.split " AND " search_term with
  | [term1; term2] =>
      let query := "%22" ++ PyStr.replace_char " " "+" term1 ++ "%22+AND+%22"
                     ++ PyStr.replace_char " " "+" term2 ++ "%22" in
      id_loop fuel query 0 []
  | _ => raise ValueError                        (* unpacking into two names *)
  end.

(** The loop over the id chunks of a cell. *)
Fixpoint fetch_chunks (cs : list (list (option string))) (item_results : list json)
  : M (list json) :=
  match cs with
  | [] => ret item_results
  | chunk :: rest =>
      pmid_chunk <- lift (join_ids chunk) ;;
      efetch_response <- get_data_from_url (efetch_url pmid_chunk) ;;
      page <- lift (extract_pubmed_data efetch_response) ;;
      c <- read request_counter ;;
      log_callback (RequestAnnounced "PubMed" c) ;;
      progress_callback c ;;
      fetch_chunks rest (item_results ++ page)%list
  end.

Definition cell (fuel : nat) (nested : bool) (item name keyword : string)
  : M (option (list json)) :=
  let search_term := PyStr.strip name ++ " AND " ++ keyword in
  pmids <- get_pmids_for_search_term fuel search_term ;;
  match pmids with
  | [] => ret None                                         (* [continue] *)
  | _ =>
      item_results <- fetch_chunks (chunks pmids) [] ;;
      ret (Some item_results)
  end.

Definition connector (fuel : nat) : connector :=
  mkConnector checkpoint_file results_file "item_index" true (cell fuel).

Definition search (fuel : nat) (initial_terms secondary_terms : list string) : M unit :=
  search (connector fuel) initial_terms secondary_terms.

End WithBackend.

End PubMedAPI.

(* ================================================================== *)
(** * Specification vocabulary *)

(** ** Reading a trace *)

Module Trace.

Definition requests (evs : list event) : list string :=
  flat_map (fun e => match e with Request u => [u] | _ => [] end) evs.

Definition sleeps (evs : list event) : list Z :=
  flat_map (fun e => match e with Sleep s => [s] | _ => [] end) evs.

Definition is_merge (e : event) : bool :=
  match e with Merge _ _ _ _ => true | _ => false end.
Definition is_save (e : event) : bool :=
  match e with SaveCheckpoint _ => true | _ => false end.
Definition is_remove (e : event) : bool :=
  match e with RemoveCheckpoint _ => true | _ => false end.
Definition is_write (e : event) : bool :=
  match e with WriteResults _ _ => true | _ => false end.

Definition count (p : event -> bool) (evs : list event) : nat :=
  List.length (filter p evs).

(** The cells merged, as (primary term, bias name, keyword). *)
Definition cells (evs : list event) : list (string * option string * string) :=
  flat_map (fun e => match e with Merge i n k _ => [(i, n, k)] | _ => [] end) evs.

(** Events of the pagination of a cell: nothing is merged or written. *)
Definition quiet (e : event) : bool :=
  match e with
  | Sleep _ | Request _ | Log _ | Progress _ => true
  | _ => false
  end.

(** Sum of the lengths of the cells merged. *)
Definition merged_records (evs : list event) : Z :=
  fold_right (fun e acc => match e with Merge _ _ _ c => Py.len c + acc | _ => acc end)
             0 evs.

(** Replays a trace from a count [t] of saved records: every merged cell
    adds its length, and every checkpoint written must carry the count
    reached at that point.  [None] when a checkpoint disagrees. *)
Fixpoint audit (t : Z) (evs : list event) : option Z :=
  match evs with
  | [] => Some t
  | Merge _ _ _ c :: evs' => audit (t + Py.len c) evs'
  | SaveCheckpoint doc :: evs' =>
      match Py.getitem doc "total_saved_records" with
      | inr (JNum t') => if t' =? t then audit t evs' else None
      | _ => None
      end
  | _ :: evs' => audit t evs'
  end.

(** Replays a trace watching merges and checkpoints: a merge must find
    no merge waiting for its checkpoint, a checkpoint must find one.  The
    result tells whether a merge is still waiting; [None] when the order
    is broken. *)
Fixpoint paired (waiting : bool) (evs : list event) : option bool :=
  match evs with
  | [] => Some waiting
  | Merge _ _ _ _ :: evs' => if waiting then None else paired true evs'
  | SaveCheckpoint _ :: evs' => if waiting then paired false evs' else None
  | _ :: evs' => paired waiting evs'
  end.

End Trace.

(** ** Well-formed results *)

Module Shape.

Definition has_total (fields : Py.dict) : bool :=
  match Py.lookup "Total records" fields with
  | Some t => match Py.as_int t with Some _ => true | None => false end
  | None => false
  end.

Definition has_records (fields : Py.dict) (p : Py.dict -> bool) : bool :=
  match Py.lookup "Records" fields with
  | Some (JObj r) => p r
  | _ => false
  end.

(** The entry of a single-name term, and of one bias name. *)
Definition flat_ok (v : json) : bool :=
  match v with
  | JObj fields => has_total fields && has_records fields (fun _ => true)
  | _ => false
  end.

(** The entry of a term with the bias names [names]. *)
Definition nested_ok (names : list string) (v : json) : bool :=
  match v with
  | JObj fields =>
      has_total fields &&
      has_records fields (fun r =>
        forallb (fun name => match Py.lookup name r with
                             | Some sub => flat_ok sub
                             | None => false
                             end) names)
  | _ => false
  end.

Definition entry_ok (kv : string * json) : bool :=
  let names := PyStr.split " or " (fst kv) in
  if Py.len names =? 1 then flat_ok (snd kv) else nested_ok names (snd kv).

(** [all_results] as [search] builds it. *)
Definition wf (r : json) : bool :=
  match r with
  | JObj d => forallb entry_ok d
  | _ => false
  end.

End Shape.

(** ** The four backends *)

Inductive backend : Type := IEEE | Springer | Scopus | PubMed.

Definition metered (b : backend) : bool :=
  match b with IEEE => false | _ => true end.

Definition connector_of (b : backend) (net : network) (cfg : config) (fuel : nat)
  : connector :=
  match b with
  | IEEE => IEEEAPI.connector net (api_key cfg) fuel
  | Springer => SpringerAPI.connector net cfg fuel
  | Scopus => ScopusAPI.connector net cfg fuel
  | PubMed => PubMedAPI.connector net cfg fuel
  end.

(** [search] of the class of backend [b]. *)
Definition search_of (b : backend) (net : network) (cfg : config) (fuel : nat)
           (terms keywords : list string) : M unit :=
  search (connector_of b net cfg fuel) terms keywords.

(** [__init__] of the class of backend [b]. *)
Definition init_of (b : backend) : M unit :=
  match b with
  | IEEE => IEEEAPI.init
  | Springer => SpringerAPI.init
  | Scopus => ScopusAPI.init
  | PubMed => PubMedAPI.init
  end.

(** ** One connector call *)

Definition backend_name (b : backend) : string :=
  match b with
  | IEEE => "IEEE"
  | Springer => "Springer"
  | Scopus => "Scopus"
  | PubMed => "PubMed"
  end.

(** The method of backend [b] that sends one request: [call_api] with a
    query text and a start record for [IEEE], [get_data_from_url] with a
    URL for the others. *)
Definition connector_call (b : backend) (net : network) (cfg : config)
           (q : string) (start_record : Z) : M unit :=
  match b with
  | IEEE => IEEEAPI.call_api net (api_key cfg) q start_record ;; ret tt
  | Springer => SpringerAPI.get_data_from_url net cfg q ;; ret tt
  | Scopus => ScopusAPI.get_data_from_url net cfg q ;; ret tt
  | PubMed => PubMedAPI.get_data_from_url net cfg q ;; ret tt
  end.

(** The URL it requests. *)
Definition call_url (b : backend) (cfg : config) (q : string) (start_record : Z) : string :=
  match b with
  | IEEE => IEEEAPI.url_of (api_key cfg) q start_record
  | _ => q
  end.

(** The line ["<Backend> API request #<n>: <url>"]. *)
Definition request_line (b : backend) (n : Z) (url : string) : string :=
  backend_name b ++ " API request #" ++ PyStr.of_Z n ++ ": " ++ url ++ LF.

(** The responses on which the call of backend [b] goes through to its
    last statement. *)
Definition answered (b : backend) (r : response) : bool :=
  match b, r with
  | IEEE, Http status (JsonDoc _) => (200 <=? status) && (status <? 300)
  | Springer, Http _ (JsonDoc _) => true
  | Scopus, Http status (JsonDoc _) => status =? 200
  | PubMed, Http _ _ => true
  | _, _ => false
  end.

(** The events since the state [st0]. *)
Definition since (st0 st : state) : list event :=
  skipn (List.length (trace (env st0))) (trace (env st)).

(** Several calls in a row. *)
Definition connector_calls (b : backend) (net : network) (cfg : config)
           (qs : list (string * Z)) : M unit :=
  for_each qs (fun q => connector_call b net cfg (fst q) (snd q)).

(** ** Pages of an offset-style cell *)

(** The number of pages of 25 records that cover [total] records, one at
    least. *)
Definition pages (total : Z) : nat := Z.to_nat (Z.max 1 ((total + 24) / 25)).

(** A backend that answers every request of the offset-style connector
    with a page from which the records can be read. *)
Definition serves_pages (net : network) : Prop :=
  forall n u, exists j rs,
    net n u = Http 200 (JsonDoc j) /\ IEEEAPI.records_of_page j = inr rs.

(** The start offsets of the first [n] pages. *)
Definition page_starts (n : nat) : list Z :=
  map (fun i => 1 + 25 * Z.of_nat i) (seq 0 n).

(** ** Fields of a record *)

(** The value [d.get(k, default)] finds. *)
Definition field_or (default : json) (k : string) (d : Py.dict) : json :=
  match Py.lookup k d with Some v => v | None => default end.

Definition some_list {A} (o : option A) : list A :=
  match o with Some a => [a] | None => [] end.

(** ** Synthetic backends *)

Module Stub.

(** A new process on an empty disk. *)
Definition fresh_state : state := mkState Checkpoint.fresh (mkWorld [] 0%nat []).

Definition cfg : config := mkConfig "KEY" "TOKEN" 500.

Definition ieee_page (total : Z) : json :=
  JObj [ ("total_records", JNum total);
         ("articles", JArr [JObj [("title", JStr "T")]]) ].

Definition springer_page : json :=
  JObj [ ("result", JArr [JObj [("total", JStr "1")]]);
         ("records", JArr [JObj [("title", JStr "T")]]) ].

Definition scopus_page : json :=
  JObj [ ("search-results",
          JObj [ ("opensearch:totalResults", JStr "1");
                 ("entry", JArr [JObj [("dc:title", JStr "T")]]);
                 ("link", JArr [JObj [("@ref", JStr "self"); ("@href", JStr "u")]]) ]) ].

Definition pubmed_ids (ids : list string) : xml :=
  Elem "eSearchResult" [] None
       [Elem "IdList" [] None (map (fun i => Elem "Id" [] (Some i) []) ids)].

Definition pubmed_article (title : option string) : xml :=
  Elem "PubmedArticle" [] None
       [Elem "MedlineCitation" [] None
             [Elem "Article" [] None [Elem "ArticleTitle" [] title []]]].

Definition pubmed_articles : xml :=
  Elem "PubmedArticleSet" [] None [pubmed_article (Some "T")].

(** Every cell has one page with one record. *)
Definition healthy (b : backend) : network :=
  fun _ url =>
    match b with
    | IEEE => Http 200 (JsonDoc (ieee_page 1))
    | Springer => Http 200 (JsonDoc springer_page)
    | Scopus => Http 200 (JsonDoc scopus_page)
    | PubMed =>
        Http 200 (XmlDoc (if PyStr.contains "efetch" url then pubmed_articles
                          else if PyStr.contains "retstart=0&" url then pubmed_ids ["1"]
                          else pubmed_ids []))
    end.

(** The same, with the transport failing on request number [k]. *)
Definition flaky (b : backend) (k : nat) : network :=
  fun n url => if Nat.eqb n k then NoResponse else healthy b n url.

(** A backend that answers every request with the same response. *)
Definition always (r : response) : network := fun _ _ => r.

Definition requests_per_cell (b : backend) : nat :=
  match b with PubMed => 3%nat | _ => 1%nat end.

(** A run over two single-name terms and two keywords that loses the
    connection at the first request of its second cell, then the
    restart in a new process that runs to the end.  Returned: the
    keyword index restored by the restart, the outcome of the second
    run, the cells it merged, and the keyword index it ends with. *)
Definition crash_and_resume (b : backend) :=
  let terms := ["A"; "B"] in
  let keywords := ["k0"; "k1"] in
  let started := snd (init_of b fresh_state) in
  let crashed :=
    snd (search_of b (flaky b (requests_per_cell b)) cfg 5 terms keywords started) in
  let resumed := snd (init_of b crashed) in
  let final := search_of b (healthy b) cfg 5 terms keywords resumed in
  (keyword_index (self resumed), fst final,
   Trace.cells (since resumed (snd final)), keyword_index (self (snd final))).

(** A fresh Springer connector after 501 answered calls. *)
Definition after_501_calls : state :=
  snd (connector_calls Springer (healthy Springer) cfg (repeat ("u", 0) 501) fresh_state).


(** A first run of one cell against a backend that always gives [r]. *)
Definition one_cell (b : backend) (r : response) : outcome unit * state :=
  search_of b (always r) cfg 5 ["A"] ["k"] fresh_state.

(** The configuration of a connector with a daily budget of 2. *)
Definition cfg2 : config := mkConfig "KEY" "TOKEN" 2.

(** An IEEE backend whose every page reports 30 records. *)
Definition thirty : network := always (Http 200 (JsonDoc (ieee_page 30))).

(** A first run of one cell on the healthy backend. *)
Definition healthy_cell (b : backend) : outcome unit * state :=
  search_of b (healthy b) cfg 5 ["A"] ["k"] fresh_state.

(** The checkpoint document of a fresh IEEE instance after its first cell. *)
Definition first_checkpoint : Py.dict :=
  [ ("all_results", JObj []); ("total_saved_records", JNum 0);
    ("query_index", JNum 0); ("keyword_index", JNum 1); ("name_index", JNum 0);
    ("request_counter", JNum 0); ("request_log", JStr EmptyString) ].

(** An article all of whose fields are empty strings. *)
Definition blank : json :=
  JObj [ ("title", JStr EmptyString); ("abstract", JStr EmptyString);
         ("doi", JStr EmptyString); ("isbn", JStr EmptyString);
         ("issn", JStr EmptyString); ("publication_year", JStr EmptyString);
         ("publicationDate", JStr EmptyString) ].

End Stub.

(** ** Specifications of computations *)

(** [hoare E P m Q]: from a state in [P], [m] returns a value in a state
    that satisfy [Q], or stops (exception or exhausted fuel) in a state
    that satisfies [E]. *)
Definition hoare {A} (E P : state -> Prop) (m : M A) (Q : A -> state -> Prop) : Prop :=
  forall st, P st ->
    match m st with
    | (Ret a, st') => Q a st'
    | (_, st') => E st'
    end.

(** What the pagination of a cell may change: the request counter and log,
    the number of requests issued, and the trace, by events that neither
    merge nor write. *)
Record cell_step (st st' : state) : Prop := mkCellStep {
  cs_results : all_results (self st') = all_results (self st);
  cs_total : total_saved_records (self st') = total_saved_records (self st);
  cs_item : item_index (self st') = item_index (self st);
  cs_keyword : keyword_index (self st') = keyword_index (self st);
  cs_name : name_index (self st') = name_index (self st);
  cs_files : files (env st') = files (env st);
  cs_trace : exists evs, trace (env st') = (trace (env st) ++ evs)%list /\
                         forallb Trace.quiet evs = true
}.

Definition frames {A} (m : M A) : Prop := forall st, cell_step st (snd (m st)).

(** A computation that leaves [self.keyword_index] as it found it. *)
Definition keeps_keyword_index {A} (m : M A) : Prop :=
  forall st, keyword_index (self (snd (m st))) = keyword_index (self st).

(** [j[item] = f(j[item])] for an [f] that works inside the entry. *)
Definition at_item (item : string) (f : json -> result json) (j : json) : result json :=
  Py.rbind (Py.getitem j item) (fun e =>
  Py.rbind (f e) (fun e' => Py.setitem j item e')).

(** Two paths that part at some key, before either ends. *)
Fixpoint diverge (q m : list string) : bool :=
  match q, m with
  | a :: q', b :: m' => if String.eqb a b then diverge q' m' else true
  | _, _ => false
  end.

(** The term [item] has an entry in the results. *)
Definition present (item : string) (r : json) : bool :=
  match r with JObj d => Py.mem item d | _ => false end.

(** ** The ledger of a run *)

(** What holds of a state [st] reached from [st0] while [search] runs, with
    [new] the events since [st0]: the results are well formed; replaying
    [new] from the count of [st0] agrees with every checkpoint written and
    ends on the count of [st]; every merge was followed by its checkpoint
    before the next merge, and as many checkpoints were written as cells
    merged; the checkpoint file was not removed; it exists if it did at
    [st0] or was written since. *)
Definition ledger_of (ckpt : string) (st0 st : state) (new : list event) : Prop :=
  trace (env st) = (trace (env st0) ++ new)%list /\
  Trace.audit (total_saved_records (self st0)) new = Some (total_saved_records (self st)) /\
  Trace.paired false new = Some false /\
  Trace.count Trace.is_save new = Trace.count Trace.is_merge new /\
  Trace.count Trace.is_remove new = 0%nat /\
  FS.exists_ ckpt (files (env st))
  = FS.exists_ ckpt (files (env st0)) || negb (Nat.eqb (Trace.count Trace.is_save new) 0).

Definition ledger (ckpt : string) (st0 st : state) : Prop :=
  Shape.wf (all_results (self st)) = true /\ exists new, ledger_of ckpt st0 st new.

(** The ledger while the cells of [item] are run. *)
Definition ledger_at (ckpt : string) (st0 : state) (item : string) (st : state) : Prop :=
  ledger ckpt st0 st /\ present item (all_results (self st)) = true.

(** The two, for the checkpoint file of a connector. *)
Definition kept (C : connector) (st0 : state) : state -> Prop :=
  ledger (checkpoint_file C) st0.
Definition kept_at (C : connector) (st0 : state) (item : string) : state -> Prop :=
  ledger_at (checkpoint_file C) st0 item.

(** What a run of [search] from [st0] leaves behind, with [new] the events
    of the run: the facts of the ledger, and the checkpoint file removed
    once if the run came to its end and the file was there, never
    otherwise. *)
Definition run_report (ckpt : string) (st0 : state) (o : outcome unit) (st' : state)
           (new : list event) : Prop :=
  trace (env st') = (trace (env st0) ++ new)%list /\
  Trace.audit (total_saved_records (self st0)) new = Some (total_saved_records (self st')) /\
  Trace.paired false new = Some false /\
  Trace.count Trace.is_save new = Trace.count Trace.is_merge new /\
  match o with
  | Ret _ =>
      FS.exists_ ckpt (files (env st')) = false /\
      Trace.count Trace.is_remove new
      = (if FS.exists_ ckpt (files (env st0))
            || negb (Nat.eqb (Trace.count Trace.is_save new) 0)
         then 1 else 0)%nat
  | _ => Trace.count Trace.is_remove new = 0%nat
  end.

(* ================================================================== *)
(** * Vocabulary of the properties of whole runs *)

Module Account.

(** The events of the wire: pauses and requests. *)
Definition on_wire (e : event) : bool :=
  match e with Sleep _ | Request _ => true | _ => false end.

(** What only the fetching of a cell changes: the request counter, the
    request log, the pauses and requests so far, and the number of
    requests the backend has seen. *)
Record t : Type := mk { counter : Z; log : string; wire : list event; clock : nat }.

Definition of_state (st : state) : t :=
  mk (request_counter (self st)) (request_log (self st))
     (filter on_wire (trace (env st))) (issued (env st)).

(** [api_1] (l.53), [api_2] (l.96, 151) and [api_3] (l.103, 157) pause one
    second before each request; [api_4] does not. *)
Definition paced (b : backend) : bool :=
  match b with PubMed => false | _ => true end.

(** The responses after which the method that sends a request returns:
    [call_api] needs a status 2xx and a JSON body, [get_data_from_url] a
    JSON body on Springer, a JSON body or a status other than 200 on
    Scopus, any response on PubMed. *)
Definition returned (b : backend) (r : response) : bool :=
  match b, r with
  | _, NoResponse => false
  | IEEE, Http status (JsonDoc _) => (200 <=? status) && (status <? 300)
  | IEEE, Http _ _ => false
  | Springer, Http _ (JsonDoc _) => true
  | Springer, Http _ _ => false
  | Scopus, Http status content =>
      negb (status =? 200) || match content with JsonDoc _ => true | _ => false end
  | PubMed, Http _ _ => true
  end.

(** The responses after which [self.request_counter += 1] is reached. *)
Definition counted (b : backend) (r : response) : bool :=
  match b, r with
  | _, NoResponse => false
  | IEEE, Http status _ => (200 <=? status) && (status <? 300)
  | Springer, Http _ (JsonDoc _) => true
  | Springer, Http _ _ => false
  | Scopus, Http status (JsonDoc _) => status =? 200
  | Scopus, Http _ _ => false
  | PubMed, Http _ _ => true
  end.

(** One request for [url]: the budget test of the metered backends, the
    line of the log, the pauses and the request, the counter. *)
Definition call (b : backend) (cfg : config) (net : network) (a : t) (url : string) : t :=
  let hit := metered b && (max_requests_per_day cfg <=? counter a) in
  let base := if hit then 0 else counter a in
  mk (if counted b (net (clock a) url) then base + 1 else base)
     (log a ++ request_line b (base + 1) url)
     (wire a ++ (if paced b then [Sleep 1] else [])
             ++ (if hit then [Sleep (24 * 60 * 60)] else [])
             ++ [Request url])
     (S (clock a)).

Definition calls (b : backend) (cfg : config) (net : network) (urls : list string)
           (a : t) : t :=
  fold_left (call b cfg net) urls a.

(** The responses to the requests [urls], the first of which is the
    [n0]-th the backend sees. *)
Fixpoint replies (net : network) (n0 : nat) (urls : list string) : list response :=
  match urls with
  | [] => []
  | url :: urls' => net n0 url :: replies net (S n0) urls'
  end.

End Account.

(** A step that leaves the account alone, and the files outside
    [changed]. *)
Definition aside (changed : list string) (st st' : state) : Prop :=
  Account.of_state st' = Account.of_state st /\
  forall f, ~ In f changed -> FS.read f (files (env st')) = FS.read f (files (env st)).

Definition steady (changed : list string) {A} (m : M A) : Prop :=
  forall st, aside changed st (snd (m st)).

(** [I] holds after [m] if it held before, [E] if [m] does not return. *)
Definition through (E I : state -> Prop) {A} (m : M A) : Prop :=
  hoare E I m (fun _ => I).

(** The account at [st] is the one at [st0] after some requests, each of
    which got a response after which the connector goes on ([whole]), or
    each but the last. *)
Definition billed (b : backend) (cfg : config) (net : network) (st0 : state)
           (whole : bool) (st : state) : Prop :=
  exists urls,
    Account.of_state st = Account.calls b cfg net urls (Account.of_state st0) /\
    forallb (Account.returned b)
            (if whole then Account.replies net (issued (env st0)) urls
             else removelast (Account.replies net (issued (env st0)) urls))
    = true.

(** The lines ["<Backend> API request #<n>: <url>"] for a list of numbered
    URLs, one after the other. *)
Definition log_lines (b : backend) (l : list (Z * string)) : string :=
  fold_right (fun nu acc => request_line b (fst nu) (snd nu) ++ acc) EmptyString l.

(** The pauses and the request of one call: the pause of a second where
    the connector has one, the pause of a day when the budget was reached
    ([fst hu]), the request. *)
Definition wire_of_call (b : backend) (hu : bool * string) : list event :=
  ((if Account.paced b then [Sleep 1] else [])
     ++ (if fst hu then [Sleep (24 * 60 * 60)] else [])
     ++ [Request (snd hu)])%list.

(** [c + 1; c + 2; ...; c + n] *)
Definition numbers_from (c : Z) (n : nat) : list Z :=
  map (fun i => c + 1 + Z.of_nat i) (seq 0 n).

(** The pauses and requests of the calls for [urls], the first of which is
    the [n]-th request the backend sees, made from the request counter
    [c]: before each request the pause of a second where the connector has
    one, then the pause of a day exactly when the connector is metered and
    the counter has reached the budget (the counter is then set to 0);
    the counter goes up by one when the response is one the connector
    counts. *)
Fixpoint paced_wire (b : backend) (cfg : config) (net : network) (n : nat) (c : Z)
         (urls : list string) : list event :=
  match urls with
  | [] => []
  | url :: rest =>
      let hit := metered b && (max_requests_per_day cfg <=? c) in
      let base := if hit then 0 else c in
      ((if Account.paced b then [Sleep 1] else [])
         ++ (if hit then [Sleep (24 * 60 * 60)] else [])
         ++ [Request url]
         ++ paced_wire b cfg net (S n)
                       (if Account.counted b (net n url) then base + 1 else base) rest)%list
  end.

(** [int(data["result"][0]["total"])] *)
Definition springer_total (data : json) : result Z :=
  Py.rbind (Py.getitem data "result") (fun r =>
  Py.rbind (Py.getitem0 r) (fun r0 =>
  Py.rbind (Py.getitem r0 "total") Py.int)).

(** A Springer document from which the loop of a cell reads the records
    [records] and the value [next] of ["nextPage"]. *)
Definition springer_reads (data : json) (records : list json) (next : json) : Prop :=
  Py.truthy data = true /\
  (exists total, springer_total data = inr total) /\
  SpringerAPI.extract_data data = inr records /\
  Py.get data "nextPage" JNull = inr next.

(** A backend that answers the request for [url], the [n]-th it sees, with
    the first of a chain of pages: each page of [pages] gives its records
    and the path of the next page; the last document is empty, or is a
    page with the records [last] and no next page. *)
Fixpoint springer_pages (net : network) (n : nat) (url : string)
         (pages : list (list json * string)) (last : list json) : Prop :=
  exists status data,
    net n url = Http status (JsonDoc data) /\
    match pages with
    | [] =>
        (Py.truthy data = false /\ last = []) \/
        (exists next, springer_reads data last next /\ Py.truthy next = false)
    | (records, path) :: rest =>
        springer_reads data records (JStr path) /\ path <> EmptyString /\
        springer_pages net (S n) (SpringerAPI.base_url ++ path) rest last
    end.

(** [next((link['@href'] for link in data['search-results']['link']
    if link['@ref'] == 'next'), None)] *)
Definition scopus_next (data : json) : result json :=
  Py.rbind (Py.getitem data "search-results") (fun sr =>
  Py.rbind (Py.getitem sr "link") (fun links =>
  Py.rbind (Py.iter links) ScopusAPI.next_href)).

(** A Scopus document from which the loop of a cell reads the records
    [records] and the next link [next]. *)
Definition scopus_reads (data : json) (records : list json) (next : json) : Prop :=
  Py.truthy data = true /\
  (forall total, exists total', ScopusAPI.read_total total data = inr total') /\
  ScopusAPI.extract_titles_and_abstracts data = inr records /\
  scopus_next data = inr next.

(** A backend that answers the request for [url], the [n]-th it sees, with
    the first of a chain of pages of status 200, each giving its records
    and the link to the next; the chain ends with a response of another
    status, with an empty document, or with a page with the records
    [last] and no next link. *)
Fixpoint scopus_pages (net : network) (n : nat) (url : string)
         (pages : list (list json * string)) (last : list json) : Prop :=
  exists status content,
    net n url = Http status content /\
    match pages with
    | [] =>
        (status <> 200 /\ last = []) \/
        (status = 200 /\ exists data,
            content = JsonDoc data /\
            ((Py.truthy data = false /\ last = []) \/
             (exists next, scopus_reads data last next /\ Py.truthy next = false)))
    | (records, href) :: rest =>
        status = 200 /\ exists data,
          content = JsonDoc data /\
          scopus_reads data records (JStr href) /\ href <> EmptyString /\
          scopus_pages net (S n) href rest last
    end.

(** The query of [get_pmids_for_search_term] for the two sides of
    [" AND "] (l.121). *)
Definition pubmed_query (term1 term2 : string) : string :=
  "%22" ++ PyStr.replace_char " " "+" term1 ++ "%22+AND+%22"
        ++ PyStr.replace_char " " "+" term2 ++ "%22".

(** The ids of an esearch document. *)
Definition pubmed_ids_of (root : xml) : list (option string) :=
  map ET.text (ET.findall ["IdList"; "Id"] root).

(** A backend that answers the id search of [query] from the request
    number [n] and the offset [retstart] on with the pages of ids
    [pages], none of them empty, and then with a page without ids. *)
Fixpoint pubmed_id_pages (net : network) (cfg : config) (n : nat) (query : string)
         (retstart : Z) (pages : list (list (option string))) : Prop :=
  exists status root,
    net n (PubMedAPI.esearch_url cfg query retstart 100) = Http status (XmlDoc root) /\
    match pages with
    | [] => pubmed_ids_of root = []
    | ids :: rest =>
        pubmed_ids_of root = ids /\ ids <> [] /\
        pubmed_id_pages net cfg (S n) query (retstart + 100) rest
    end.

(** A backend that, from the request number [from] on, answers with
    documents from which [extract_pubmed_data] reads its records. *)
Definition serves_articles (net : network) (from : nat) : Prop :=
  forall n url, (from <= n)%nat ->
    exists status content records,
      net n url = Http status content /\
      PubMedAPI.extract_pubmed_data content = inr records.

(** [",".join(chunk)] for ids that all have a text. *)
Definition ids_text (chunk : list (option string)) : string :=
  PyStr.join "," (map (fun id => match id with Some s => s | None => EmptyString end) chunk).

(** The offsets [0], [100], ... of [n] id searches. *)
Definition id_offsets (n : nat) : list Z := map (fun i => 100 * Z.of_nat i) (seq 0 n).

(** [l[n:]] for an index [n >= 0]. *)
Definition drop {A} (n : Z) (l : list A) : list A := skipn (Z.to_nat n) l.

Module Plan.

(** A cell: primary term, bias name (none for a single-name term), keyword. *)
Definition cell_id : Type := (string * option string * string)%type.

(** The cells of one keyword loop that starts at keyword [j0]. *)
Definition keywords_from (kws : list string) (item : string) (name : option string)
           (j0 : Z) : list cell_id :=
  map (fun kw => (item, name, kw)) (drop j0 kws).

(** The cells of a name loop over [names], the first keyword loop starting
    at [j0] and the others at 0 ([self.keyword_index = 0] ends the body of
    the name loop in the four connectors). *)
Definition names_from (kws : list string) (item : string) (names : list string)
           (j0 : Z) : list cell_id :=
  match names with
  | [] => []
  | name :: later =>
      (keywords_from kws item (Some name) j0
       ++ flat_map (fun name => keywords_from kws item (Some name) 0) later)%list
  end.

(** The cells of the body of the outer loop for the term [item], entered
    with [name_index = k0] and [keyword_index = j0]. *)
Definition row (kws : list string) (item : string) (k0 j0 : Z) : list cell_id :=
  let names := PyStr.split " or " item in
  if Py.len names =? 1 then keywords_from kws item None j0
  else names_from kws item (drop k0 names) j0.

(** [self.keyword_index] at the end of that body. *)
Definition next_keyword_index (resets : bool) (item : string) (k0 j0 : Z) : Z :=
  if resets then 0
  else
    let names := PyStr.split " or " item in
    if Py.len names =? 1 then j0
    else match drop k0 names with [] => j0 | _ => 0 end.

(** The cells of the outer loop over [items]; [self.name_index] is 0 at
    the end of each body. *)
Fixpoint rows (resets : bool) (kws items : list string) (k0 j0 : Z) : list cell_id :=
  match items with
  | [] => []
  | item :: later =>
      (row kws item k0 j0
       ++ rows resets kws later 0 (next_keyword_index resets item k0 j0))%list
  end.

(** The cells of a run entered with the indices [i0], [k0], [j0]. *)
Definition cells (resets : bool) (terms kws : list string) (i0 k0 j0 : Z) : list cell_id :=
  rows resets kws (drop i0 terms) k0 j0.

(** Every cell of every term. *)
Definition grid (terms kws : list string) : list cell_id :=
  flat_map (fun item => row kws item 0 0) terms.

End Plan.

(** [l] with some elements left out. *)
Inductive subseq {A : Type} : list A -> list A -> Prop :=
| subseq_nil : subseq [] []
| subseq_keep x l l' : subseq l l' -> subseq (x :: l) (x :: l')
| subseq_skip x l l' : subseq l l' -> subseq l (x :: l').

(** The cells merged, against the cells the loops went through: all of
    them when no cell is skipped ([strict]), some of them otherwise. *)
Definition covered (strict : bool) (merged done : list Plan.cell_id) : Prop :=
  if strict then merged = done else subseq merged done.

(** What holds between two cells of a run that started with the cells
    [base] in its trace and the cells [whole] to do: the results are well
    formed, the two inner indices are [k] and [j], the loops went through
    the cells [done] and merged them (all of them when no cell is skipped,
    [strict]), the cells [todo] are left, and [K todo] holds of the
    state. *)
Definition walked (strict : bool) (K : list Plan.cell_id -> state -> Prop)
           (base whole done todo : list Plan.cell_id) (k j : Z) (st : state) : Prop :=
  Shape.wf (all_results (self st)) = true /\
  name_index (self st) = k /\
  keyword_index (self st) = j /\
  (exists merged,
      Trace.cells (trace (env st)) = (base ++ merged)%list /\
      covered strict merged done) /\
  (done ++ todo)%list = whole /\
  K todo st.

Definition walked_at (strict : bool) (K : list Plan.cell_id -> state -> Prop)
           (base whole done todo : list Plan.cell_id) (k j : Z)
           (item : string) (st : state) : Prop :=
  walked strict K base whole done todo k j st /\
  present item (all_results (self st)) = true.

(** A new [IEEEAPI] instance made on the files of [st] starts, with well
    formed results, at indices from which the cells [todo] are left. *)
Definition ieee_resumes_with (terms kws : list string) (todo : list Plan.cell_id)
           (st : state) : Prop :=
  forall s w,
    files w = files (env st) ->
    let r := init_of IEEE (mkState s w) in
    fst r = Ret tt /\
    Shape.wf (all_results (self (snd r))) = true /\
    0 <= item_index (self (snd r)) /\
    0 <= name_index (self (snd r)) /\
    0 <= keyword_index (self (snd r)) /\
    Plan.cells true terms kws (item_index (self (snd r))) (name_index (self (snd r)))
               (keyword_index (self (snd r))) = todo.

(** Where [all_results] keeps a cell: [all_results[item]["Records"][kw]]
    for a single-name term,
    [all_results[item]["Records"][name]["Records"][kw]] for a bias
    name. *)
Definition cell_path (c : Plan.cell_id) : list string :=
  match c with
  | (item, None, kw) => [item; "Records"; kw]
  | (item, Some name, kw) => [item; "Records"; name; "Records"; kw]
  end.

(** The paths a merge of the cell assigns to: the cell and the counts
    above it. *)
Definition written_paths (c : Plan.cell_id) : list (list string) :=
  match c with
  | (item, None, kw) => [[item; "Records"; kw]; [item; "Total records"]]
  | (item, Some name, kw) =>
      [[item; "Records"; name; "Records"; kw];
       [item; "Records"; name; "Total records"];
       [item; "Total records"]]
  end.

(** The results [r] are [r0] after the cell [c] was given [recs]. *)
Definition merged_to (c : Plan.cell_id) (recs : list json) (r0 r : json) : Prop :=
  Results.get_path (cell_path c) r = inr (JArr recs) /\
  forall q, forallb (diverge q) (written_paths c) = true ->
            Results.get_path q r = Results.get_path q r0.

Definition cell_eqb (c c' : Plan.cell_id) : bool :=
  match c, c' with
  | (i, n, k), (i', n', k') =>
      String.eqb i i'
      && match n, n' with
         | None, None => true
         | Some a, Some a' => String.eqb a a'
         | _, _ => false
         end
      && String.eqb k k'
  end.

(** The records given to the cell [c] by the last of its merges among
    [evs], if it was merged. *)
Fixpoint last_merge (c : Plan.cell_id) (evs : list event) : option (list json) :=
  match evs with
  | [] => None
  | e :: rest =>
      match last_merge c rest with
      | Some recs => Some recs
      | None =>
          match e with
          | Merge i n k recs => if cell_eqb (i, n, k) c then Some recs else None
          | _ => None
          end
      end
  end.

(** Every cell merged among [evs] is in [r], with the records of its last
    merge. *)
Definition stored (evs : list event) (r : json) : Prop :=
  forall c recs,
    last_merge c evs = Some recs ->
    Results.get_path (cell_path c) r = inr (JArr recs).

(** The number of records [r] holds for the cell [c], and for the cells
    [cs] together. *)
Definition cell_length (r : json) (c : Plan.cell_id) : Z :=
  match Results.get_path (cell_path c) r with
  | inr (JArr l) => Py.len l
  | _ => 0
  end.

Definition cells_length (r : json) (cs : list Plan.cell_id) : Z :=
  fold_right (fun c acc => cell_length r c + acc) 0 cs.

(** A cell has a bias name exactly when its term has several. *)
Definition shaped (c : Plan.cell_id) : Prop :=
  snd (fst c) = None <-> Py.len (PyStr.split " or " (fst (fst c))) = 1.

(** What holds of the results while [search] runs from [st0]: they are
    well formed and hold every cell merged since [st0]. *)
Definition filed (st0 st : state) : Prop :=
  Shape.wf (all_results (self st)) = true /\
  exists new,
    trace (env st) = (trace (env st0) ++ new)%list /\
    (forall c, In c (Trace.cells new) -> shaped c) /\
    stored new (all_results (self st)).

Definition filed_at (st0 : state) (item : string) (st : state) : Prop :=
  filed st0 st /\ present item (all_results (self st)) = true.

(** ** More synthetic backends and runs *)

Module Demo.

(** A Springer backend whose first answer points to a second page. *)
Definition springer_first : json :=
  JObj [ ("result", JArr [JObj [("total", JStr "2")]]);
         ("records", JArr [JObj [("title", JStr "T1")]]);
         ("nextPage", JStr "/openaccess/json?q=next") ].

Definition springer_two : network :=
  fun n _ => Http 200 (JsonDoc (if Nat.eqb n 0 then springer_first else Stub.springer_page)).

Definition springer_record (title : string) : json :=
  JObj [ ("title", JStr title); ("abstract", JStr "null"); ("authors", JStr EmptyString);
         ("doi", JStr "No DOI"); ("isbn", JStr "null"); ("issn", JStr "null");
         ("publicationDate", JStr "null") ].

(** A Scopus backend whose first answer has a next link. *)
Definition scopus_first : json :=
  JObj [ ("search-results",
          JObj [ ("opensearch:totalResults", JStr "2");
                 ("entry", JArr [JObj [("dc:title", JStr "T1")]]);
                 ("link", JArr [JObj [("@ref", JStr "self"); ("@href", JStr "u")];
                                JObj [("@ref", JStr "next"); ("@href", JStr "v")]]) ]) ].

Definition scopus_two : network :=
  fun n _ => Http 200 (JsonDoc (if Nat.eqb n 0 then scopus_first else Stub.scopus_page)).

Definition scopus_record (title : string) : json :=
  JObj [ ("title", JStr title); ("abstract", JNull); ("authors", JStr EmptyString);
         ("doi", JNull); ("isbn", JStr "null"); ("issn", JStr "null");
         ("publication year", JStr EmptyString) ].

(** A PubMed backend that finds no id for the keyword ["k0"]. *)
Definition sparse : network :=
  fun n url =>
    if PyStr.contains "k0" url then Http 200 (XmlDoc (Stub.pubmed_ids []))
    else Stub.healthy PubMed n url.

(** A Scopus backend that refuses every request. *)
Definition refusing : network := Stub.always (Http 500 Garbled).

Definition terms : list string := ["A"; "B or C"].
Definition keywords : list string := ["k0"; "k1"].

(** A first run that loses the connection at the first request of its
    second cell, and the instance a new process makes on what it left. *)
Definition crashed (b : backend) : outcome unit * state :=
  search_of b (Stub.flaky b (Stub.requests_per_cell b)) Stub.cfg 5 terms keywords
            (snd (init_of b Stub.fresh_state)).

Definition resumed (b : backend) : state :=
  snd (init_of b (mkState Checkpoint.fresh (env (snd (crashed b))))).

(** An instance whose results have the entry of the term ["A"], and one
    with the entry of ["B or C"]. *)
Definition entered_flat : state :=
  mkState (set_all_results (JObj [("A", Results.empty_entry keywords)]) Checkpoint.fresh)
          (mkWorld [] 0%nat []).

Definition entered_nested : state :=
  mkState (set_all_results
             (JObj [("B or C", Results.empty_nested_entry ["B"; "C"] keywords)])
             Checkpoint.fresh)
          (mkWorld [] 0%nat []).

(** A new process on a disk that holds a Scopus checkpoint. *)
Definition beside_scopus : state :=
  mkState Checkpoint.fresh
          (mkWorld [(ScopusAPI.checkpoint_file, JObj [("item_index", JNum 3)])] 0%nat []).

End Demo.

(* ================================================================== *)
(** * Dictionaries *)

Section DictFacts.

Lemma lookup_dict_set_eq k v d : Py.lookup k (Py.dict_set k v d) = Some v.
Proof.
  induction d as [|[k' v'] d IH]; simpl.
  - now rewrite String.eqb_refl.
  - destruct (String.eqb k k') eqn:E; simpl.
    + now rewrite String.eqb_refl.
    + now rewrite E.
Qed.

Lemma lookup_dict_set_neq k k' v d :
  k <> k' -> Py.lookup k (Py.dict_set k' v d) = Py.lookup k d.
Proof.
  intros N. induction d as [|[k2 v2] d IH]; simpl.
  - destruct (String.eqb_spec k k'); [contradiction | reflexivity].
  - destruct (String.eqb_spec k' k2) as [->|N2]; simpl.
    + destruct (String.eqb_spec k k2); [contradiction | reflexivity].
    + destruct (String.eqb_spec k k2); [reflexivity | exact IH].
Qed.

Lemma dict_set_same k v d : Py.lookup k d = Some v -> Py.dict_set k v d = d.
Proof.
  induction d as [|[k' v'] d IH]; simpl; [discriminate|].
  destruct (String.eqb_spec k k') as [->|N]; intros H.
  - now inversion H.
  - now rewrite IH.
Qed.

Lemma forallb_dict_set (p : string * json -> bool) k v d :
  forallb p d = true -> p (k, v) = true -> forallb p (Py.dict_set k v d) = true.
Proof.
  intros Hd Hk. induction d as [|[k' v'] d IH]; simpl in *.
  - now rewrite Hk.
  - apply andb_prop in Hd as [H1 H2].
    destruct (String.eqb k k'); simpl.
    + now rewrite Hk, H2.
    + now rewrite H1, IH.
Qed.

Lemma forallb_lookup (p : string * json -> bool) k v d :
  forallb p d = true -> Py.lookup k d = Some v -> p (k, v) = true.
Proof.
  induction d as [|[k' v'] d IH]; simpl; [discriminate|].
  intros Hd. apply andb_prop in Hd as [H1 H2].
  destruct (String.eqb_spec k k') as [->|N]; intros H.
  - now inversion H; subst.
  - now apply IH.
Qed.

Lemma mem_lookup k d : Py.mem k d = true -> exists v, Py.lookup k d = Some v.
Proof. unfold Py.mem. destruct (Py.lookup k d); [eauto | discriminate]. Qed.

Lemma mem_dict_set k v d : Py.mem k (Py.dict_set k v d) = true.
Proof. unfold Py.mem. now rewrite lookup_dict_set_eq. Qed.

Lemma lookup_dict_comp_acc (f : string -> json) k keys : forall acc,
  In k keys \/ Py.lookup k acc = Some (f k) ->
  Py.lookup k (fold_left (fun d k => Py.dict_set k (f k) d) keys acc) = Some (f k).
Proof.
  induction keys as [|k' keys IH]; intros acc [H|H]; simpl in *.
  - contradiction.
  - exact H.
  - destruct (String.eqb_spec k k') as [->|N].
    + apply IH. right. apply lookup_dict_set_eq.
    + apply IH. left. destruct H; [congruence | assumption].
  - apply IH. right.
    destruct (String.eqb_spec k k') as [->|N].
    + apply lookup_dict_set_eq.
    + now rewrite lookup_dict_set_neq.
Qed.

Lemma lookup_dict_comp f k keys :
  In k keys -> Py.lookup k (Py.dict_comp keys f) = Some (f k).
Proof. intros H. apply lookup_dict_comp_acc. now left. Qed.

End DictFacts.

(* ================================================================== *)
(** * Rules for computations *)

Section Rules.

Context {A B : Type}.
Variable E : state -> Prop.

Lemma bind_run (m : M A) (f : A -> M B) st a st' :
  m st = (Ret a, st') -> bind m f st = f a st'.
Proof. unfold bind. now intros ->. Qed.

Lemma hoare_bind (P : state -> Prop) (m : M A) (Q : A -> state -> Prop)
      (f : A -> M B) (R : B -> state -> Prop) :
  hoare E P m Q -> (forall a, hoare E (Q a) (f a) R) -> hoare E P (bind m f) R.
Proof.
  intros Hm Hf st HP. specialize (Hm st HP). unfold bind.
  destruct (m st) as [[a| |] st']; auto.
  apply Hf, Hm.
Qed.

Lemma hoare_conseq (P P' : state -> Prop) (m : M A) (Q Q' : A -> state -> Prop) :
  hoare E P m Q -> (forall st, P' st -> P st) -> (forall a st, Q a st -> Q' a st) ->
  hoare E P' m Q'.
Proof.
  intros H HP HQ st HP'. specialize (H st (HP st HP')).
  destruct (m st) as [[a| |] st']; auto.
Qed.

Lemma hoare_ret (Q : A -> state -> Prop) (a : A) : hoare E (Q a) (ret a) Q.
Proof. intros st H. exact H. Qed.

Lemma hoare_lift (P : state -> Prop) (r : result A) :
  (forall st, P st -> E st) ->
  hoare E P (lift r) (fun a st => r = inr a /\ P st).
Proof. intros HE st HP. destruct r; simpl; auto. Qed.

Lemma hoare_read (P : state -> Prop) (f : instance -> A) :
  hoare E P (read f) (fun a st => a = f (self st) /\ P st).
Proof. intros st HP. simpl. auto. Qed.

Lemma hoare_frames (P : state -> Prop) (m : M A) :
  frames m -> (forall st st', P st -> cell_step st st' -> P st') ->
  (forall st, P st -> E st) ->
  hoare E P m (fun _ => P).
Proof.
  intros Hm Hs HE st HP. specialize (Hm st).
  destruct (m st) as [[a| |] st']; simpl in Hm; eauto.
Qed.

End Rules.

Section LoopRules.

Context {A : Type}.
Variable E : state -> Prop.

Lemma hoare_assign (f : instance -> instance) (Q : unit -> state -> Prop) :
  hoare E (fun st => Q tt (mkState (f (self st)) (env st))) (assign f) Q.
Proof. intros st H. exact H. Qed.

Lemma hoare_for_each (I : state -> Prop) (l : list A) (body : A -> M unit) :
  (forall x, In x l -> hoare E I (body x) (fun _ => I)) ->
  hoare E I (for_each l body) (fun _ => I).
Proof.
  induction l as [|x l IH]; intros H; simpl.
  - apply hoare_ret with (Q := fun _ => I).
  - eapply hoare_bind.
    + apply H. now left.
    + intros u. apply IH. intros y Hy. apply H. now right.
Qed.

Lemma hoare_pre (P P' : state -> Prop) (m : M A) (Q : A -> state -> Prop) :
  (forall st, P' st -> P st) -> hoare E P m Q -> hoare E P' m Q.
Proof. intros HP H. eapply hoare_conseq; eauto. Qed.

Lemma hoare_lift_bind {B} (P : state -> Prop) (r : result A) (k : A -> M B)
      (Q : B -> state -> Prop) :
  (forall st, P st -> E st) ->
  (forall a, r = inr a -> hoare E P (k a) Q) ->
  hoare E P (bind (lift r) k) Q.
Proof.
  intros HE Hk st HP. destruct r as [e|a]; simpl.
  - now apply HE.
  - now apply (Hk a eq_refl st HP).
Qed.

Lemma hoare_read_bind {B} (P : state -> Prop) (f : instance -> A) (k : A -> M B)
      (Q : B -> state -> Prop) :
  (forall a, hoare E (fun st => a = f (self st) /\ P st) (k a) Q) ->
  hoare E P (bind (read f) k) Q.
Proof. intros Hk st HP. unfold bind, read. now apply Hk. Qed.

Lemma hoare_frames_bind {B} (P : state -> Prop) (m : M A) (k : A -> M B)
      (Q : B -> state -> Prop) :
  frames m -> (forall st st', P st -> cell_step st st' -> P st') ->
  (forall st, P st -> E st) ->
  (forall a, hoare E P (k a) Q) ->
  hoare E P (bind m k) Q.
Proof.
  intros Hm Hs HE Hk. eapply hoare_bind; [|exact Hk].
  now apply hoare_frames.
Qed.

End LoopRules.

(** ** Cell steps compose *)

Section Frames.

Lemma cell_step_refl st : cell_step st st.
Proof.
  constructor; try reflexivity.
  exists []. now rewrite app_nil_r.
Qed.

Lemma cell_step_trans st1 st2 st3 :
  cell_step st1 st2 -> cell_step st2 st3 -> cell_step st1 st3.
Proof.
  intros [a1 b1 c1 d1 e1 f1 [ev1 [g1 q1]]] [a2 b2 c2 d2 e2 f2 [ev2 [g2 q2]]].
  constructor; try congruence.
  exists (ev1 ++ ev2)%list. split.
  - now rewrite g2, g1, app_assoc.
  - now rewrite forallb_app, q1, q2.
Qed.

Context {A B : Type}.

Lemma frames_ret (a : A) : frames (ret a).
Proof. intros st. apply cell_step_refl. Qed.

Lemma frames_raise (e : exn) : frames (@raise A e).
Proof. intros st. apply cell_step_refl. Qed.

Lemma frames_timeout : frames (@timeout A).
Proof. intros st. apply cell_step_refl. Qed.

Lemma frames_lift (r : result A) : frames (lift r).
Proof. destruct r; [apply frames_raise | apply frames_ret]. Qed.

Lemma frames_read (f : instance -> A) : frames (read f).
Proof. intros st. apply cell_step_refl. Qed.

Lemma frames_bind (m : M A) (f : A -> M B) :
  frames m -> (forall a, frames (f a)) -> frames (bind m f).
Proof.
  intros Hm Hf st. specialize (Hm st). unfold bind.
  destruct (m st) as [[a| |] st']; simpl in *; auto.
  eapply cell_step_trans; [exact Hm | apply Hf].
Qed.

End Frames.

Section FramesPrimitives.

Lemma frames_set_request_counter v : frames (assign (set_request_counter v)).
Proof.
  intros st. constructor; try reflexivity.
  exists []. simpl. now rewrite app_nil_r.
Qed.

Lemma frames_set_request_log v : frames (assign (set_request_log v)).
Proof.
  intros st. constructor; try reflexivity.
  exists []. simpl. now rewrite app_nil_r.
Qed.

Lemma frames_emit e : Trace.quiet e = true -> frames (emit e).
Proof.
  intros Q st. constructor; try reflexivity.
  exists [e]. simpl. now rewrite Q.
Qed.

Lemma frames_sleep s : frames (sleep s).
Proof. now apply frames_emit. Qed.

Lemma frames_log m : frames (log_callback m).
Proof. now apply frames_emit. Qed.

Lemma frames_progress n : frames (progress_callback n).
Proof. now apply frames_emit. Qed.

Lemma frames_send net url : frames (send net url).
Proof.
  intros st. constructor; try reflexivity.
  exists [Request url]. now simpl.
Qed.

Lemma frames_parse_json b : frames (parse_json b).
Proof. destruct b; simpl; first [apply frames_raise | apply frames_ret]. Qed.

End FramesPrimitives.

Create HintDb frames.
#[local] Hint Resolve frames_ret frames_raise frames_timeout frames_lift frames_read
  frames_set_request_counter frames_set_request_log frames_sleep frames_log
  frames_progress frames_send frames_parse_json : frames.

(** Splits a computation along its binds and branches. *)
Ltac frames :=
  repeat first
    [ progress auto with frames
    | apply frames_bind; [| intros ]
    | match goal with
      | |- frames (if ?c then _ else _) => destruct c
      | |- frames (match ?x with _ => _ end) => destruct x
      end ].

(** ** The pagination of a cell only talks to the backend *)

Section CellFrames.

Variable net : network.
Variable cfg : config.

Lemma ieee_call_api_frames key q s : frames (IEEEAPI.call_api net key q s).
Proof. unfold IEEEAPI.call_api, IEEEAPI.urlopen. frames. Qed.

Lemma ieee_page_loop_frames key fuel : forall q s t rs,
  frames (IEEEAPI.page_loop net key fuel q s t rs).
Proof.
  induction fuel as [|fuel IH]; intros; simpl; [apply frames_timeout|].
  pose proof ieee_call_api_frames. frames.
Qed.

Lemma ieee_cell_frames key fuel nested item name kw :
  frames (IEEEAPI.cell net key fuel nested item name kw).
Proof. unfold IEEEAPI.cell. pose proof ieee_page_loop_frames. frames. Qed.

Lemma springer_get_frames url : frames (SpringerAPI.get_data_from_url net cfg url).
Proof. unfold SpringerAPI.get_data_from_url. frames. Qed.

Lemma springer_page_loop_frames fuel : forall url t rs,
  frames (SpringerAPI.page_loop net cfg fuel url t rs).
Proof.
  induction fuel as [|fuel IH]; intros; simpl; [apply frames_timeout|].
  pose proof springer_get_frames. frames.
Qed.

Lemma springer_cell_frames fuel nested item name kw :
  frames (SpringerAPI.cell net cfg fuel nested item name kw).
Proof. unfold SpringerAPI.cell. pose proof springer_page_loop_frames. frames. Qed.

Lemma scopus_get_frames url : frames (ScopusAPI.get_data_from_url net cfg url).
Proof. unfold ScopusAPI.get_data_from_url. frames. Qed.

Lemma scopus_page_loop_frames fuel : forall url t rs,
  frames (ScopusAPI.page_loop net cfg fuel url t rs).
Proof.
  induction fuel as [|fuel IH]; intros; simpl; [apply frames_timeout|].
  pose proof scopus_get_frames. frames.
Qed.

Lemma scopus_cell_frames fuel nested item name kw :
  frames (ScopusAPI.cell net cfg fuel nested item name kw).
Proof. unfold ScopusAPI.cell. pose proof scopus_page_loop_frames. frames. Qed.

Lemma pubmed_get_frames url : frames (PubMedAPI.get_data_from_url net cfg url).
Proof. unfold PubMedAPI.get_data_from_url. frames. Qed.

Lemma pubmed_id_loop_frames fuel : forall q s ids,
  frames (PubMedAPI.id_loop net cfg fuel q s ids).
Proof.
  induction fuel as [|fuel IH]; intros; simpl; [apply frames_timeout|].
  pose proof pubmed_get_frames. frames.
Qed.

Lemma pubmed_fetch_chunks_frames cs : forall rs,
  frames (PubMedAPI.fetch_chunks net cfg cs rs).
Proof.
  induction cs as [|c cs IH]; intros; simpl; [apply frames_ret|].
  pose proof pubmed_get_frames. frames.
Qed.

Lemma pubmed_cell_frames fuel nested item name kw :
  frames (PubMedAPI.cell net cfg fuel nested item name kw).
Proof.
  unfold PubMedAPI.cell, PubMedAPI.get_pmids_for_search_term.
  pose proof pubmed_id_loop_frames. pose proof pubmed_fetch_chunks_frames.
  frames.
Qed.

Lemma connector_cell_frames b fuel nested item name kw :
  frames (cell (connector_of b net cfg fuel) nested item name kw).
Proof.
  destruct b; simpl.
  - apply ieee_cell_frames.
  - apply springer_cell_frames.
  - apply scopus_cell_frames.
  - apply pubmed_cell_frames.
Qed.

End CellFrames.

(* ================================================================== *)
(** * Merging a cell keeps the results well formed *)

Section ShapeFacts.

Lemma set_path_cons p path k v j :
  Results.set_path (p :: path) k v j = at_item p (Results.set_path path k v) j.
Proof. reflexivity. Qed.

Lemma add_path_cons p path k n j :
  Results.add_path (p :: path) k n j = at_item p (Results.add_path path k n) j.
Proof.
  unfold Results.add_path, at_item.
  cbn [Results.get_path Results.set_path].
  destruct (Py.getitem j p) as [e|sub] eqn:G; cbn [Py.rbind]; [reflexivity|].
  destruct (Results.get_path path sub) as [e|d]; cbn [Py.rbind]; [reflexivity|].
  destruct (Py.getitem d k) as [e|cur]; cbn [Py.rbind]; [reflexivity|].
  destruct (Py.add_int cur n) as [e|new]; cbn [Py.rbind]; [reflexivity|].
  reflexivity.
Qed.

Lemma at_item_ext p f g j :
  (forall x, f x = g x) -> at_item p f j = at_item p g j.
Proof.
  intros H. unfold at_item. destruct (Py.getitem j p); simpl; [reflexivity|].
  now rewrite H.
Qed.

Lemma has_total_set_records fields v :
  Shape.has_total (Py.dict_set "Records" v fields) = Shape.has_total fields.
Proof. unfold Shape.has_total. now rewrite lookup_dict_set_neq. Qed.

(** An update of the ["Records"] of an entry. *)
Lemma at_records (p : Py.dict -> bool) g fields r r' :
  Py.lookup "Records" fields = Some (JObj r) ->
  g (JObj r) = inr (JObj r') ->
  at_item "Records" g (JObj fields)
  = inr (JObj (Py.dict_set "Records" (JObj r') fields)) /\
  Shape.has_records (Py.dict_set "Records" (JObj r') fields) p = p r'.
Proof.
  intros L G. unfold at_item, Shape.has_records. simpl.
  rewrite L. simpl. rewrite G. simpl.
  now rewrite lookup_dict_set_eq.
Qed.

(** An update of the ["Total records"] of an entry. *)
Lemma add_total_entry (p : Py.dict -> bool) fields n :
  Shape.has_total fields = true ->
  exists fields',
    Results.add_path [] "Total records" n (JObj fields) = inr (JObj fields') /\
    Shape.has_total fields' = true /\
    Shape.has_records fields' p = Shape.has_records fields p.
Proof.
  unfold Shape.has_total, Results.add_path, Py.add_int. simpl.
  destruct (Py.lookup "Total records" fields) as [t|]; [|discriminate]. simpl.
  destruct (Py.as_int t) as [z|]; [|discriminate]. intros _. simpl.
  eexists. split; [reflexivity|]. split.
  - now rewrite lookup_dict_set_eq.
  - unfold Shape.has_records. now rewrite lookup_dict_set_neq.
Qed.

Lemma flat_set_cell kw v e :
  Shape.flat_ok e = true ->
  exists e', Results.set_path ["Records"] kw v e = inr e' /\ Shape.flat_ok e' = true.
Proof.
  destruct e as [| | | | |fields]; try discriminate. simpl Shape.flat_ok.
  intros H. apply andb_prop in H as [Ht Hr].
  unfold Shape.has_records in Hr.
  destruct (Py.lookup "Records" fields) as [[| | | | |r]|] eqn:L; try discriminate.
  rewrite set_path_cons.
  destruct (at_records (fun _ => true) (Results.set_path [] kw v) fields r
                       (Py.dict_set kw v r) L eq_refl) as [-> Hp].
  eexists. split; [reflexivity|]. simpl.
  now rewrite has_total_set_records, Ht, Hp.
Qed.

Lemma flat_add_total n e :
  Shape.flat_ok e = true ->
  exists e', Results.add_path [] "Total records" n e = inr e' /\ Shape.flat_ok e' = true.
Proof.
  destruct e as [| | | | |fields]; try discriminate. simpl Shape.flat_ok.
  intros H. apply andb_prop in H as [Ht Hr].
  destruct (add_total_entry (fun _ => true) fields n Ht) as (f' & -> & Ht' & Hr').
  eexists. split; [reflexivity|]. simpl. now rewrite Ht', Hr', Hr.
Qed.

Lemma nested_add_total names n e :
  Shape.nested_ok names e = true ->
  exists e', Results.add_path [] "Total records" n e = inr e' /\
             Shape.nested_ok names e' = true.
Proof.
  destruct e as [| | | | |fields]; try discriminate. simpl Shape.nested_ok.
  intros H. apply andb_prop in H as [Ht Hr].
  destruct (add_total_entry
              (fun r => forallb (fun name => match Py.lookup name r with
                                             | Some sub => Shape.flat_ok sub
                                             | None => false
                                             end) names) fields n Ht)
    as (f' & -> & Ht' & Hr').
  eexists. split; [reflexivity|]. simpl. now rewrite Ht', Hr', Hr.
Qed.

(** An update inside the entry of one bias name. *)
Lemma nested_at_name names name g e :
  Shape.nested_ok names e = true -> In name names ->
  (forall sub, Shape.flat_ok sub = true ->
               exists sub', g sub = inr sub' /\ Shape.flat_ok sub' = true) ->
  exists e', at_item "Records" (at_item name g) e = inr e' /\
             Shape.nested_ok names e' = true.
Proof.
  destruct e as [| | | | |fields]; try discriminate. simpl Shape.nested_ok.
  intros H Hin Hg. apply andb_prop in H as [Ht Hr].
  unfold Shape.has_records in Hr.
  destruct (Py.lookup "Records" fields) as [[| | | | |r]|] eqn:L; try discriminate.
  assert (Hname : exists sub, Py.lookup name r = Some sub /\ Shape.flat_ok sub = true).
  { rewrite forallb_forall in Hr. specialize (Hr name Hin).
    destruct (Py.lookup name r) as [sub|]; [eauto | discriminate]. }
  destruct Hname as (sub & Ls & Fs). destruct (Hg sub Fs) as (sub' & Gs & Fs').
  match goal with
  | |- context [at_item "Records" ?f _] =>
      destruct (at_records
                  (fun r => forallb (fun name => match Py.lookup name r with
                                                 | Some sub => Shape.flat_ok sub
                                                 | None => false
                                                 end) names)
                  f fields r (Py.dict_set name sub' r) L) as [-> Hp]
  end.
  { unfold at_item. simpl. rewrite Ls. simpl. now rewrite Gs. }
  eexists. split; [reflexivity|]. simpl.
  rewrite has_total_set_records, Ht, Hp. simpl.
  apply forallb_forall. intros x Hx.
  destruct (String.eqb_spec x name) as [->|N].
  - now rewrite lookup_dict_set_eq.
  - rewrite lookup_dict_set_neq by assumption.
    rewrite forallb_forall in Hr. now apply Hr.
Qed.

(** An update inside the entry of a term keeps the results well formed. *)
Lemma at_item_wf item f r :
  Shape.wf r = true -> present item r = true ->
  (forall e, Shape.entry_ok (item, e) = true ->
             exists e', f e = inr e' /\ Shape.entry_ok (item, e') = true) ->
  exists r', at_item item f r = inr r' /\ Shape.wf r' = true /\
             present item r' = true.
Proof.
  destruct r as [| | | | |d]; try discriminate. simpl.
  intros W P Hf. destruct (mem_lookup _ _ P) as (e & L).
  destruct (Hf e (forallb_lookup _ _ _ _ W L)) as (e' & Fe & Oe).
  unfold at_item. simpl. rewrite L. simpl. rewrite Fe. simpl.
  eexists. split; [reflexivity|]. split.
  - now apply forallb_dict_set.
  - apply mem_dict_set.
Qed.

Lemma wf_set_flat_cell item kw v r :
  Shape.wf r = true -> present item r = true ->
  Py.len (PyStr.split " or " item) = 1 ->
  exists r', Results.set_path [item; "Records"] kw v r = inr r' /\
             Shape.wf r' = true /\ present item r' = true.
Proof.
  intros W P Hlen. rewrite set_path_cons. apply at_item_wf; auto.
  unfold Shape.entry_ok. simpl fst. simpl snd. rewrite Hlen. simpl.
  intros e. apply flat_set_cell.
Qed.

Lemma wf_add_item_total item n r :
  Shape.wf r = true -> present item r = true ->
  exists r', Results.add_path [item] "Total records" n r = inr r' /\
             Shape.wf r' = true /\ present item r' = true.
Proof.
  intros W P. rewrite add_path_cons. apply at_item_wf; auto.
  unfold Shape.entry_ok. simpl fst. simpl snd. intros e.
  destruct (Py.len (PyStr.split " or " item) =? 1).
  - apply flat_add_total.
  - apply nested_add_total.
Qed.

Lemma wf_set_nested_cell item name kw v r :
  Shape.wf r = true -> present item r = true ->
  Py.len (PyStr.split " or " item) <> 1 -> In name (PyStr.split " or " item) ->
  exists r', Results.set_path [item; "Records"; name; "Records"] kw v r = inr r' /\
             Shape.wf r' = true /\ present item r' = true.
Proof.
  intros W P Hlen Hin. rewrite set_path_cons. apply at_item_wf; auto.
  unfold Shape.entry_ok. simpl fst. simpl snd.
  destruct (Z.eqb_spec (Py.len (PyStr.split " or " item)) 1); [contradiction|].
  intros e He.
  change (Results.set_path ["Records"; name; "Records"] kw v e)
    with (at_item "Records" (at_item name (Results.set_path ["Records"] kw v)) e).
  apply nested_at_name; auto. intros sub. apply flat_set_cell.
Qed.

Lemma wf_add_name_total item name n r :
  Shape.wf r = true -> present item r = true ->
  Py.len (PyStr.split " or " item) <> 1 -> In name (PyStr.split " or " item) ->
  exists r', Results.add_path [item; "Records"; name] "Total records" n r = inr r' /\
             Shape.wf r' = true /\ present item r' = true.
Proof.
  intros W P Hlen Hin. rewrite add_path_cons. apply at_item_wf; auto.
  unfold Shape.entry_ok. simpl fst. simpl snd.
  destruct (Z.eqb_spec (Py.len (PyStr.split " or " item)) 1); [contradiction|].
  intros e He. rewrite add_path_cons.
  rewrite (at_item_ext "Records" _ _ e (add_path_cons name [] "Total records" n)).
  apply nested_at_name; auto. intros sub. apply flat_add_total.
Qed.

(** What an assignment at a path stores, and what it leaves alone. *)
Lemma get_set_path path : forall k v j j',
  Results.set_path path k v j = inr j' ->
  Results.get_path (path ++ [k]) j' = inr v.
Proof.
  induction path as [|p path IH]; intros k v j j'; simpl.
  - destruct j; try discriminate. simpl. intros H. inversion H. simpl.
    now rewrite lookup_dict_set_eq.
  - destruct (Py.getitem j p) as [e|sub]; [discriminate|]. simpl.
    destruct (Results.set_path path k v sub) as [e|sub'] eqn:S; [discriminate|]. simpl.
    destruct j; try discriminate. simpl. intros H. inversion H. simpl.
    rewrite lookup_dict_set_eq. simpl. eapply IH; eauto.
Qed.

Lemma getitem_setitem_other j k v j' k' :
  Py.setitem j k v = inr j' -> k' <> k -> Py.getitem j' k' = Py.getitem j k'.
Proof.
  destruct j; try discriminate. simpl. intros H N. inversion H. simpl.
  now rewrite lookup_dict_set_neq.
Qed.

Lemma get_set_path_other path : forall k v j j' q,
  Results.set_path path k v j = inr j' ->
  diverge q (path ++ [k]) = true ->
  Results.get_path q j' = Results.get_path q j.
Proof.
  induction path as [|p path IH]; intros k v j j' q; simpl.
  - destruct q as [|a q]; [discriminate|]. simpl.
    destruct (String.eqb_spec a k) as [->|N]; [destruct q; discriminate|].
    intros H _. now rewrite (getitem_setitem_other _ _ _ _ _ H N).
  - destruct (Py.getitem j p) as [e|sub] eqn:G; [discriminate|]. simpl.
    destruct (Results.set_path path k v sub) as [e|sub'] eqn:S; [discriminate|]. simpl.
    intros H. destruct q as [|a q]; [discriminate|]. simpl.
    destruct (String.eqb_spec a p) as [->|N].
    + intros D. rewrite G. destruct j; try discriminate. simpl in H. inversion H.
      simpl. rewrite lookup_dict_set_eq. simpl. eapply IH; eauto.
    + intros _. now rewrite (getitem_setitem_other _ _ _ _ _ H N).
Qed.

Lemma add_path_sets path k n j j' :
  Results.add_path path k n j = inr j' ->
  exists new, Results.set_path path k new j = inr j'.
Proof.
  unfold Results.add_path.
  destruct (Results.get_path path j) as [e|d]; [discriminate|]. simpl.
  destruct (Py.getitem d k) as [e|cur]; [discriminate|]. simpl.
  destruct (Py.add_int cur n) as [e|new]; [discriminate|]. simpl. eauto.
Qed.

(** A merge that returns has stored the cell where [all_results] keeps it,
    has added its length to the count, and is recorded by one event. *)
Lemma merge_flat_stores item kw recs st st' :
  merge_flat item kw recs st = (Ret tt, st') ->
  Results.get_path [item; "Records"; kw] (all_results (self st')) = inr (JArr recs) /\
  total_saved_records (self st') = total_saved_records (self st) + Py.len recs /\
  trace (env st') = (trace (env st) ++ [Merge item None kw recs])%list.
Proof.
  unfold merge_flat, on_results, add_total, bind, read, lift, assign, emit.
  cbn [self env all_results set_all_results].
  destruct (Results.set_path [item; "Records"] kw (JArr recs) (all_results (self st)))
    as [e|r1] eqn:E1; cbn; [discriminate|].
  destruct (Results.add_path [item] "Total records" (Py.len recs) r1)
    as [e|r2] eqn:E2; cbn; [discriminate|].
  assert (G : Results.get_path [item; "Records"; kw] r2 = inr (JArr recs)).
  { destruct (add_path_sets _ _ _ _ _ E2) as (new & S2).
    rewrite (get_set_path_other _ _ _ _ _ [item; "Records"; kw] S2).
    - exact (get_set_path _ _ _ _ _ E1).
    - cbn. now rewrite String.eqb_refl. }
  intros H. inversion H. split; [exact G|]. split; reflexivity.
Qed.

Lemma merge_nested_stores item name kw recs st st' :
  merge_nested item name kw recs st = (Ret tt, st') ->
  Results.get_path [item; "Records"; name; "Records"; kw] (all_results (self st'))
  = inr (JArr recs) /\
  total_saved_records (self st') = total_saved_records (self st) + Py.len recs /\
  trace (env st') = (trace (env st) ++ [Merge item (Some name) kw recs])%list.
Proof.
  unfold merge_nested, on_results, add_total, bind, read, lift, assign, emit.
  cbn [self env all_results set_all_results].
  destruct (Results.set_path [item; "Records"; name; "Records"] kw (JArr recs)
                             (all_results (self st))) as [e|r1] eqn:E1; cbn; [discriminate|].
  destruct (Results.add_path [item; "Records"; name] "Total records" (Py.len recs) r1)
    as [e|r2] eqn:E2; cbn; [discriminate|].
  destruct (Results.add_path [item] "Total records" (Py.len recs) r2)
    as [e|r3] eqn:E3; cbn; [discriminate|].
  assert (G : Results.get_path [item; "Records"; name; "Records"; kw] r3
              = inr (JArr recs)).
  { destruct (add_path_sets _ _ _ _ _ E2) as (new2 & S2).
    destruct (add_path_sets _ _ _ _ _ E3) as (new3 & S3).
    rewrite (get_set_path_other _ _ _ _ _ [item; "Records"; name; "Records"; kw] S3).
    - rewrite (get_set_path_other _ _ _ _ _ [item; "Records"; name; "Records"; kw] S2).
      + exact (get_set_path _ _ _ _ _ E1).
      + cbn. now rewrite !String.eqb_refl.
    - cbn. now rewrite String.eqb_refl. }
  intros H. inversion H. split; [exact G|]. split; reflexivity.
Qed.

Lemma empty_entry_ok keywords : Shape.flat_ok (Results.empty_entry keywords) = true.
Proof. reflexivity. Qed.

Lemma empty_nested_entry_ok names keywords :
  Shape.nested_ok names (Results.empty_nested_entry names keywords) = true.
Proof.
  unfold Results.empty_nested_entry. simpl. apply forallb_forall. intros x Hx.
  now rewrite (lookup_dict_comp (fun _ => Results.empty_entry keywords) x names Hx).
Qed.

End ShapeFacts.

(* ================================================================== *)
(** * The ledger is kept by [search] *)

Section TraceFacts.

Lemma audit_app a : forall t b,
  Trace.audit t (a ++ b)
  = match Trace.audit t a with Some t' => Trace.audit t' b | None => None end.
Proof.
  induction a as [|e a IH]; intros; simpl; [reflexivity|].
  destruct e; auto.
  destruct (Py.getitem doc "total_saved_records") as [|[]]; auto.
  destruct (z =? t); auto.
Qed.

Lemma audit_quiet evs : forall t,
  forallb Trace.quiet evs = true -> Trace.audit t evs = Some t.
Proof.
  induction evs as [|e evs IH]; intros t H; simpl in *; [reflexivity|].
  apply andb_prop in H as [He H]. destruct e; try discriminate; auto.
Qed.

Lemma paired_app a : forall w b,
  Trace.paired w (a ++ b)
  = match Trace.paired w a with Some w' => Trace.paired w' b | None => None end.
Proof.
  induction a as [|e a IH]; intros; simpl; [reflexivity|].
  destruct e; auto; destruct w; auto.
Qed.

Lemma paired_quiet evs : forall w,
  forallb Trace.quiet evs = true -> Trace.paired w evs = Some w.
Proof.
  induction evs as [|e evs IH]; intros w H; simpl in *; [reflexivity|].
  apply andb_prop in H as [He H]. destruct e; try discriminate; auto.
Qed.

Lemma audit_sum evs : forall t t',
  Trace.audit t evs = Some t' -> t' = t + Trace.merged_records evs.
Proof.
  induction evs as [|e evs IH]; intros t t' H; simpl in *.
  - inversion H. lia.
  - destruct e; try (now apply IH).
    + apply IH in H. lia.
    + destruct (Py.getitem doc "total_saved_records") as [|[]]; try discriminate.
      destruct (z =? t); [now apply IH | discriminate].
Qed.

Lemma merged_records_nonneg evs : 0 <= Trace.merged_records evs.
Proof.
  induction evs as [|e evs IH]; simpl; [lia|].
  destruct e; auto. unfold Py.len. lia.
Qed.

Lemma count_app p a b :
  Trace.count p (a ++ b) = (Trace.count p a + Trace.count p b)%nat.
Proof. unfold Trace.count. now rewrite filter_app, length_app. Qed.

Lemma count_quiet p evs :
  (forall e, p e = true -> Trace.quiet e = false) ->
  forallb Trace.quiet evs = true -> Trace.count p evs = 0%nat.
Proof.
  intros Hp. unfold Trace.count.
  induction evs as [|e evs IH]; intros H; simpl in *; [reflexivity|].
  apply andb_prop in H as [He H].
  destruct (p e) eqn:Pe; [|now apply IH].
  apply Hp in Pe. congruence.
Qed.

Lemma save_not_quiet e : Trace.is_save e = true -> Trace.quiet e = false.
Proof. now destruct e. Qed.
Lemma merge_not_quiet e : Trace.is_merge e = true -> Trace.quiet e = false.
Proof. now destruct e. Qed.
Lemma remove_not_quiet e : Trace.is_remove e = true -> Trace.quiet e = false.
Proof. now destruct e. Qed.

Lemma index_In {A} (l : list A) i a : Py.index l i = inr a -> In a l.
Proof.
  unfold Py.index. destruct (_ <? 0); [discriminate|].
  destruct (nth_error l _) eqn:N; [|discriminate].
  intros H. inversion H; subst. eapply nth_error_In; eauto.
Qed.

End TraceFacts.

Section LedgerFacts.

Variable ckpt : string.
Variable st0 : state.

Lemma ledger_start : Shape.wf (all_results (self st0)) = true -> ledger ckpt st0 st0.
Proof.
  intros W. split; [exact W|]. exists []. unfold ledger_of. simpl.
  rewrite app_nil_r, orb_false_r. repeat split.
Qed.

Lemma ledger_cell_step st st' : ledger ckpt st0 st -> cell_step st st' -> ledger ckpt st0 st'.
Proof.
  intros [W (new & T & A & B & C & R & F)] [a b _ _ _ f (evs & g & q)].
  split; [now rewrite a|].
  exists (new ++ evs)%list. unfold ledger_of.
  rewrite g, T, app_assoc, audit_app, A, paired_app, B, !count_app, b, f, F.
  rewrite (count_quiet _ _ save_not_quiet q), (count_quiet _ _ merge_not_quiet q),
    (count_quiet _ _ remove_not_quiet q), (audit_quiet _ _ q), (paired_quiet _ _ q),
    !Nat.add_0_r.
  repeat split; auto.
Qed.

Lemma ledger_at_cell_step item st st' :
  ledger_at ckpt st0 item st -> cell_step st st' -> ledger_at ckpt st0 item st'.
Proof.
  intros [L P] S. split; [eapply ledger_cell_step; eauto|].
  now rewrite (cs_results _ _ S).
Qed.

(** Assignments to the indices. *)
Lemma ledger_assign_index (f : instance -> instance) (P : state -> Prop) :
  (forall s, all_results (f s) = all_results s /\
             total_saved_records (f s) = total_saved_records s) ->
  (P = ledger ckpt st0 \/ exists item, P = ledger_at ckpt st0 item) ->
  hoare (ledger ckpt st0) P (assign f) (fun _ => P).
Proof.
  intros Hf HP st H. simpl.
  destruct (Hf (self st)) as [Hr Ht].
  assert (L : forall st1, ledger ckpt st0 st1 ->
               self st1 = self st -> env st1 = env st ->
               ledger ckpt st0 (mkState (f (self st)) (env st))).
  { intros st1 [W (new & T & A & B & C & R & F)] Es Ee. rewrite Es, Ee in *.
    split; simpl; [now rewrite Hr|]. exists new. unfold ledger_of. simpl.
    rewrite Ht. repeat split; auto. }
  destruct HP as [->|[item ->]].
  - eapply L; eauto.
  - destruct H as [H Hp]. split; [eapply L; eauto|]. simpl. now rewrite Hr.
Qed.

End LedgerFacts.

Section SearchLedger.

Variable C : connector.
Variable st0 : state.
Hypothesis cell_frames : forall nested item name kw, frames (cell C nested item name kw).

Lemma on_results_run f st r' :
  f (all_results (self st)) = inr r' ->
  on_results f st = (Ret tt, mkState (set_all_results r' (self st)) (env st)).
Proof. intros H. unfold on_results, bind, read, lift. now rewrite H. Qed.

Lemma checkpoint_run i j k st :
  exists doc,
    checkpoint C i j k st
    = (Ret tt, mkState (self st)
                 (mkWorld (FS.write (checkpoint_file C) doc (files (env st)))
                          (issued (env st))
                          (trace (env st) ++ [SaveCheckpoint doc]))) /\
    Py.getitem doc "total_saved_records" = inr (JNum (total_saved_records (self st))).
Proof.
  eexists. split; reflexivity.
Qed.

(** After a merge and its checkpoint the ledger holds again. *)
Lemma ledger_after_merge item st r2 n c nm kw :
  kept_at C st0 item st -> Shape.wf r2 = true -> present item r2 = true -> n = Py.len c ->
  forall doc,
    Py.getitem doc "total_saved_records"
    = inr (JNum (total_saved_records (self st) + n)) ->
    kept_at C st0 item
       (mkState
          (set_total_saved_records (total_saved_records (self st) + n)
             (set_all_results r2 (self st)))
          (mkWorld (FS.write (checkpoint_file C) doc (files (env st)))
                   (issued (env st))
                   ((trace (env st) ++ [Merge item nm kw c]) ++ [SaveCheckpoint doc]))).
Proof.
  intros [[W (new & T & A & B & Cn & R & F)] P] W2 P2 -> doc D.
  split; [split|]; simpl; auto.
  exists (new ++ [Merge item nm kw c; SaveCheckpoint doc])%list.
  unfold ledger_of. simpl.
  rewrite T, audit_app, A, paired_app, B, !count_app, Cn, R. simpl.
  rewrite D, Z.eqb_refl. unfold FS.exists_, FS.write. rewrite mem_dict_set.
  repeat split.
  - now rewrite <- !app_assoc.
  - rewrite Nat.add_1_r. simpl. now rewrite orb_true_r.
Qed.

Lemma merge_flat_checkpoint item kw recs i j k st :
  kept_at C st0 item st -> Py.len (PyStr.split " or " item) = 1 ->
  exists st', (merge_flat item kw recs ;; checkpoint C i j k) st = (Ret tt, st') /\
              kept_at C st0 item st'.
Proof.
  intros H Hlen. pose proof H as [[W _] P].
  destruct (wf_set_flat_cell item kw (JArr recs) _ W P Hlen) as (r1 & E1 & W1 & P1).
  destruct (wf_add_item_total item (Py.len recs) r1 W1 P1) as (r2 & E2 & W2 & P2).
  unfold merge_flat.
  erewrite bind_run.
  2:{ erewrite bind_run by (apply on_results_run; exact E1).
      erewrite bind_run by reflexivity.
      erewrite bind_run by (apply on_results_run; exact E2).
      reflexivity. }
  match goal with |- context [checkpoint C i j k ?s] =>
    destruct (checkpoint_run i j k s) as (doc & -> & D) end.
  eexists. split; [reflexivity|].
  apply (ledger_after_merge item st r2 (Py.len recs) recs None kw H W2 P2 eq_refl doc D).
Qed.

Lemma merge_nested_checkpoint item name kw recs i j k st :
  kept_at C st0 item st -> Py.len (PyStr.split " or " item) <> 1 ->
  In name (PyStr.split " or " item) ->
  exists st', (merge_nested item name kw recs ;; checkpoint C i j k) st = (Ret tt, st') /\
              kept_at C st0 item st'.
Proof.
  intros H Hlen Hin. pose proof H as [[W _] P].
  destruct (wf_set_nested_cell item name kw (JArr recs) _ W P Hlen Hin)
    as (r1 & E1 & W1 & P1).
  destruct (wf_add_name_total item name (Py.len recs) r1 W1 P1 Hlen Hin)
    as (r2 & E2 & W2 & P2).
  destruct (wf_add_item_total item (Py.len recs) r2 W2 P2) as (r3 & E3 & W3 & P3).
  unfold merge_nested.
  erewrite bind_run.
  2:{ erewrite bind_run by (apply on_results_run; exact E1).
      erewrite bind_run by reflexivity.
      erewrite bind_run by (apply on_results_run; exact E2).
      erewrite bind_run by (apply on_results_run; exact E3).
      reflexivity. }
  match goal with |- context [checkpoint C i j k ?s] =>
    destruct (checkpoint_run i j k s) as (doc & -> & D) end.
  eexists. split; [reflexivity|].
  apply (ledger_after_merge item st r3 (Py.len recs) recs (Some name) kw H W3 P3 eq_refl doc D).
Qed.

Lemma ensure_entry_ledger item entry :
  Shape.entry_ok (item, entry) = true ->
  hoare (kept C st0) (kept C st0) (ensure_entry item entry) (fun _ => kept_at C st0 item).
Proof.
  intros He st [W N]. unfold ensure_entry, bind, read, lift. simpl.
  destruct (all_results (self st)) as [| | | | |d] eqn:R; try discriminate.
  simpl. destruct (Py.mem item d) eqn:M; simpl.
  - split; [split|]; rewrite ?R; auto.
  - split; [split|]; simpl.
    + now apply forallb_dict_set.
    + destruct N as (new & N). now exists new.
    + apply mem_dict_set.
Qed.

Lemma ledger_at_ledger item st : kept_at C st0 item st -> (kept C st0) st.
Proof. now intros [H _]. Qed.

Lemma keyword_body_ledger (nested : bool) kws item name i k j :
  (if nested
   then Py.len (PyStr.split " or " item) <> 1 /\ In name (PyStr.split " or " item)
   else Py.len (PyStr.split " or " item) = 1) ->
  hoare (kept C st0) (kept_at C st0 item)
        (keyword_body C nested kws item name i k j) (fun _ => kept_at C st0 item).
Proof.
  intros Hshape. unfold keyword_body.
  apply hoare_lift_bind; [apply ledger_at_ledger|]. intros keyword _.
  apply hoare_frames_bind;
    [apply cell_frames | apply ledger_at_cell_step | apply ledger_at_ledger |].
  intros [records|]; [|apply hoare_ret with (Q := fun _ => kept_at C st0 item)].
  intros st H. destruct nested.
  - destruct Hshape as [Hlen Hin].
    destruct (merge_nested_checkpoint item name keyword records i (j + 1) k st H Hlen Hin)
      as (st' & -> & H'). exact H'.
  - destruct (merge_flat_checkpoint item keyword records i (j + 1) k st H Hshape)
      as (st' & -> & H'). exact H'.
Qed.

Lemma keyword_loop_ledger (nested : bool) kws item name i k :
  (if nested
   then Py.len (PyStr.split " or " item) <> 1 /\ In name (PyStr.split " or " item)
   else Py.len (PyStr.split " or " item) = 1) ->
  hoare (kept C st0) (kept_at C st0 item)
        (keyword_loop C nested kws item name i k) (fun _ => kept_at C st0 item).
Proof.
  intros Hshape. unfold keyword_loop.
  apply hoare_read_bind. intros j0.
  eapply hoare_pre; [intros st [_ H]; exact H|].
  apply hoare_for_each. intros j _. now apply keyword_body_ledger.
Qed.

Lemma reset_keyword_index_ledger item :
  hoare (kept C st0) (kept_at C st0 item) (reset_keyword_index C) (fun _ => kept_at C st0 item).
Proof.
  unfold reset_keyword_index. destruct (resets_indices C).
  - apply (ledger_assign_index (checkpoint_file C) st0 (set_keyword_index 0) (kept_at C st0 item));
      [now intros s | right; now exists item].
  - apply hoare_ret with (Q := fun _ => kept_at C st0 item).
Qed.

Lemma name_body_ledger kws names item i k :
  names = PyStr.split " or " item -> Py.len names <> 1 ->
  hoare (kept C st0) (kept_at C st0 item)
        (name_body C kws names item i k) (fun _ => kept_at C st0 item).
Proof.
  intros -> Hlen. unfold name_body.
  apply hoare_lift_bind; [apply ledger_at_ledger|]. intros name Hn.
  eapply hoare_bind.
  - apply keyword_loop_ledger. split; [exact Hlen | eapply index_In; eauto].
  - intros u.
    apply (ledger_assign_index (checkpoint_file C) st0 (set_keyword_index 0) (kept_at C st0 item));
      [now intros s | right; now exists item].
Qed.

Lemma item_body_ledger terms kws i :
  hoare (kept C st0) (kept C st0) (item_body C terms kws i) (fun _ => (kept C st0)).
Proof.
  unfold item_body.
  apply hoare_lift_bind; [auto|]. intros item _.
  eapply hoare_bind with (Q := fun _ => kept_at C st0 item).
  - destruct (Z.eqb_spec (Py.len (PyStr.split " or " item)) 1) as [Hlen|Hlen].
    + eapply hoare_bind.
      * apply ensure_entry_ledger. unfold Shape.entry_ok. simpl. now rewrite Hlen.
      * intros u. apply hoare_lift_bind; [apply ledger_at_ledger|]. intros name _.
        eapply hoare_bind; [now apply keyword_loop_ledger|].
        intros u'. apply reset_keyword_index_ledger.
    + eapply hoare_bind.
      * apply ensure_entry_ledger. unfold Shape.entry_ok. simpl.
        destruct (Z.eqb_spec (Py.len (PyStr.split " or " item)) 1); [contradiction|].
        apply empty_nested_entry_ok.
      * intros u. apply hoare_read_bind. intros k0.
        eapply hoare_pre; [intros st [_ H]; exact H|].
        eapply hoare_bind.
        -- apply hoare_for_each. intros k _. now apply name_body_ledger.
        -- intros u'. unfold reset_name_index. destruct (resets_indices C).
           ++ apply (ledger_assign_index (checkpoint_file C) st0 (set_name_index 0)
                       (kept_at C st0 item)); [now intros s | right; now exists item].
           ++ apply hoare_ret with (Q := fun _ => kept_at C st0 item).
  - intros u. eapply hoare_bind; [apply reset_keyword_index_ledger|].
    intros u'. eapply hoare_conseq.
    + apply (ledger_assign_index (checkpoint_file C) st0 (set_name_index 0) (kept_at C st0 item));
        [now intros s | right; now exists item].
    + auto.
    + intros a st. apply ledger_at_ledger.
Qed.

Lemma item_loop_ledger terms kws l :
  hoare (kept C st0) (kept C st0) (for_each l (item_body C terms kws)) (fun _ => (kept C st0)).
Proof. apply hoare_for_each. intros i _. apply item_body_ledger. Qed.

Lemma exists_write_other a b doc fs :
  a <> b -> FS.exists_ a (FS.write b doc fs) = FS.exists_ a fs.
Proof.
  intros N. unfold FS.exists_, FS.write, Py.mem. now rewrite lookup_dict_set_neq.
Qed.

Lemma exists_remove a fs : FS.exists_ a (FS.remove a fs) = false.
Proof.
  unfold FS.exists_, FS.remove, Py.mem.
  induction fs as [|[k v] fs IH]; simpl; [reflexivity|].
  destruct (String.eqb_spec k a) as [->|N]; simpl; [exact IH|].
  destruct (String.eqb_spec a k); [congruence | exact IH].
Qed.

(** The report of a whole run. *)
Lemma search_report terms kws :
  Shape.wf (all_results (self st0)) = true ->
  checkpoint_file C <> results_file C ->
  exists new,
    run_report (checkpoint_file C) st0
               (fst (search C terms kws st0)) (snd (search C terms kws st0)) new.
Proof.
  intros W Hfiles. unfold search, bind at 1, read.
  pose proof (item_loop_ledger terms kws
                (Py.range (item_index (self st0)) (Py.len terms)) st0
                (ledger_start _ _ W)) as H.
  unfold bind.
  destruct (for_each _ (item_body C terms kws) st0) as [[[]|e|] st1].
  - destruct H as [_ (new & T & A & B & Cn & R & F)].
    unfold finish, bind, read, emit, write_file, log_callback, path_exists. simpl.
    rewrite exists_write_other by assumption.
    destruct (FS.exists_ (checkpoint_file C) (files (env st1))) eqn:X; simpl.
    + exists (new ++ [WriteResults (results_file C)
                        (JObj [("Total", JNum (total_saved_records (self st1)));
                               ("Biases", all_results (self st1))]);
                      Log (ResultsSaved (results_file C));
                      RemoveCheckpoint (checkpoint_file C)])%list.
      unfold run_report. simpl.
      rewrite T, audit_app, A, paired_app, B, !count_app, Cn, R, exists_remove. simpl.
      rewrite <- !app_assoc, !Nat.add_0_r, <- Cn, <- F. repeat split; auto.
    + exists (new ++ [WriteResults (results_file C)
                        (JObj [("Total", JNum (total_saved_records (self st1)));
                               ("Biases", all_results (self st1))]);
                      Log (ResultsSaved (results_file C))])%list.
      unfold run_report. simpl.
      rewrite T, audit_app, A, paired_app, B, !count_app, Cn, R, exists_write_other, X
        by assumption.
      simpl. rewrite <- !app_assoc, !Nat.add_0_r, <- Cn, <- F. repeat split; auto.
  - destruct H as [_ (new & T & A & B & Cn & R & F)]. exists new.
    unfold run_report. repeat split; auto.
  - destruct H as [_ (new & T & A & B & Cn & R & F)]. exists new.
    unfold run_report. repeat split; auto.
Qed.

End SearchLedger.

(* ================================================================== *)
(** * Request accounting *)

Section Calls.

Variable net : network.
Variable cfg : config.

(** A call that gets its response: outcome, log and counter. *)
Lemma connector_call_run b q s st :
  answered b (net (issued (env st)) (call_url b cfg q s)) = true ->
  let c := request_counter (self st) in
  let n := (if metered b && (max_requests_per_day cfg <=? c) then 0 else c) + 1 in
  let r := connector_call b net cfg q s st in
  fst r = Ret tt /\
  request_log (self (snd r))
  = request_log (self st) ++ request_line b n (call_url b cfg q s) /\
  request_counter (self (snd r)) = n.
Proof.
  destruct b; simpl; intros H.
  - unfold IEEEAPI.call_api, IEEEAPI.urlopen, bind, read, assign, send, sleep, emit.
    simpl.
    destruct (net _ _) as [|status [|j|x]]; try discriminate.
    rewrite H. simpl. auto.
  - unfold SpringerAPI.get_data_from_url, bind, read, assign, send, sleep, emit,
      log_callback.
    destruct (max_requests_per_day cfg <=? request_counter (self st)); simpl;
      destruct (net _ _) as [|status [|j|x]]; try discriminate; simpl; auto.
  - unfold ScopusAPI.get_data_from_url, bind, read, assign, send, sleep, emit,
      log_callback.
    destruct (max_requests_per_day cfg <=? request_counter (self st)); simpl;
      destruct (net _ _) as [|status [|j|x]]; try discriminate; rewrite H; simpl; auto.
  - unfold PubMedAPI.get_data_from_url, bind, read, assign, send, sleep, emit,
      log_callback.
    destruct (max_requests_per_day cfg <=? request_counter (self st)); simpl;
      destruct (net _ _) as [|status content]; try discriminate; simpl; auto.
Qed.

(** C3, as the code has it: a connector call that gets its response
    appends exactly the line "<Backend> API request #<n>: <url>" to the
    request log and leaves the counter at [n], where [n] is one more than
    the counter before the call, or 1 when a metered backend has just
    reset a counter that had reached the daily budget. *)
Theorem connector_call_accounting b q s st :
  answered b (net (issued (env st)) (call_url b cfg q s)) = true ->
  let c := request_counter (self st) in
  let n := (if metered b && (max_requests_per_day cfg <=? c) then 0 else c) + 1 in
  let r := connector_call b net cfg q s st in
  fst r = Ret tt /\
  request_log (self (snd r))
  = request_log (self st) ++ request_line b n (call_url b cfg q s) /\
  request_counter (self (snd r)) = n.
Proof. exact (connector_call_run b q s st). Qed.

(** The events of a call and the number it logs, whatever the backend
    answers: the three metered backends test the counter against the
    daily budget before the request and, when it is reached, announce the
    pause, sleep 24 hours and restart the counter at zero; IEEE only
    sleeps one second. *)
Lemma connector_call_guard b q s st :
  let c := request_counter (self st) in
  let hit := metered b && (max_requests_per_day cfg <=? c) in
  let st' := snd (connector_call b net cfg q s st) in
  trace (env st')
  = (trace (env st)
     ++ (if metered b then [] else [Sleep 1])
     ++ (if hit then [Log (BudgetReached (backend_name b) (max_requests_per_day cfg));
                      Sleep (24 * 60 * 60)]
         else [])
     ++ [Request (call_url b cfg q s)])%list /\
  request_log (self st')
  = request_log (self st) ++ request_line b ((if hit then 0 else c) + 1) (call_url b cfg q s).
Proof.
  destruct b; simpl.
  - unfold IEEEAPI.call_api, IEEEAPI.urlopen, bind, read, assign, send, sleep, emit.
    simpl.
    destruct (net _ _) as [|status [|j|x]]; simpl;
      try destruct (_ && _); simpl; rewrite <- ?app_assoc; auto.
  - unfold SpringerAPI.get_data_from_url, bind, read, assign, send, sleep, emit,
      log_callback.
    destruct (max_requests_per_day cfg <=? request_counter (self st)); simpl;
      destruct (net _ _) as [|status [|j|x]]; simpl; rewrite <- ?app_assoc; auto.
  - unfold ScopusAPI.get_data_from_url, bind, read, assign, send, sleep, emit,
      log_callback.
    destruct (max_requests_per_day cfg <=? request_counter (self st)); simpl;
      destruct (net _ _) as [|status [|j|x]]; simpl;
      try destruct (negb _); simpl; rewrite <- ?app_assoc; auto.
  - unfold PubMedAPI.get_data_from_url, bind, read, assign, send, sleep, emit,
      log_callback.
    destruct (max_requests_per_day cfg <=? request_counter (self st)); simpl;
      destruct (net _ _) as [|status content]; simpl; rewrite <- ?app_assoc; auto.
Qed.

End Calls.

Section Budget.

Variable net : network.
Variable cfg : config.

Lemma since_app st st' l :
  trace (env st') = (trace (env st) ++ l)%list -> since st st' = l.
Proof.
  intros H. unfold since. rewrite H, skipn_app, skipn_all, Nat.sub_diag. reflexivity.
Qed.

Lemma run_pair {A} (m : M A) st a :
  fst (m st) = Ret a -> m st = (Ret a, snd (m st)).
Proof. destruct (m st); simpl. now intros ->. Qed.

(** With a budget of 2, three calls in a row pause once, after the second
    request and before the third, which starts again from a counter of
    zero. *)
Lemma budget_of_two b q1 s1 q2 s2 q3 s3 st :
  metered b = true -> max_requests_per_day cfg = 2 ->
  request_counter (self st) = 0 ->
  (forall n u, answered b (net n u) = true) ->
  let st' := snd (connector_calls b net cfg [(q1, s1); (q2, s2); (q3, s3)] st) in
  since st st'
  = [ Request (call_url b cfg q1 s1);
      Request (call_url b cfg q2 s2);
      Log (BudgetReached (backend_name b) 2);
      Sleep (24 * 60 * 60);
      Request (call_url b cfg q3 s3) ] /\
  request_counter (self st') = 1.
Proof.
  intros Hm Hb Hc Ha. unfold connector_calls. simpl for_each.
  destruct (connector_call_run net cfg b q1 s1 st (Ha _ _)) as (R1 & _ & C1).
  destruct (connector_call_guard net cfg b q1 s1 st) as (T1 & _).
  rewrite (bind_run _ _ _ _ _ (run_pair _ _ _ R1)).
  set (st1 := snd (connector_call b net cfg q1 s1 st)) in *.
  destruct (connector_call_run net cfg b q2 s2 st1 (Ha _ _)) as (R2 & _ & C2).
  destruct (connector_call_guard net cfg b q2 s2 st1) as (T2 & _).
  rewrite (bind_run _ _ _ _ _ (run_pair _ _ _ R2)).
  set (st2 := snd (connector_call b net cfg q2 s2 st1)) in *.
  destruct (connector_call_run net cfg b q3 s3 st2 (Ha _ _)) as (R3 & _ & C3).
  destruct (connector_call_guard net cfg b q3 s3 st2) as (T3 & _).
  rewrite (bind_run _ _ _ _ _ (run_pair _ _ _ R3)).
  set (st3 := snd (connector_call b net cfg q3 s3 st2)) in *.
  simpl snd.
  rewrite Hm, Hb, Hc in *. simpl in C1, T1. rewrite C1 in *. simpl in C2, T2.
  rewrite C2 in *. simpl in C3, T3.
  split; [|exact C3].
  apply since_app. rewrite T3, T2, T1, <- !app_assoc. reflexivity.
Qed.

(** C5.  For every backend, state and call: the events of the call and
    the number of the logged request (budget test, 24-hour pause and
    reset on the metered backends, none on IEEE); [__init__] sets the budget of the three metered
    backends to 500; and with a budget of 2 exactly one pause fires,
    after the second request, the counter being 0 before the third. *)
Theorem daily_budget_guard :
  (forall b q s st,
      let c := request_counter (self st) in
      let hit := metered b && (max_requests_per_day cfg <=? c) in
      let st' := snd (connector_call b net cfg q s st) in
      since st st'
      = ((if metered b then [] else [Sleep 1])
         ++ (if hit
             then [Log (BudgetReached (backend_name b) (max_requests_per_day cfg));
                   Sleep (24 * 60 * 60)]
             else [])
         ++ [Request (call_url b cfg q s)])%list /\
      request_log (self st')
      = request_log (self st)
        ++ request_line b ((if hit then 0 else c) + 1) (call_url b cfg q s)) /\
  (forall key tok,
      max_requests_per_day (SpringerAPI.config_of key) = 500 /\
      max_requests_per_day (ScopusAPI.config_of key tok) = 500 /\
      max_requests_per_day (PubMedAPI.config_of key) = 500) /\
  (forall b q1 s1 q2 s2 q3 s3 st,
      metered b = true -> max_requests_per_day cfg = 2 ->
      request_counter (self st) = 0 ->
      (forall n u, answered b (net n u) = true) ->
      let st' := snd (connector_calls b net cfg [(q1, s1); (q2, s2); (q3, s3)] st) in
      since st st'
      = [ Request (call_url b cfg q1 s1);
          Request (call_url b cfg q2 s2);
          Log (BudgetReached (backend_name b) 2);
          Sleep (24 * 60 * 60);
          Request (call_url b cfg q3 s3) ] /\
      Trace.sleeps (since st st') = [24 * 60 * 60] /\
      request_counter (self st') = 1).
Proof.
  split; [|split].
  - intros b q s st. destruct (connector_call_guard net cfg b q s st) as (T & G).
    split; [|exact G]. apply since_app. exact T.
  - intros. repeat split.
  - intros b q1 s1 q2 s2 q3 s3 st Hm Hb Hc Ha.
    destruct (budget_of_two b q1 s1 q2 s2 q3 s3 st Hm Hb Hc Ha) as (T & C).
    split; [exact T|]. split; [|exact C]. cbv zeta. rewrite T. reflexivity.
Qed.

End Budget.

(* ================================================================== *)
(** * Pagination of the offset-style connector *)

Section IEEEPages.

Variable net : network.
Variable key : string.
Variable q : string.            (* the query text of the cell *)
Variable total : Z.             (* the total the first page reports *)
Hypothesis served : serves_pages net.

Lemma call_api_run s st j :
  net (issued (env st)) (IEEEAPI.url_of key q s) = Http 200 (JsonDoc j) ->
  exists st',
    IEEEAPI.call_api net key q s st = (Ret j, st') /\
    trace (env st') = (trace (env st) ++ [Sleep 1; Request (IEEEAPI.url_of key q s)])%list /\
    issued (env st') = S (issued (env st)).
Proof.
  intros H. unfold IEEEAPI.call_api, IEEEAPI.urlopen, bind, read, assign, send, sleep, emit.
  simpl. rewrite H. simpl. eexists. split; [reflexivity|]. simpl.
  rewrite <- app_assoc. auto.
Qed.

Lemma requests_app a b : Trace.requests (a ++ b) = (Trace.requests a ++ Trace.requests b)%list.
Proof. unfold Trace.requests. apply flat_map_app. Qed.

(** The loop from a page at offset [start] on, [m] pages before the last. *)
Lemma page_loop_run m : forall fuel start tr recs st,
  0 <= start -> (m < fuel)%nat ->
  (forall j, net (issued (env st)) (IEEEAPI.url_of key q start) = Http 200 (JsonDoc j) ->
             (if Py.eq_int tr 0 then Py.get j "total_records" (JNum 0) else inr tr)
             = inr (JNum total)) ->
  total <= start + 25 * Z.of_nat m + 24 ->
  (m = 0%nat \/ start + 25 * (Z.of_nat m - 1) + 24 < total) ->
  exists records st' evs,
    IEEEAPI.page_loop net key fuel q start tr recs st = (Ret records, st') /\
    trace (env st') = (trace (env st) ++ evs)%list /\
    Trace.requests evs
    = map (fun i => IEEEAPI.url_of key q (start + 25 * Z.of_nat i)) (seq 0 (S m)) /\
    issued (env st') = (issued (env st) + S m)%nat.
Proof.
  induction m as [|m IH]; intros fuel start tr recs st Hs Hf Htot Hup Hlow;
    (destruct fuel as [|fuel]; [lia|]); cbn [IEEEAPI.page_loop];
    destruct (served (issued (env st)) (IEEEAPI.url_of key q start)) as (j & rs & Hj & Hrs);
    destruct (call_api_run start st j Hj) as (st1 & Hrun & T1 & I1);
    rewrite (bind_run _ _ _ _ _ Hrun);
    specialize (Htot j Hj);
    assert (Ht : (if Py.eq_int tr 0
                  then lift (Py.get j "total_records" (JNum 0))
                  else ret tr) st1 = (Ret (JNum total), st1))
      by (destruct (Py.eq_int tr 0); [rewrite Htot | inversion Htot]; reflexivity);
    rewrite (bind_run _ _ _ _ _ Ht), Hrs;
    rewrite (bind_run _ _ st1 rs st1 eq_refl).
  - rewrite (bind_run _ _ st1 true st1).
    2:{ unfold Py.int_ge. cbn [Py.as_int lift Py.ok].
        destruct (Z.leb_spec total (start + 24)); [reflexivity | lia]. }
    exists (recs ++ rs)%list, st1, [Sleep 1; Request (IEEEAPI.url_of key q start)].
    split; [reflexivity|]. split; [exact T1|]. split; [|lia].
    cbn [seq map Trace.requests flat_map app].
    replace (start + 25 * Z.of_nat 0) with start by lia. reflexivity.
  - rewrite (bind_run _ _ st1 false st1).
    2:{ unfold Py.int_ge. cbn [Py.as_int lift Py.ok].
        destruct (Z.leb_spec total (start + 24)); [lia | reflexivity]. }
    erewrite bind_run by reflexivity.
    erewrite bind_run by reflexivity.
    erewrite bind_run by reflexivity.
    match goal with |- context [IEEEAPI.page_loop net key fuel q ?s ?t ?r ?st2] =>
      destruct (IH fuel s t r st2) as (records & st' & evs & Hloop & T2 & R2 & I2)
    end; try lia.
    { intros j' _. unfold Py.eq_int. cbn [Py.as_int].
      destruct (Z.eqb_spec total 0); [lia | reflexivity]. }
    rewrite Hloop.
    exists records, st',
      ([Sleep 1; Request (IEEEAPI.url_of key q start)]
         ++ [Log (RequestTimed "IEEE" (request_counter (self st1)));
             Progress (request_counter (self st1))] ++ evs)%list.
    split; [reflexivity|].
    cbn [env self trace issued add_event] in T2, I2. rewrite T2, T1, I2, I1. split.
    + rewrite <- !app_assoc. reflexivity.
    + rewrite !requests_app, R2. split; [|lia].
      change (seq 0 (S (S m))) with (0%nat :: seq 1 (S m)).
      rewrite <- seq_shift. cbn [map Trace.requests flat_map app].
      rewrite map_map.
      f_equal; [f_equal; lia|].
      apply map_ext. intros i. f_equal. lia.
Qed.

Lemma pages_bounds :
  let m := (pages total - 1)%nat in
  pages total = S m /\
  total <= 1 + 25 * Z.of_nat m + 24 /\
  (m = 0%nat \/ 1 + 25 * (Z.of_nat m - 1) + 24 < total).
Proof.
  unfold pages.
  pose proof (Z.div_mod (total + 24) 25 ltac:(lia)).
  pose proof (Z.mod_pos_bound (total + 24) 25 ltac:(lia)).
  destruct (Z.max_spec 1 ((total + 24) / 25)) as [[H1 ->]|[H1 ->]]; cbv zeta.
  - split; [lia|]. split; [lia|]. right. lia.
  - split; [lia|]. split; [lia|]. left. lia.
Qed.

End IEEEPages.

(** C6.  On a backend that serves well-shaped pages, the pagination of one
    IEEE cell whose first page reports [total] records returns, having
    requested exactly [pages total] pages at the 1-based offsets 1, 26,
    51, ...; the page at offset [o] is the last one exactly when
    [o + 24 >= total]; for a total of 30 that makes 2 requests. *)
Theorem ieee_cell_pagination net key fuel (nested : bool) query name kw st data total :
  serves_pages net ->
  let query_text := IEEEAPI.form_query (if nested then name else query) kw in
  net (issued (env st)) (IEEEAPI.url_of key query_text 1) = Http 200 (JsonDoc data) ->
  Py.get data "total_records" (JNum 0) = inr (JNum total) ->
  (pages total <= fuel)%nat ->
  let r := IEEEAPI.cell net key fuel nested query name kw st in
  (exists records, fst r = Ret (Some records)) /\
  Trace.requests (since st (snd r))
  = map (IEEEAPI.url_of key query_text) (page_starts (pages total)) /\
  issued (env (snd r)) = (issued (env st) + pages total)%nat /\
  (forall i, (i < pages total)%nat ->
             (total <= (1 + 25 * Z.of_nat i) + 24 <-> S i = pages total)) /\
  (total = 30 -> pages total = 2%nat).
Proof.
  intros Hs query_text H1 Ht Hf r.
  destruct (pages_bounds total) as (Hp & Hup & Hlow).
  set (m := (pages total - 1)%nat) in *.
  assert (Hrun : exists records st' evs,
             IEEEAPI.page_loop net key fuel query_text 1 (JNum 0) []
               (mkState (self st)
                  (add_event (Log (RequestAnnounced "IEEE" (request_counter (self st) + 1)))
                     (env st)))
             = (Ret records, st') /\
             trace (env st')
             = ((trace (env st)
                 ++ [Log (RequestAnnounced "IEEE" (request_counter (self st) + 1))])
                ++ evs)%list /\
             Trace.requests evs
             = map (fun i => IEEEAPI.url_of key query_text (1 + 25 * Z.of_nat i))
                   (seq 0 (S m)) /\
             issued (env st') = (issued (env st) + S m)%nat).
  { apply (page_loop_run net key query_text total Hs m fuel 1 (JNum 0) []
             (mkState (self st)
                (add_event (Log (RequestAnnounced "IEEE" (request_counter (self st) + 1)))
                   (env st)))); try lia.
    intros j Hj. cbn [env issued add_event] in Hj. rewrite H1 in Hj.
    inversion Hj; subst. exact Ht. }
  destruct Hrun as (records & st' & evs & Hloop & T & R & I).
  assert (Hr : r = (Ret (Some records), st')).
  { unfold r, IEEEAPI.cell. fold query_text.
    unfold bind at 1, read. unfold bind at 1, log_callback, emit.
    unfold bind. rewrite Hloop. reflexivity. }
  rewrite Hr. cbn [fst snd].
  split; [eauto|]. split; [|split; [|split]].
  - rewrite (since_app st st' _ (eq_trans T (eq_sym (app_assoc _ _ _)))).
    rewrite requests_app, R. unfold page_starts. rewrite map_map, Hp. reflexivity.
  - rewrite I, Hp. reflexivity.
  - intros i Hi. destruct Hlow as [Hlow|Hlow]; lia.
  - intros ->. reflexivity.
Qed.

(* ================================================================== *)
(** * Whole runs *)

Section Runs.

Variable net : network.
Variable cfg : config.
Variable fuel : nat.

Lemma connector_files b :
  checkpoint_file (connector_of b net cfg fuel) <> results_file (connector_of b net cfg fuel).
Proof. destruct b; discriminate. Qed.

Lemma run_report_of b terms kws st :
  Shape.wf (all_results (self st)) = true ->
  let r := search_of b net cfg fuel terms kws st in
  run_report (checkpoint_file (connector_of b net cfg fuel)) st (fst r) (snd r)
             (since st (snd r)).
Proof.
  intros W r.
  destruct (search_report (connector_of b net cfg fuel) st
              (connector_cell_frames net cfg b fuel) terms kws W (connector_files b))
    as (new & H).
  pose proof H as (T & _). fold (search_of b net cfg fuel terms kws) in T.
  fold r in T. rewrite (since_app _ _ _ T). exact H.
Qed.

(** On IEEE, Springer and Scopus a cell whose pagination returns is
    always merged. *)
Lemma cell_always_merged b nested item name kw st :
  b <> PubMed ->
  fst (cell (connector_of b net cfg fuel) nested item name kw st) <> Ret None.
Proof.
  intros Hb. destruct b; try contradiction; simpl.
  - unfold IEEEAPI.cell, bind, read, log_callback, emit.
    destruct (IEEEAPI.page_loop _ _ _ _ _ _ _ _) as [[|e|] st']; discriminate.
  - unfold SpringerAPI.cell, bind.
    destruct (SpringerAPI.page_loop _ _ _ _ _ _ _) as [[|e|] st']; discriminate.
  - unfold ScopusAPI.cell, bind.
    destruct (ScopusAPI.page_loop _ _ _ _ _ _ _) as [[|e|] st']; discriminate.
Qed.

End Runs.

(* ================================================================== *)
(** * The parsers *)

Section Parsers.

Lemma mapR_Forall2 {A B} (f : A -> result B) l : forall rs,
  Py.mapR f l = inr rs -> Forall2 (fun a r => f a = inr r) l rs.
Proof.
  induction l as [|a l IH]; simpl; intros rs H.
  - inversion H. constructor.
  - destruct (f a) as [e|b] eqn:Fa; simpl in H; [discriminate|].
    destruct (Py.mapR f l) as [e|bs]; simpl in H; [discriminate|].
    inversion H; subst. constructor; auto.
Qed.

(** Scopus keeps exactly the entries with a true value. *)
Lemma scopus_extract_entries es : forall ds acc,
  Py.mapR ScopusAPI.article_data es = inr ds ->
  ScopusAPI.extract_entries es acc
  = inr (acc ++ map JObj (filter Py.any_value ds))%list.
Proof.
  induction es as [|e es IH]; simpl; intros ds acc H.
  - inversion H. simpl. now rewrite app_nil_r.
  - destruct (ScopusAPI.article_data e) as [x|d]; simpl in *; [discriminate|].
    destruct (Py.mapR ScopusAPI.article_data es) as [x|ds']; simpl in H; [discriminate|].
    inversion H; subst. rewrite (IH ds' _ eq_refl). simpl.
    destruct (Py.any_value d); simpl; [now rewrite <- app_assoc | reflexivity].
Qed.

(** So does PubMed, among the articles that have a citation. *)
Lemma pubmed_extract_articles arts : forall ds acc,
  Py.mapR PubMedAPI.article_data arts = inr ds ->
  PubMedAPI.extract_articles arts acc
  = inr (acc ++ map JObj (filter Py.any_value (flat_map some_list ds)))%list.
Proof.
  induction arts as [|a arts IH]; simpl; intros ds acc H.
  - inversion H. simpl. now rewrite app_nil_r.
  - destruct (PubMedAPI.article_data a) as [x|d]; simpl in *; [discriminate|].
    destruct (Py.mapR PubMedAPI.article_data arts) as [x|ds']; simpl in H; [discriminate|].
    inversion H; subst. rewrite (IH ds' _ eq_refl). simpl.
    destruct d as [d|]; simpl; [|reflexivity].
    destruct (Py.any_value d); simpl; [now rewrite <- app_assoc | reflexivity].
Qed.

Lemma get_field d k default : Py.get (JObj d) k default = inr (field_or default k d).
Proof. reflexivity. Qed.

(** The authors of a record whose source has no list of authors. *)
Lemma join_nil sep : Py.join sep [] = inr (JStr EmptyString).
Proof. reflexivity. Qed.

Lemma ieee_record_fields d r :
  IEEEAPI.record_of (JObj d) = inr r ->
  exists authors,
    r = JObj [ ("title", field_or (JStr "null") "title" d);
               ("abstract", field_or (JStr "null") "abstract" d);
               ("authors", JStr authors);
               ("doi", field_or (JStr "No DOI") "doi" d);
               ("isbn", field_or (JStr "null") "isbn" d);
               ("issn", field_or (JStr "null") "issn" d);
               ("publication year", field_or (JStr "null") "publication_year" d) ] /\
    (Py.lookup "authors" d = None -> authors = EmptyString).
Proof.
  unfold IEEEAPI.record_of. rewrite !get_field. cbn [Py.rbind].
  unfold field_or at 1.
  destruct (Py.lookup "authors" d) as [a|] eqn:La.
  - destruct (Py.get a "authors" (JArr [])) as [x|a']; [discriminate|]. cbn [Py.rbind].
    destruct (Py.iter a') as [x|l]; [discriminate|]. cbn [Py.rbind].
    destruct (Py.mapR _ l) as [x|names]; [discriminate|]. cbn [Py.rbind].
    unfold Py.join. destruct (Py.mapR Py.as_str names) as [x|ss]; [discriminate|].
    cbn [Py.rbind Py.ok]. intros H. inversion H. eexists. split; [reflexivity|discriminate].
  - cbn. intros H. inversion H. eexists. split; reflexivity.
Qed.

Lemma springer_record_fields d r :
  SpringerAPI.record_of (JObj d) = inr r ->
  exists authors,
    r = JObj [ ("title", field_or (JStr "null") "title" d);
               ("abstract", field_or (JStr "null") "abstract" d);
               ("authors", JStr authors);
               ("doi", field_or (JStr "No DOI") "doi" d);
               ("isbn", field_or (JStr "null") "isbn" d);
               ("issn", field_or (JStr "null") "issn" d);
               ("publicationDate", field_or (JStr "null") "publicationDate" d) ] /\
    (Py.lookup "creators" d = None -> authors = EmptyString).
Proof.
  unfold SpringerAPI.record_of. rewrite !get_field. cbn [Py.rbind].
  unfold field_or at 1.
  destruct (Py.lookup "creators" d) as [a|] eqn:La.
  - destruct (Py.iter a) as [x|l]; [discriminate|]. cbn [Py.rbind].
    destruct (Py.mapR _ l) as [x|names]; [discriminate|]. cbn [Py.rbind].
    unfold Py.join. destruct (Py.mapR Py.as_str names) as [x|ss]; [discriminate|].
    cbn [Py.rbind Py.ok]. intros H. inversion H. eexists. split; [reflexivity|discriminate].
  - cbn. intros H. inversion H. eexists. split; reflexivity.
Qed.

Lemma scopus_record_fields d r :
  ScopusAPI.article_data (JObj d) = inr r ->
  exists authors year,
    r = [ ("title", field_or JNull "dc:title" d);
          ("abstract", field_or JNull "dc:description" d);
          ("authors", JStr authors);
          ("doi", field_or JNull "prism:doi" d);
          ("isbn", field_or (JStr "null") "prism:isbn" d);
          ("issn", field_or (JStr "null") "prism:issn" d);
          ("publication year", JStr year) ] /\
    (Py.lookup "author" d = None -> authors = EmptyString) /\
    (Py.lookup "prism:coverDate" d = None -> year = EmptyString).
Proof.
  unfold ScopusAPI.article_data. rewrite !get_field. cbn [Py.rbind].
  unfold field_or at 1.
  assert (Hy : forall authors,
             Py.rbind
               (match field_or (JStr EmptyString) "prism:coverDate" d with
                | JStr s => Py.ok (hd EmptyString (PyStr.split "-" s))
                | _ => Py.err AttributeError
                end)
               (fun year =>
                  Py.ok [ ("title", field_or JNull "dc:title" d);
                          ("abstract", field_or JNull "dc:description" d);
                          ("authors", authors);
                          ("doi", field_or JNull "prism:doi" d);
                          ("isbn", field_or (JStr "null") "prism:isbn" d);
                          ("issn", field_or (JStr "null") "prism:issn" d);
                          ("publication year", JStr year) ]) = inr r ->
             exists year,
               r = [ ("title", field_or JNull "dc:title" d);
                     ("abstract", field_or JNull "dc:description" d);
                     ("authors", authors);
                     ("doi", field_or JNull "prism:doi" d);
                     ("isbn", field_or (JStr "null") "prism:isbn" d);
                     ("issn", field_or (JStr "null") "prism:issn" d);
                     ("publication year", JStr year) ] /\
               (Py.lookup "prism:coverDate" d = None -> year = EmptyString)).
  { intros authors. unfold field_or at 1.
    destruct (Py.lookup "prism:coverDate" d) as [[| | |s| |]|]; cbn; try discriminate;
      intros H; inversion H; eexists; split; try reflexivity; discriminate. }
  destruct (Py.lookup "author" d) as [a|] eqn:La.
  - destruct (Py.iter a) as [x|l]; [discriminate|]. cbn [Py.rbind].
    destruct (Py.mapR _ l) as [x|names]; [discriminate|]. cbn [Py.rbind].
    unfold Py.join. destruct (Py.mapR Py.as_str names) as [x|ss]; [discriminate|].
    cbn [Py.rbind Py.ok]. intros H. destruct (Hy _ H) as (year & -> & Hyear).
    do 2 eexists. split; [reflexivity|]. split; [discriminate | exact Hyear].
  - cbn [Py.iter Py.rbind Py.mapR Py.ok]. rewrite join_nil. cbn [Py.rbind].
    intros H. destruct (Hy _ H) as (year & -> & Hyear).
    do 2 eexists. split; [reflexivity|]. split; [reflexivity | exact Hyear].
Qed.

End Parsers.

Section PubMedFields.

Lemma lookup_set_text k k' e d :
  k <> k' -> Py.lookup k (PubMedAPI.set_text k' e d) = Py.lookup k d.
Proof.
  intros N. unfold PubMedAPI.set_text. destruct e; [|reflexivity].
  now apply lookup_dict_set_neq.
Qed.

Lemma lookup_set_authors k a d d' :
  PubMedAPI.set_authors a d = inr d' -> k <> "authors" ->
  Py.lookup k d' = Py.lookup k d.
Proof.
  unfold PubMedAPI.set_authors. destruct a as [a|].
  - destruct (Py.mapR _ _) as [x|names]; [discriminate|]. cbn [Py.rbind].
    destruct (Py.join ", " names) as [x|s]; [discriminate|]. cbn [Py.rbind Py.ok].
    intros H N. inversion H. now apply lookup_dict_set_neq.
  - intros H _. now inversion H.
Qed.

Lemma lookup_set_ids_title ids d :
  Py.lookup "title" (PubMedAPI.set_ids ids d) = Py.lookup "title" d.
Proof.
  unfold PubMedAPI.set_ids. destruct ids as [ids|]; [|reflexivity].
  generalize (ET.children ids) as l. intros l. revert d.
  induction l as [|x l IH]; intros d; simpl; [reflexivity|].
  rewrite IH. destruct (ET.attr "IdType" (ET.attrib x)) as [t|]; [|reflexivity].
  destruct (String.eqb t "doi"); [now apply lookup_dict_set_neq|].
  destruct (String.eqb t "isbn"); [now apply lookup_dict_set_neq | reflexivity].
Qed.

(** A PubMed record always has a title, ["null"] when the article has
    none, and has no [doi] and no [isbn] when the article lists no ids. *)
Lemma pubmed_record_fields art d :
  PubMedAPI.article_data art = inr (Some d) ->
  exists citation,
    ET.find ["MedlineCitation"] art = Some citation /\
    Py.lookup "title" d
    = Some (match ET.find ["Article"; "ArticleTitle"] citation with
            | Some t => ET.text_json (ET.text t)
            | None => JStr "null"
            end) /\
    (ET.find ["PubmedData"; "ArticleIdList"] art = None ->
     Py.lookup "doi" d = None /\ Py.lookup "isbn" d = None).
Proof.
  unfold PubMedAPI.article_data.
  destruct (ET.find ["MedlineCitation"] art) as [mc|]; [|discriminate].
  match goal with |- Py.rbind (PubMedAPI.set_authors ?a ?d0) _ = _ -> _ =>
    destruct (PubMedAPI.set_authors a d0) as [x|d'] eqn:Ha; [discriminate|]
  end.
  cbn [Py.rbind Py.ok]. intros H. inversion H; subst d'. clear H.
  exists mc. split; [reflexivity|]. split.
  - rewrite (lookup_set_authors _ _ _ _ Ha) by discriminate.
    rewrite !lookup_set_text by discriminate.
    rewrite lookup_set_ids_title, lookup_set_text by discriminate.
    reflexivity.
  - intros Hid. rewrite Hid in Ha. cbn [PubMedAPI.set_ids] in Ha.
    split; rewrite (lookup_set_authors _ _ _ _ Ha) by discriminate;
      rewrite !lookup_set_text by discriminate; reflexivity.
Qed.

End PubMedFields.

(** C7, as the code has it: the parsers of Scopus and of PubMed both keep a
    record only if one of its values is true, so both discard a record
    whose fields are all absent or false; the parsers of IEEE and of
    Springer return one record per article of the response, whatever its
    values, and so keep such records. *)
Theorem empty_record_policy :
  (forall es ds,
      Py.mapR ScopusAPI.article_data es = inr ds ->
      ScopusAPI.extract_entries es [] = inr (map JObj (filter Py.any_value ds))) /\
  (forall arts ds,
      Py.mapR PubMedAPI.article_data arts = inr ds ->
      PubMedAPI.extract_articles arts []
      = inr (map JObj (filter Py.any_value (flat_map some_list ds)))) /\
  (forall data rs,
      IEEEAPI.records_of_page data = inr rs ->
      exists articles,
        Py.rbind (Py.get data "articles" (JArr [])) Py.iter = inr articles /\
        Forall2 (fun a r => IEEEAPI.record_of a = inr r) articles rs) /\
  (forall data rs,
      SpringerAPI.extract_data data = inr rs ->
      exists records,
        Py.rbind (Py.get data "records" (JArr [])) Py.iter = inr records /\
        Forall2 (fun a r => SpringerAPI.record_of a = inr r) records rs).
Proof.
  split; [|split; [|split]].
  - intros es ds H. now rewrite (scopus_extract_entries es ds [] H).
  - intros arts ds H. now rewrite (pubmed_extract_articles arts ds [] H).
  - intros data rs. unfold IEEEAPI.records_of_page.
    destruct (Py.get data "articles" (JArr [])) as [x|a]; [discriminate|]. cbn [Py.rbind].
    destruct (Py.iter a) as [x|l]; [discriminate|]. cbn [Py.rbind].
    intros H. exists l. split; [reflexivity|]. now apply mapR_Forall2.
  - intros data rs. unfold SpringerAPI.extract_data.
    destruct (Py.get data "records" (JArr [])) as [x|a]; [discriminate|]. cbn [Py.rbind].
    destruct (Py.iter a) as [x|l]; [discriminate|]. cbn [Py.rbind].
    intros H. exists l. split; [reflexivity|]. now apply mapR_Forall2.
Qed.

(** C8, as the code has it.  IEEE and Springer records always carry the
    seven fields: title, abstract, isbn, issn and the year default to
    "null" and doi to "No DOI" when the response omits them, authors to the
    empty string; Springer calls the year field [publicationDate].  Scopus
    records carry the seven fields too, but only isbn and issn default to
    "null": an omitted title, abstract or doi is [None], omitted authors
    and year are the empty string.  A PubMed record always has a title,
    "null" when the article has none, and has no doi and no isbn at all
    when the article lists no ids. *)
Theorem record_defaults :
  (forall d r,
      IEEEAPI.record_of (JObj d) = inr r ->
      exists authors,
        r = JObj [ ("title", field_or (JStr "null") "title" d);
                   ("abstract", field_or (JStr "null") "abstract" d);
                   ("authors", JStr authors);
                   ("doi", field_or (JStr "No DOI") "doi" d);
                   ("isbn", field_or (JStr "null") "isbn" d);
                   ("issn", field_or (JStr "null") "issn" d);
                   ("publication year", field_or (JStr "null") "publication_year" d) ] /\
        (Py.lookup "authors" d = None -> authors = EmptyString)) /\
  (forall d r,
      SpringerAPI.record_of (JObj d) = inr r ->
      exists authors,
        r = JObj [ ("title", field_or (JStr "null") "title" d);
                   ("abstract", field_or (JStr "null") "abstract" d);
                   ("authors", JStr authors);
                   ("doi", field_or (JStr "No DOI") "doi" d);
                   ("isbn", field_or (JStr "null") "isbn" d);
                   ("issn", field_or (JStr "null") "issn" d);
                   ("publicationDate", field_or (JStr "null") "publicationDate" d) ] /\
        (Py.lookup "creators" d = None -> authors = EmptyString)) /\
  (forall d r,
      ScopusAPI.article_data (JObj d) = inr r ->
      exists authors year,
        r = [ ("title", field_or JNull "dc:title" d);
              ("abstract", field_or JNull "dc:description" d);
              ("authors", JStr authors);
              ("doi", field_or JNull "prism:doi" d);
              ("isbn", field_or (JStr "null") "prism:isbn" d);
              ("issn", field_or (JStr "null") "prism:issn" d);
              ("publication year", JStr year) ] /\
        (Py.lookup "author" d = None -> authors = EmptyString) /\
        (Py.lookup "prism:coverDate" d = None -> year = EmptyString)) /\
  (forall art d,
      PubMedAPI.article_data art = inr (Some d) ->
      exists citation,
        ET.find ["MedlineCitation"] art = Some citation /\
        Py.lookup "title" d
        = Some (match ET.find ["Article"; "ArticleTitle"] citation with
                | Some t => ET.text_json (ET.text t)
                | None => JStr "null"
                end) /\
        (ET.find ["PubmedData"; "ArticleIdList"] art = None ->
         Py.lookup "doi" d = None /\ Py.lookup "isbn" d = None)).
Proof.
  split; [|split; [|split]].
  - exact ieee_record_fields.
  - exact springer_record_fields.
  - exact scopus_record_fields.
  - exact pubmed_record_fields.
Qed.

(* ================================================================== *)
(** * The checkpoint store *)

Section RoundTrip.

Lemma save_checkpoint_run file d st :
  Py.lookup "request_counter" d = Some (JNum (request_counter (self st))) ->
  Py.lookup "request_log" d = Some (JStr (request_log (self st))) ->
  Checkpoint.save_checkpoint file (JObj d) st
  = (Ret tt, mkState (self st)
               (mkWorld (FS.write file (JObj d) (files (env st))) (issued (env st))
                        (trace (env st) ++ [SaveCheckpoint (JObj d)]))).
Proof.
  intros Hc Hl. unfold Checkpoint.save_checkpoint, bind, read, lift, emit, write_file.
  simpl. rewrite (dict_set_same _ _ _ Hc), (dict_set_same _ _ _ Hl). reflexivity.
Qed.

Lemma read_written file doc fs : FS.read file (FS.write file doc fs) = Some doc.
Proof. apply lookup_dict_set_eq. Qed.

(** C10.  A checkpoint document whose request fields agree with the
    instance is written as it is, and both variants of [load_checkpoint]
    return exactly that document; and when the document is the one
    [search] builds after a cell, [__init__] on the saved file sets every
    attribute (results, count, the three indices, request counter and
    log) to the value saved. *)
Theorem checkpoint_round_trip file d st :
  Py.lookup "request_counter" d = Some (JNum (request_counter (self st))) ->
  Py.lookup "request_log" d = Some (JStr (request_log (self st))) ->
  let st1 := snd (Checkpoint.save_checkpoint file (JObj d) st) in
  fst (Checkpoint.save_checkpoint file (JObj d) st) = Ret tt /\
  Checkpoint.load_checkpoint file st1 = (Ret (Some (JObj d)), st1) /\
  Checkpoint.load_checkpoint_restoring file st1 = (Ret (Some (JObj d)), st1) /\
  (forall b net cfg fuel i j k,
      JObj d = Checkpoint.checkpoint_data (index_key (connector_of b net cfg fuel))
                                          (self st) i j k ->
      file = checkpoint_file (connector_of b net cfg fuel) ->
      fst (init_of b st1) = Ret tt /\
      self (snd (init_of b st1))
      = mkInstance (all_results (self st)) (total_saved_records (self st)) i j k
                   (request_counter (self st)) (request_log (self st))).
Proof.
  intros Hc Hl st1. unfold st1. rewrite (save_checkpoint_run file d st Hc Hl).
  cbn [fst snd]. split; [reflexivity|]. split; [|split].
  - unfold Checkpoint.load_checkpoint, read_file. cbn [env files].
    now rewrite read_written.
  - unfold Checkpoint.load_checkpoint_restoring, bind, read_file. cbn [env files].
    rewrite read_written. cbn [Py.get lift Py.ok ret].
    rewrite Hc, Hl. destruct st as [[] w]. reflexivity.
  - intros b net cfg fuel i j k Hd ->.
    destruct b; cbn in Hd; inversion Hd; subst d; clear Hd;
      unfold init_of, IEEEAPI.init, SpringerAPI.init, ScopusAPI.init, PubMedAPI.init,
        Checkpoint.init, Checkpoint.load_checkpoint, Checkpoint.load_checkpoint_restoring,
        bind, read_file, assign;
      cbn [env files self connector_of checkpoint_file IEEEAPI.connector
           SpringerAPI.connector ScopusAPI.connector PubMedAPI.connector];
      rewrite read_written; cbn; auto.
Qed.

End RoundTrip.

(* ================================================================== *)
(** * The inner indices between two primary terms *)

(** With the statements of [api_1] and [api_4], the body of the outer loop
    ends with both inner indices at 0, whatever happened inside. *)
Lemma item_body_resets C terms kws i st st' :
  resets_indices C = true ->
  item_body C terms kws i st = (Ret tt, st') ->
  keyword_index (self st') = 0 /\ name_index (self st') = 0.
Proof.
  intros R. unfold item_body, bind, reset_keyword_index. rewrite R.
  destruct (lift (Py.index terms i) st) as [[item| |] st1]; try discriminate.
  match goal with
  | |- context [match ?m st1 with _ => _ end] =>
      destruct (m st1) as [[u| |] st2]; try discriminate
  end.
  simpl. intros H. inversion H. simpl. auto.
Qed.

(** Without them ([api_2], [api_3]), the body of the outer loop for a
    single-name term leaves the keyword index as it found it: the offset of
    a resumed run is carried over to the next term. *)
Section KeywordIndexKept.

Variable C : connector.
Hypothesis cell_frames : forall nested item name kw, frames (cell C nested item name kw).
Hypothesis no_reset : resets_indices C = false.

Lemma keeps_ret {A} (a : A) : keeps_keyword_index (ret a).
Proof. intros st. reflexivity. Qed.

Lemma keeps_lift {A} (r : result A) : keeps_keyword_index (lift r).
Proof. intros st. destruct r; reflexivity. Qed.

Lemma keeps_bind {A B} (m : M A) (f : A -> M B) :
  keeps_keyword_index m -> (forall a, keeps_keyword_index (f a)) ->
  keeps_keyword_index (bind m f).
Proof.
  intros Hm Hf st. specialize (Hm st). unfold bind.
  destruct (m st) as [[a| |] st']; simpl in *; auto.
  now rewrite Hf.
Qed.

Lemma keeps_for_each {A} (l : list A) (body : A -> M unit) :
  (forall x, keeps_keyword_index (body x)) -> keeps_keyword_index (for_each l body).
Proof.
  intros H. induction l as [|x l IH]; simpl; [apply keeps_ret|].
  apply keeps_bind; auto.
Qed.

Lemma keeps_frames {A} (m : M A) : frames m -> keeps_keyword_index m.
Proof. intros H st. apply (cs_keyword _ _ (H st)). Qed.

Lemma keeps_merge nested item name kw recs :
  keeps_keyword_index (if nested : bool then merge_nested item name kw recs
                       else merge_flat item kw recs).
Proof.
  destruct nested; unfold merge_nested, merge_flat;
    repeat (apply keeps_bind; [|intros; cbv beta]);
    first [apply keeps_lift | intros st; reflexivity].
Qed.

Lemma keeps_checkpoint i j k : keeps_keyword_index (checkpoint C i j k).
Proof. intros st. reflexivity. Qed.

Lemma keeps_keyword_loop nested kws item name i k :
  keeps_keyword_index (keyword_loop C nested kws item name i k).
Proof.
  unfold keyword_loop. apply keeps_bind; [intros st; reflexivity|]. intros j0.
  apply keeps_for_each. intros j. unfold keyword_body.
  apply keeps_bind; [apply keeps_lift|]. intros keyword.
  apply keeps_bind; [apply keeps_frames, cell_frames|]. intros [records|].
  - apply keeps_bind; [apply keeps_merge | intros; apply keeps_checkpoint].
  - apply keeps_ret.
Qed.

Lemma keeps_ensure_entry item entry : keeps_keyword_index (ensure_entry item entry).
Proof.
  intros st. unfold ensure_entry, bind, read, lift.
  destruct (Py.contains (all_results (self st)) item) as [e|[]]; simpl; auto.
  destruct (Py.setitem (all_results (self st)) item entry); reflexivity.
Qed.

Lemma keeps_lift_bind {A B} (r : result A) (k : A -> M B) :
  (forall a, r = inr a -> keeps_keyword_index (k a)) ->
  keeps_keyword_index (bind (lift r) k).
Proof.
  intros H st. destruct r as [e|a]; [reflexivity|]. apply (H a eq_refl).
Qed.

Lemma item_body_keeps_keyword_index terms kws i item st :
  Py.index terms i = inr item ->
  Py.len (PyStr.split " or " item) = 1 ->
  keyword_index (self (snd (item_body C terms kws i st))) = keyword_index (self st).
Proof.
  intros Hi Hlen. revert st. change (keeps_keyword_index (item_body C terms kws i)).
  unfold item_body. apply keeps_lift_bind. intros x Hx.
  rewrite Hi in Hx. inversion Hx; subst x. clear Hx.
  rewrite (proj2 (Z.eqb_eq _ _) Hlen).
  assert (Hr : keeps_keyword_index (reset_keyword_index C)).
  { unfold reset_keyword_index. rewrite no_reset. apply keeps_ret. }
  apply keeps_bind; [|intros; apply keeps_bind; [exact Hr | intros; intros st; reflexivity]].
  apply keeps_bind; [apply keeps_ensure_entry|]. intros.
  apply keeps_bind; [apply keeps_lift|]. intros.
  apply keeps_bind; [apply keeps_keyword_loop | intros; exact Hr].
Qed.

End KeywordIndexKept.

(** So it is for the Springer and Scopus connectors, whatever the backend
    answers: after a single-name term the next term starts at the keyword
    index the run was resumed with. *)
Lemma springer_scopus_keep_keyword_index b net cfg fuel terms kws i item st :
  b = Springer \/ b = Scopus ->
  Py.index terms i = inr item ->
  Py.len (PyStr.split " or " item) = 1 ->
  keyword_index (self (snd (item_body (connector_of b net cfg fuel) terms kws i st)))
  = keyword_index (self st).
Proof.
  intros Hb. apply item_body_keeps_keyword_index.
  - apply connector_cell_frames.
  - destruct Hb as [->| ->]; reflexivity.
Qed.

(* ================================================================== *)
(** * Whole runs: requests, cells, pagination, resumption *)

Section Chunks.

Context {A : Type}.

Lemma chunks_from_concat n : forall l : list A,
  (List.length l <= n)%nat -> List.concat (PubMedAPI.chunks_from n l) = l.
Proof.
  induction n as [|n IH]; intros l H.
  - destruct l; [reflexivity | simpl in H; lia].
  - destruct l as [|a l]; [reflexivity|].
    cbn [PubMedAPI.chunks_from List.concat].
    rewrite IH.
    + apply firstn_skipn.
    + rewrite length_skipn. simpl in *. lia.
Qed.

Lemma chunks_from_sizes n : forall l : list A,
  Forall (fun c => (1 <= List.length c <= 100)%nat) (PubMedAPI.chunks_from n l).
Proof.
  induction n as [|n IH]; intros l; [constructor|].
  destruct l as [|a l]; [constructor|].
  cbn [PubMedAPI.chunks_from]. constructor; [|apply IH].
  rewrite length_firstn. simpl List.length. lia.
Qed.

Lemma chunks_from_count n : forall l : list A,
  (List.length l <= n)%nat ->
  List.length (PubMedAPI.chunks_from n l) = ((List.length l + 99) / 100)%nat.
Proof.
  induction n as [|n IH]; intros l H.
  - destruct l; [reflexivity | simpl in H; lia].
  - destruct l as [|a l]; [reflexivity|].
    cbn [PubMedAPI.chunks_from List.length].
    rewrite IH by (rewrite length_skipn; simpl in *; lia).
    rewrite length_skipn. set (m := List.length (a :: l)).
    assert (Hm : (1 <= m)%nat) by (unfold m; simpl; lia).
    change (S (List.length l)) with m.
    destruct (Nat.le_gt_cases m 100) as [Hs|Hs].
    + replace (m - 100)%nat with 0%nat by lia.
      change ((0 + 99) / 100)%nat with 0%nat.
      apply Nat.div_unique with (r := (m - 1)%nat); lia.
    + replace (m + 99)%nat with ((m - 100 + 99) + 1 * 100)%nat by lia.
      rewrite Nat.div_add by lia. lia.
Qed.

End Chunks.

(** X18.  The id list of a PubMed cell is cut into consecutive chunks: put
    end to end the chunks give the list back, no chunk is empty, none has
    more than 100 ids, and there are [ceil(n / 100)] of them. *)
Theorem pubmed_chunks_partition (pmids : list (option string)) :
  List.concat (PubMedAPI.chunks pmids) = pmids /\
  Forall (fun c => (1 <= List.length c <= 100)%nat) (PubMedAPI.chunks pmids) /\
  List.length (PubMedAPI.chunks pmids) = ((List.length pmids + 99) / 100)%nat.
Proof.
  unfold PubMedAPI.chunks. split; [|split].
  - now apply chunks_from_concat.
  - apply chunks_from_sizes.
  - now apply chunks_from_count.
Qed.

Section Steady.

Variable changed : list string.

Lemma aside_refl st : aside changed st st.
Proof. split; auto. Qed.

Lemma aside_trans st1 st2 st3 :
  aside changed st1 st2 -> aside changed st2 st3 -> aside changed st1 st3.
Proof.
  intros [a1 f1] [a2 f2]. split; [congruence|].
  intros f Hf. now rewrite f2, f1.
Qed.

Context {A B : Type}.

Lemma steady_ret (a : A) : steady changed (ret a).
Proof. intros st. apply aside_refl. Qed.

Lemma steady_raise (e : exn) : steady changed (@raise A e).
Proof. intros st. apply aside_refl. Qed.

Lemma steady_lift (r : result A) : steady changed (lift r).
Proof. destruct r; [apply steady_raise | apply steady_ret]. Qed.

Lemma steady_read (f : instance -> A) : steady changed (read f).
Proof. intros st. apply aside_refl. Qed.

Lemma steady_bind (m : M A) (f : A -> M B) :
  steady changed m -> (forall a, steady changed (f a)) -> steady changed (bind m f).
Proof.
  intros Hm Hf st. specialize (Hm st). unfold bind.
  destruct (m st) as [[a| |] st']; simpl in *; auto.
  eapply aside_trans; [exact Hm | apply Hf].
Qed.

Lemma steady_for_each (l : list A) (body : A -> M unit) :
  (forall x, steady changed (body x)) -> steady changed (for_each l body).
Proof.
  intros H. induction l as [|x l IH]; simpl.
  - intros st. apply aside_refl.
  - intros st. specialize (H x st). unfold bind.
    destruct (body x st) as [[[]| |] st']; simpl in *; auto.
    eapply aside_trans; [exact H | apply IH].
Qed.

End Steady.

Section SteadyPrimitives.

Variable changed : list string.

Lemma steady_assign (f : instance -> instance) :
  (forall s, request_counter (f s) = request_counter s /\
             request_log (f s) = request_log s) ->
  steady changed (assign f).
Proof.
  intros H st. destruct (H (self st)) as [Hc Hl].
  split; [|reflexivity]. unfold Account.of_state. simpl. now rewrite Hc, Hl.
Qed.

Lemma steady_emit e : Account.on_wire e = false -> steady changed (emit e).
Proof.
  intros H st. split; [|reflexivity].
  unfold Account.of_state. simpl. rewrite filter_app. simpl. rewrite H.
  now rewrite app_nil_r.
Qed.

Lemma steady_log m : steady changed (log_callback m).
Proof. now apply steady_emit. Qed.

Lemma steady_progress n : steady changed (progress_callback n).
Proof. now apply steady_emit. Qed.

Lemma steady_path_exists f : steady changed (path_exists f).
Proof. intros st. apply aside_refl. Qed.

Lemma read_remove_other f g fs :
  g <> f -> FS.read g (FS.remove f fs) = FS.read g fs.
Proof.
  intros N. unfold FS.read, FS.remove.
  induction fs as [|[k v] fs IH]; simpl; [reflexivity|].
  destruct (String.eqb_spec k f) as [->|Nk]; simpl.
  - destruct (String.eqb_spec g f); [contradiction | exact IH].
  - destruct (String.eqb_spec g k); [reflexivity | exact IH].
Qed.

Lemma steady_write_file f doc : In f changed -> steady changed (write_file f doc).
Proof.
  intros H st. split; [reflexivity|]. intros g Hg. simpl.
  unfold FS.read, FS.write. apply lookup_dict_set_neq. intros ->. contradiction.
Qed.

Lemma steady_remove_file f : In f changed -> steady changed (remove_file f).
Proof.
  intros H st. split; [reflexivity|]. intros g Hg. simpl.
  apply read_remove_other. intros ->. contradiction.
Qed.

End SteadyPrimitives.

Create HintDb steady.
#[local] Hint Resolve steady_ret steady_raise steady_lift steady_read steady_log
  steady_progress steady_path_exists : steady.

(** Splits a computation along its binds and branches. *)
Ltac solve_steady :=
  repeat first
    [ progress auto with steady
    | apply steady_bind; [| intros ]
    | apply steady_assign; intros; split; reflexivity
    | apply steady_emit; reflexivity
    | match goal with
      | |- steady _ (if ?c then _ else _) => destruct c
      | |- steady _ (match ?x with _ => _ end) => destruct x
      end ].

Section SteadyOrchestrator.

Variable C : connector.
Variable changed : list string.
Hypothesis checkpoint_changed : In (checkpoint_file C) changed.

Lemma steady_on_results f : steady changed (on_results f).
Proof. unfold on_results. solve_steady. Qed.

Lemma steady_merge_flat item kw recs : steady changed (merge_flat item kw recs).
Proof. unfold merge_flat, on_results, add_total. solve_steady. Qed.

Lemma steady_merge_nested item name kw recs :
  steady changed (merge_nested item name kw recs).
Proof. unfold merge_nested, on_results, add_total. solve_steady. Qed.

Lemma steady_checkpoint i j k : steady changed (checkpoint C i j k).
Proof.
  unfold checkpoint, Checkpoint.save_checkpoint. solve_steady.
  now apply steady_write_file.
Qed.

Lemma steady_ensure_entry item entry : steady changed (ensure_entry item entry).
Proof. unfold ensure_entry. solve_steady. Qed.

Lemma steady_reset_keyword_index : steady changed (reset_keyword_index C).
Proof. unfold reset_keyword_index. solve_steady. Qed.

Lemma steady_reset_name_index : steady changed (reset_name_index C).
Proof. unfold reset_name_index. solve_steady. Qed.

Lemma steady_finish : In (results_file C) changed -> steady changed (finish C).
Proof.
  intros H. unfold finish. solve_steady.
  - now apply steady_write_file.
  - now apply steady_remove_file.
Qed.

End SteadyOrchestrator.

Section Through.

Variables E I : state -> Prop.
Variable changed : list string.
Hypothesis I_aside : forall st st', aside changed st st' -> I st -> I st'.
Hypothesis I_E : forall st, I st -> E st.

Lemma through_steady {A} (m : M A) : steady changed m -> through E I m.
Proof.
  intros H st HI. specialize (H st).
  destruct (m st) as [[a| |] st']; simpl in H; eauto.
Qed.

Lemma through_bind {A B} (m : M A) (f : A -> M B) :
  through E I m -> (forall a, through E I (f a)) -> through E I (bind m f).
Proof. intros Hm Hf. eapply hoare_bind; [exact Hm | exact Hf]. Qed.

Lemma through_for_each {A} (l : list A) (body : A -> M unit) :
  (forall x, through E I (body x)) -> through E I (for_each l body).
Proof. intros H. apply hoare_for_each. intros x _. apply H. Qed.

Variable C : connector.
Hypothesis checkpoint_changed : In (checkpoint_file C) changed.
Hypothesis cell_through :
  forall nested item name kw, through E I (cell C nested item name kw).

Lemma keyword_loop_through nested kws item name i k :
  through E I (keyword_loop C nested kws item name i k).
Proof.
  unfold keyword_loop.
  apply through_bind; [apply through_steady, steady_read|]. intros j0.
  apply through_for_each. intros j. unfold keyword_body.
  apply through_bind; [apply through_steady, steady_lift|]. intros keyword.
  apply through_bind; [apply cell_through|]. intros [records|].
  - apply through_steady. apply steady_bind.
    + destruct nested; [apply steady_merge_nested | apply steady_merge_flat].
    + intros u. now apply steady_checkpoint.
  - apply through_steady, steady_ret.
Qed.

Lemma item_body_through terms kws i : through E I (item_body C terms kws i).
Proof.
  unfold item_body.
  apply through_bind; [apply through_steady, steady_lift|]. intros item.
  apply through_bind.
  - destruct (_ =? 1).
    + apply through_bind; [apply through_steady, steady_ensure_entry|]. intros u.
      apply through_bind; [apply through_steady, steady_lift|]. intros name.
      apply through_bind; [apply keyword_loop_through|]. intros u'.
      apply through_steady, steady_reset_keyword_index.
    + apply through_bind; [apply through_steady, steady_ensure_entry|]. intros u.
      apply through_bind; [apply through_steady, steady_read|]. intros k0.
      apply through_bind.
      * apply through_for_each. intros k. unfold name_body.
        apply through_bind; [apply through_steady, steady_lift|]. intros name.
        apply through_bind; [apply keyword_loop_through|]. intros u'.
        apply through_steady. solve_steady.
      * intros u'. apply through_steady, steady_reset_name_index.
  - intros u. apply through_steady. apply steady_bind.
    + apply steady_reset_keyword_index.
    + intros u'. solve_steady.
Qed.

(** The outer loop of [search]. *)
Lemma item_loop_through terms kws l :
  through E I (for_each l (item_body C terms kws)).
Proof. apply through_for_each. intros i. apply item_body_through. Qed.

(** The whole of [search], when [I] does not depend on the results file. *)
Lemma search_through terms kws :
  In (results_file C) changed -> through E I (search C terms kws).
Proof.
  intros H. unfold search.
  apply through_bind; [apply through_steady, steady_read|]. intros i0.
  apply through_bind; [apply item_loop_through|]. intros u.
  apply through_steady. now apply steady_finish.
Qed.

End Through.

Section Billed.

Variable b : backend.
Variable cfg : config.
Variable net : network.
Variable st0 : state.

Lemma calls_snoc urls url a :
  Account.calls b cfg net (urls ++ [url]) a
  = Account.call b cfg net (Account.calls b cfg net urls a) url.
Proof. unfold Account.calls. now rewrite fold_left_app. Qed.

Lemma calls_cons url urls a :
  Account.calls b cfg net (url :: urls) a
  = Account.calls b cfg net urls (Account.call b cfg net a url).
Proof. reflexivity. Qed.

Lemma clock_calls urls : forall a,
  Account.clock (Account.calls b cfg net urls a)
  = (Account.clock a + List.length urls)%nat.
Proof.
  induction urls as [|u urls IH]; intros a; [simpl; lia|].
  rewrite calls_cons, IH. simpl. lia.
Qed.

Lemma replies_snoc urls url : forall n0,
  Account.replies net n0 (urls ++ [url])
  = (Account.replies net n0 urls ++ [net (n0 + List.length urls)%nat url])%list.
Proof.
  induction urls as [|u urls IH]; intros n0; simpl.
  - now rewrite Nat.add_0_r.
  - rewrite IH. replace (S n0 + List.length urls)%nat with (n0 + S (List.length urls))%nat by lia.
    reflexivity.
Qed.

Lemma forallb_removelast {A} (p : A -> bool) l :
  forallb p l = true -> forallb p (removelast l) = true.
Proof.
  induction l as [|x l IH]; [auto|]. simpl. intros H.
  apply andb_prop in H as [Hx Hl]. destruct l; [reflexivity|].
  simpl in *. now rewrite Hx, IH.
Qed.

Lemma billed_start : billed b cfg net st0 true st0.
Proof. exists []. split; reflexivity. Qed.

Lemma billed_aside changed w st st' :
  aside changed st st' -> billed b cfg net st0 w st -> billed b cfg net st0 w st'.
Proof. intros [Ha _] (urls & H & K). exists urls. split; [congruence | exact K]. Qed.

Lemma billed_weaken st : billed b cfg net st0 true st -> billed b cfg net st0 false st.
Proof.
  intros (urls & H & K). exists urls. split; [exact H|].
  now apply forallb_removelast.
Qed.

(** After one more call. *)
Lemma billed_call st st' url :
  billed b cfg net st0 true st ->
  Account.of_state st' = Account.call b cfg net (Account.of_state st) url ->
  billed b cfg net st0 false st' /\
  (Account.returned b (net (issued (env st)) url) = true -> billed b cfg net st0 true st').
Proof.
  intros (urls & H & K) Hc.
  assert (Hs : Account.of_state st'
               = Account.calls b cfg net (urls ++ [url]) (Account.of_state st0))
    by (rewrite calls_snoc, <- H; exact Hc).
  assert (Hn : issued (env st) = (issued (env st0) + List.length urls)%nat).
  { change (Account.clock (Account.of_state st)
            = (Account.clock (Account.of_state st0) + List.length urls)%nat).
    rewrite H. apply clock_calls. }
  split.
  - exists (urls ++ [url])%list. split; [exact Hs|].
    rewrite replies_snoc, removelast_last. exact K.
  - intros Hr. exists (urls ++ [url])%list. split; [exact Hs|].
    rewrite replies_snoc, forallb_app, K, <- Hn. simpl. now rewrite Hr.
Qed.

(** A call followed by the rest of the computation. *)
Lemma through_call {A B} (m : M A) (k : A -> M B) url :
  (forall st,
      Account.of_state (snd (m st)) = Account.call b cfg net (Account.of_state st) url /\
      ((exists a, fst (m st) = Ret a) ->
       Account.returned b (net (issued (env st)) url) = true)) ->
  (forall a, through (billed b cfg net st0 false) (billed b cfg net st0 true) (k a)) ->
  through (billed b cfg net st0 false) (billed b cfg net st0 true) (bind m k).
Proof.
  intros Hm Hk st HI. destruct (Hm st) as (Hc & Hr).
  destruct (billed_call st (snd (m st)) url HI Hc) as [HE HI'].
  unfold bind. destruct (m st) as [[a| |] st']; simpl in *; auto.
  apply Hk. apply HI'. apply Hr; eauto.
Qed.

End Billed.

Section CallAccounts.

Variable net : network.
Variable cfg : config.

Ltac call_account :=
  simpl; rewrite ?filter_app; simpl; rewrite <- ?app_assoc; simpl;
  (split; [reflexivity | first [ reflexivity | intros [a Ha]; discriminate ] ]).

Lemma ieee_call_account q s st :
  Account.of_state (snd (IEEEAPI.call_api net (api_key cfg) q s st))
  = Account.call IEEE cfg net (Account.of_state st) (IEEEAPI.url_of (api_key cfg) q s) /\
  ((exists a, fst (IEEEAPI.call_api net (api_key cfg) q s st) = Ret a) ->
   Account.returned IEEE (net (issued (env st)) (IEEEAPI.url_of (api_key cfg) q s)) = true).
Proof.
  unfold Account.call. cbn [metered andb Account.paced].
  unfold IEEEAPI.call_api, IEEEAPI.urlopen, bind, read, assign, send, sleep, emit,
    Account.of_state.
  cbn [self env issued add_event Account.clock].
  destruct (net _ _) as [|status [|j|x]]; cbn [Account.counted Account.returned];
    try destruct (_ && _); call_account.
Qed.

Lemma springer_call_account url st :
  Account.of_state (snd ((sleep 1 ;; SpringerAPI.get_data_from_url net cfg url) st))
  = Account.call Springer cfg net (Account.of_state st) url /\
  ((exists a, fst ((sleep 1 ;; SpringerAPI.get_data_from_url net cfg url) st) = Ret a) ->
   Account.returned Springer (net (issued (env st)) url) = true).
Proof.
  unfold Account.call. cbn [metered andb Account.paced].
  unfold SpringerAPI.get_data_from_url, bind, read, assign, send, sleep, emit,
    log_callback, Account.of_state.
  cbn [self env request_counter Account.counter fst snd issued add_event Account.clock].
  destruct (max_requests_per_day cfg <=? request_counter (self st)); simpl;
    destruct (net _ _) as [|status [|j|x]]; cbn [Account.counted Account.returned];
    call_account.
Qed.

Lemma scopus_call_account url st :
  Account.of_state (snd ((sleep 1 ;; ScopusAPI.get_data_from_url net cfg url) st))
  = Account.call Scopus cfg net (Account.of_state st) url /\
  ((exists a, fst ((sleep 1 ;; ScopusAPI.get_data_from_url net cfg url) st) = Ret a) ->
   Account.returned Scopus (net (issued (env st)) url) = true).
Proof.
  unfold Account.call. cbn [metered andb Account.paced].
  unfold ScopusAPI.get_data_from_url, bind, read, assign, send, sleep, emit,
    log_callback, Account.of_state.
  cbn [self env request_counter Account.counter fst snd issued add_event Account.clock].
  destruct (max_requests_per_day cfg <=? request_counter (self st)); simpl;
    destruct (net _ _) as [|status [|j|x]]; cbn [Account.counted Account.returned];
    try destruct (status =? 200); call_account.
Qed.

Lemma pubmed_call_account url st :
  Account.of_state (snd (PubMedAPI.get_data_from_url net cfg url st))
  = Account.call PubMed cfg net (Account.of_state st) url /\
  ((exists a, fst (PubMedAPI.get_data_from_url net cfg url st) = Ret a) ->
   Account.returned PubMed (net (issued (env st)) url) = true).
Proof.
  unfold Account.call. cbn [metered andb Account.paced].
  unfold PubMedAPI.get_data_from_url, bind, read, assign, send, sleep, emit,
    log_callback, Account.of_state.
  cbn [self env request_counter Account.counter fst snd issued add_event Account.clock].
  destruct (max_requests_per_day cfg <=? request_counter (self st)); simpl;
    destruct (net _ _) as [|status content]; cbn [Account.counted Account.returned];
    call_account.
Qed.

End CallAccounts.

Section BilledSteady.

Variable net : network.
Variable cfg : config.
Variable st0 : state.

Lemma through_ext {A} (E I : state -> Prop) (m m' : M A) :
  (forall st, m st = m' st) -> through E I m' -> through E I m.
Proof. intros H Hm st HI. rewrite H. now apply Hm. Qed.

Lemma bind_assoc {A B D} (m : M A) (f : A -> M B) (g : B -> M D) st :
  bind m (fun a => bind (f a) g) st = bind (bind m f) g st.
Proof. unfold bind. destruct (m st) as [[a| |] st']; reflexivity. Qed.

Lemma billed_steady b {A} (m : M A) :
  steady [] m -> through (billed b cfg net st0 false) (billed b cfg net st0 true) m.
Proof.
  apply through_steady.
  - intros st st'. apply billed_aside.
  - apply billed_weaken.
Qed.

End BilledSteady.

(** Splits a computation into its steady steps. *)
Ltac solve_billed :=
  repeat first
    [ assumption
    | apply billed_steady; solve [solve_steady]
    | apply through_bind; [| intros ]
    | match goal with
      | |- through _ _ (if ?c then _ else _) => destruct c
      | |- through _ _ (match ?x with _ => _ end) => destruct x
      end ].

Section CellsBilled.

Variable net : network.
Variable cfg : config.
Variable st0 : state.

Lemma ieee_cell_billed fuel nested item name kw :
  through (billed IEEE cfg net st0 false) (billed IEEE cfg net st0 true)
          (IEEEAPI.cell net (api_key cfg) fuel nested item name kw).
Proof.
  assert (L : forall fuel q s t rs,
             through (billed IEEE cfg net st0 false) (billed IEEE cfg net st0 true)
                     (IEEEAPI.page_loop net (api_key cfg) fuel q s t rs)).
  { clear. induction fuel as [|fuel IH]; intros; cbn [IEEEAPI.page_loop].
    - apply billed_steady. intros st. apply aside_refl.
    - apply through_call with (url := IEEEAPI.url_of (api_key cfg) q s);
        [apply ieee_call_account|]. intros data.
      pose proof (fun t rs => IH q (s + 25) t rs) as IH'. solve_billed. apply IH'. }
  unfold IEEEAPI.cell. solve_billed. apply L.
Qed.

Lemma springer_cell_billed fuel nested item name kw :
  through (billed Springer cfg net st0 false) (billed Springer cfg net st0 true)
          (SpringerAPI.cell net cfg fuel nested item name kw).
Proof.
  assert (L : forall fuel url t rs,
             through (billed Springer cfg net st0 false) (billed Springer cfg net st0 true)
                     (SpringerAPI.page_loop net cfg fuel url t rs)).
  { clear. induction fuel as [|fuel IH]; intros; cbn [SpringerAPI.page_loop].
    - apply billed_steady. intros st. apply aside_refl.
    - eapply through_ext; [intros st; apply bind_assoc|].
      apply through_call with (url := url); [apply springer_call_account|].
      intros data. solve_billed. apply IH. }
  unfold SpringerAPI.cell. solve_billed. apply L.
Qed.

Lemma scopus_cell_billed fuel nested item name kw :
  through (billed Scopus cfg net st0 false) (billed Scopus cfg net st0 true)
          (ScopusAPI.cell net cfg fuel nested item name kw).
Proof.
  assert (L : forall fuel url t rs,
             through (billed Scopus cfg net st0 false) (billed Scopus cfg net st0 true)
                     (ScopusAPI.page_loop net cfg fuel url t rs)).
  { clear. induction fuel as [|fuel IH]; intros; cbn [ScopusAPI.page_loop].
    - apply billed_steady. intros st. apply aside_refl.
    - eapply through_ext; [intros st; apply bind_assoc|].
      apply through_call with (url := url); [apply scopus_call_account|].
      intros data. solve_billed. apply IH. }
  unfold ScopusAPI.cell. solve_billed. apply L.
Qed.

Lemma pubmed_cell_billed fuel nested item name kw :
  through (billed PubMed cfg net st0 false) (billed PubMed cfg net st0 true)
          (PubMedAPI.cell net cfg fuel nested item name kw).
Proof.
  assert (L : forall fuel q s ids,
             through (billed PubMed cfg net st0 false) (billed PubMed cfg net st0 true)
                     (PubMedAPI.id_loop net cfg fuel q s ids)).
  { clear. induction fuel as [|fuel IH]; intros; cbn [PubMedAPI.id_loop].
    - apply billed_steady. intros st. apply aside_refl.
    - eapply through_call; [apply pubmed_call_account|].
      intros data. solve_billed. apply IH. }
  assert (F : forall cs rs,
             through (billed PubMed cfg net st0 false) (billed PubMed cfg net st0 true)
                     (PubMedAPI.fetch_chunks net cfg cs rs)).
  { clear. induction cs as [|c cs IH]; intros; cbn [PubMedAPI.fetch_chunks].
    - apply billed_steady, steady_ret.
    - apply through_bind; [apply billed_steady, steady_lift|]. intros ids.
      eapply through_call; [apply pubmed_call_account|].
      intros data. solve_billed. apply IH. }
  unfold PubMedAPI.cell, PubMedAPI.get_pmids_for_search_term.
  apply through_bind.
  - destruct (PyStr.split _ _) as [|t1 [|t2 [|t3 ts]]];
      first [apply billed_steady, steady_raise | apply L].
  - intros [|id ids]; [apply billed_steady, steady_ret|].
    apply through_bind; [apply F|]. intros. apply billed_steady, steady_ret.
Qed.

Lemma connector_cell_billed b fuel nested item name kw :
  through (billed b cfg net st0 false) (billed b cfg net st0 true)
          (cell (connector_of b net cfg fuel) nested item name kw).
Proof.
  destruct b; simpl.
  - apply ieee_cell_billed.
  - apply springer_cell_billed.
  - apply scopus_cell_billed.
  - apply pubmed_cell_billed.
Qed.

(** The account of a whole run. *)
Lemma search_billed b fuel terms kws :
  through (billed b cfg net st0 false) (billed b cfg net st0 true)
          (search_of b net cfg fuel terms kws).
Proof.
  unfold search_of.
  apply search_through
    with (changed := [checkpoint_file (connector_of b net cfg fuel);
                      results_file (connector_of b net cfg fuel)]).
  - intros st st'. apply billed_aside.
  - apply billed_weaken.
  - now left.
  - apply connector_cell_billed.
  - right. now left.
Qed.

End CellsBilled.

Section AccountFacts.

Variable b : backend.
Variable cfg : config.
Variable net : network.

Lemma append_empty s : s ++ EmptyString = s.
Proof. induction s; simpl; congruence. Qed.

Lemma append_assoc (s1 s2 s3 : string) : (s1 ++ s2) ++ s3 = s1 ++ (s2 ++ s3).
Proof. induction s1; simpl; congruence. Qed.

Lemma requests_on_wire tr :
  Trace.requests (filter Account.on_wire tr) = Trace.requests tr.
Proof.
  induction tr as [|e tr IH]; [reflexivity|].
  destruct e; simpl; auto. now rewrite IH.
Qed.

Lemma requests_wire_of_call l :
  Trace.requests (flat_map (wire_of_call b) l) = map snd l.
Proof.
  induction l as [|[h u] l IH]; [reflexivity|].
  simpl. rewrite requests_app, IH. unfold wire_of_call.
  destruct (Account.paced b), h; reflexivity.
Qed.

(** The log and the wire after the requests [urls]. *)
Lemma calls_log_wire urls : forall a,
  exists l : list (Z * bool * string),
    map snd l = urls /\
    Account.log (Account.calls b cfg net urls a)
    = Account.log a ++ log_lines b (map (fun x => (fst (fst x), snd x)) l) /\
    Account.wire (Account.calls b cfg net urls a)
    = (Account.wire a ++ flat_map (wire_of_call b)
                                  (map (fun x => (snd (fst x), snd x)) l))%list /\
    (metered b = false -> forallb (fun x => negb (snd (fst x))) l = true).
Proof.
  induction urls as [|url urls IH]; intros a.
  - exists []. simpl. now rewrite append_empty, app_nil_r.
  - destruct (IH (Account.call b cfg net a url)) as (l & Hu & Hl & Hw & Hm).
    set (hit := metered b && (max_requests_per_day cfg <=? Account.counter a)) in *.
    exists (((if hit then 0 else Account.counter a) + 1, hit, url) :: l).
    rewrite calls_cons, Hl, Hw.
    unfold Account.call. fold hit. cbn [fst snd map Account.log Account.wire
                                       log_lines fold_right flat_map].
    rewrite append_assoc, <- !app_assoc, Hu.
    split; [reflexivity|]. split; [reflexivity|]. split.
    + unfold wire_of_call at 2. cbn [fst snd]. now rewrite <- !app_assoc.
    + intros M. cbn [forallb fst snd]. unfold hit at 1. rewrite M. simpl. auto.
Qed.

(** The counter of a metered backend stays within the budget. *)
Lemma calls_within urls : forall a,
  metered b = true ->
  1 <= max_requests_per_day cfg ->
  0 <= Account.counter a <= max_requests_per_day cfg ->
  0 <= Account.counter (Account.calls b cfg net urls a) <= max_requests_per_day cfg.
Proof.
  induction urls as [|url urls IH]; intros a M H1 Ha; [exact Ha|].
  rewrite calls_cons. apply IH; [exact M | exact H1|].
  unfold Account.call. cbn [Account.counter]. rewrite M. cbn [andb].
  destruct (Z.leb_spec (max_requests_per_day cfg) (Account.counter a));
    destruct (Account.counted b _); lia.
Qed.

End AccountFacts.

Section IEEEAccount.

Variable cfg : config.
Variable net : network.

Lemma numbers_from_S c n : numbers_from c (S n) = (c + 1) :: numbers_from (c + 1) n.
Proof.
  unfold numbers_from. cbn [seq map]. rewrite <- seq_shift, map_map.
  f_equal; [lia|]. apply map_ext. intros i. lia.
Qed.

Lemma numbers_from_snoc c n :
  numbers_from c (n + 1) = (numbers_from c n ++ [c + 1 + Z.of_nat n])%list.
Proof. unfold numbers_from. now rewrite seq_app, map_app. Qed.

Lemma length_numbers_from c n : List.length (numbers_from c n) = n.
Proof. unfold numbers_from. now rewrite length_map, length_seq. Qed.

Lemma combine_snoc {A B} (l : list A) (m : list B) a x :
  List.length l = List.length m ->
  combine (l ++ [a]) (m ++ [x]) = (combine l m ++ [(a, x)])%list.
Proof.
  revert m. induction l as [|y l IH]; intros [|z m] H; try discriminate; [reflexivity|].
  simpl. f_equal. apply IH. now inversion H.
Qed.

Lemma log_lines_app b l1 l2 : log_lines b (l1 ++ l2) = log_lines b l1 ++ log_lines b l2.
Proof.
  induction l1 as [|x l1 IH]; [reflexivity|].
  simpl. now rewrite IH, append_assoc.
Qed.

Lemma ieee_returned_counted r :
  Account.returned IEEE r = true -> Account.counted IEEE r = true.
Proof. destruct r as [|status [|j|x]]; simpl; auto; discriminate. Qed.

Lemma ieee_calls_counted urls : forall a,
  forallb (Account.returned IEEE) (Account.replies net (Account.clock a) urls) = true ->
  Account.counter (Account.calls IEEE cfg net urls a) = Account.counter a + Py.len urls /\
  Account.log (Account.calls IEEE cfg net urls a)
  = Account.log a
    ++ log_lines IEEE (combine (numbers_from (Account.counter a) (List.length urls)) urls).
Proof.
  induction urls as [|url urls IH]; intros a H.
  - simpl. rewrite append_empty. unfold Py.len. simpl. split; [lia | reflexivity].
  - cbn [Account.replies forallb] in H. apply andb_prop in H as [Hr H].
    rewrite calls_cons.
    destruct (IH (Account.call IEEE cfg net a url) H) as [Hc Hl].
    rewrite Hc, Hl. unfold Account.call.
    cbn [metered andb Account.counter Account.log].
    rewrite (ieee_returned_counted _ Hr).
    split.
    + unfold Py.len. cbn [List.length]. lia.
    + cbn [List.length]. rewrite numbers_from_S. cbn [combine fst log_lines fold_right snd].
      now rewrite append_assoc.
Qed.

(** Every request but perhaps the last got a response that lets the
    connector go on. *)
Lemma ieee_calls urls a :
  forallb (Account.returned IEEE)
          (removelast (Account.replies net (Account.clock a) urls)) = true ->
  Account.log (Account.calls IEEE cfg net urls a)
  = Account.log a
    ++ log_lines IEEE (combine (numbers_from (Account.counter a) (List.length urls)) urls) /\
  Account.counter a + Py.len urls - 1 <= Account.counter (Account.calls IEEE cfg net urls a)
  <= Account.counter a + Py.len urls /\
  (forallb (Account.returned IEEE) (Account.replies net (Account.clock a) urls) = true ->
   Account.counter (Account.calls IEEE cfg net urls a) = Account.counter a + Py.len urls).
Proof.
  induction urls as [|url urls' _] using rev_ind; intros H.
  - destruct (ieee_calls_counted [] a eq_refl) as [Hc Hl].
    rewrite Hc, Hl. unfold Py.len. simpl. repeat split; auto; lia.
  - rewrite replies_snoc, removelast_last in H.
    destruct (ieee_calls_counted urls' a H) as [Hc Hl].
    rewrite calls_snoc. unfold Account.call.
    cbn [metered andb Account.counter Account.log].
    rewrite Hc, Hl, length_app. cbn [List.length].
    rewrite numbers_from_snoc, combine_snoc by (now rewrite length_numbers_from).
    rewrite log_lines_app. cbn [log_lines fold_right fst snd].
    rewrite append_assoc, append_empty.
    unfold Py.len. rewrite length_app. cbn [List.length].
    replace (Account.counter a + 1 + Z.of_nat (List.length urls'))
      with (Account.counter a + Z.of_nat (List.length urls') + 1) by lia.
    split; [reflexivity|]. split.
    + destruct (Account.counted IEEE _); lia.
    + rewrite replies_snoc, forallb_app. cbn [forallb]. rewrite H, andb_true_r. cbn [andb].
      rewrite clock_calls. intros Hr. rewrite (ieee_returned_counted _ Hr). lia.
Qed.

End IEEEAccount.

Section AccountTheorems.

Variable net : network.
Variable cfg : config.
Variable fuel : nat.

(** The account of a run: the requests it sent; each but perhaps the last
    got a response after which the connector goes on, and the last one too
    when the run came to its end. *)
Lemma search_account b terms kws st :
  let r := search_of b net cfg fuel terms kws st in
  exists urls,
    Account.of_state (snd r) = Account.calls b cfg net urls (Account.of_state st) /\
    forallb (Account.returned b)
            (removelast (Account.replies net (issued (env st)) urls)) = true /\
    (fst r = Ret tt ->
     forallb (Account.returned b) (Account.replies net (issued (env st)) urls) = true).
Proof.
  intros r.
  pose proof (search_billed net cfg st b fuel terms kws st (billed_start b cfg net st)) as H.
  fold r in H. destruct r as [[[]|e|] st']; cbn [fst snd].
  - destruct H as (urls & Hc & K). exists urls. split; [exact Hc|]. split; [|auto].
    now apply forallb_removelast.
  - destruct H as (urls & Hc & K). exists urls. split; [exact Hc|]. split; [exact K|].
    discriminate.
  - destruct H as (urls & Hc & K). exists urls. split; [exact Hc|]. split; [exact K|].
    discriminate.
Qed.

Lemma account_requests b urls st st' :
  Account.of_state st' = Account.calls b cfg net urls (Account.of_state st) ->
  Trace.requests (trace (env st')) = (Trace.requests (trace (env st)) ++ urls)%list.
Proof.
  intros Hc.
  destruct (calls_log_wire b cfg net urls (Account.of_state st)) as (l & Hu & _ & Hw & _).
  rewrite <- Hc in Hw. cbn [Account.of_state Account.wire] in Hw.
  rewrite <- (requests_on_wire (trace (env st'))), Hw, requests_app, requests_on_wire,
    requests_wire_of_call, map_map, <- Hu. reflexivity.
Qed.

(** X9.  Every request of a run has its line in [request_log]: whatever the
    outcome of [search], the log has grown by exactly one line
    ["<Backend> API request #<n>: <url>"] per request sent, in the order
    the requests were sent and with their URLs; nothing else is written to
    it and nothing is removed from it. *)
Theorem request_log_lists_requests b terms kws st :
  let st' := snd (search_of b net cfg fuel terms kws st) in
  exists l : list (Z * string),
    Trace.requests (trace (env st')) = (Trace.requests (trace (env st)) ++ map snd l)%list /\
    request_log (self st') = request_log (self st) ++ log_lines b l.
Proof.
  intros st'. destruct (search_account b terms kws st) as (urls & Hc & _).
  fold st' in Hc.
  destruct (calls_log_wire b cfg net urls (Account.of_state st)) as (l & Hu & Hl & _).
  rewrite <- Hc in Hl. cbn [Account.of_state Account.log] in Hl.
  exists (map (fun x => (fst (fst x), snd x)) l). split; [|exact Hl].
  rewrite (account_requests b urls st st' Hc), map_map, <- Hu. reflexivity.
Qed.

(** The pauses and requests of a series of calls. *)
Lemma calls_wire b urls : forall a,
  Account.wire (Account.calls b cfg net urls a)
  = (Account.wire a
     ++ paced_wire b cfg net (Account.clock a) (Account.counter a) urls)%list.
Proof.
  induction urls as [|url urls IH]; intros a.
  - cbn. now rewrite app_nil_r.
  - rewrite calls_cons, IH. unfold Account.call.
    cbn [Account.wire Account.clock Account.counter paced_wire].
    now rewrite <- !app_assoc.
Qed.

(** X10.  The pauses of a run.  Whatever the outcome of [search], its
    pauses and requests are those of a series of calls, one per request,
    and nothing else: before each request the pause of one second on IEEE,
    Springer and Scopus (PubMed has none), then the pause of 24 hours
    exactly when the connector is metered (never IEEE) and
    [request_counter] has reached [max_requests_per_day] at that call;
    the counter the test reads starts at its value when [search] starts,
    is set to 0 by the long pause, and goes up by one with each request
    whose response the connector counts. *)
Theorem requests_are_paced b terms kws st :
  let st' := snd (search_of b net cfg fuel terms kws st) in
  exists urls,
    filter Account.on_wire (trace (env st'))
    = (filter Account.on_wire (trace (env st))
       ++ paced_wire b cfg net (issued (env st)) (request_counter (self st)) urls)%list.
Proof.
  intros st'. destruct (search_account b terms kws st) as (urls & Hc & _).
  fold st' in Hc. exists urls.
  change (Account.wire (Account.of_state st')
          = (Account.wire (Account.of_state st)
             ++ paced_wire b cfg net (Account.clock (Account.of_state st))
                           (Account.counter (Account.of_state st)) urls)%list).
  rewrite Hc. apply calls_wire.
Qed.

(** X11.  The counter of a metered connector stays within the daily budget:
    if it is between 0 and the budget when [search] starts, and the budget
    is 1 at least, it is so when [search] stops, however it stops. *)
Theorem metered_counter_within_budget b terms kws st :
  metered b = true ->
  1 <= max_requests_per_day cfg ->
  0 <= request_counter (self st) <= max_requests_per_day cfg ->
  let st' := snd (search_of b net cfg fuel terms kws st) in
  0 <= request_counter (self st') <= max_requests_per_day cfg.
Proof.
  intros M H1 Hc st'. destruct (search_account b terms kws st) as (urls & Ha & _).
  fold st' in Ha.
  pose proof (calls_within b cfg net urls (Account.of_state st) M H1 Hc) as H.
  rewrite <- Ha in H. exact H.
Qed.

(** X12.  IEEE counts what it sends.  With [n] the number of requests of a run
    and [c] the counter at its start: the lines the run adds to the log
    are numbered [c + 1], ..., [c + n]; a run that comes to its end leaves
    the counter at [c + n]; a run that stops before leaves it at [c + n]
    or at [c + n - 1] (the request that failed is logged, and counted only
    if its status was 2xx). *)
Theorem ieee_counts_requests terms kws st :
  let r := search_of IEEE net cfg fuel terms kws st in
  let c := request_counter (self st) in
  exists urls,
    Trace.requests (trace (env (snd r))) = (Trace.requests (trace (env st)) ++ urls)%list /\
    request_log (self (snd r))
    = request_log (self st)
      ++ log_lines IEEE (combine (numbers_from c (List.length urls)) urls) /\
    c + Py.len urls - 1 <= request_counter (self (snd r)) <= c + Py.len urls /\
    (fst r = Ret tt -> request_counter (self (snd r)) = c + Py.len urls).
Proof.
  intros r c. destruct (search_account IEEE terms kws st) as (urls & Ha & K1 & K2).
  fold r in Ha, K2.
  destruct (ieee_calls cfg net urls (Account.of_state st) K1) as (Hl & Hb & Hall).
  rewrite <- Ha in Hl, Hb, Hall.
  cbn [Account.of_state Account.log Account.counter Account.clock] in Hl, Hb, Hall.
  exists urls. split; [|split; [exact Hl|split; [exact Hb|]]].
  - exact (account_requests IEEE urls st (snd r) Ha).
  - intros R. apply Hall. auto.
Qed.

(** X13.  No failed request is passed over.  Every request of a run but the last
    got a response after which the connector goes on; the last one did too
    if [search] returned.  So a request without a response, and a response
    the connector cannot read (status outside 2xx or a body that is not
    JSON on IEEE, a body that is not JSON on Springer, a status 200 with
    such a body on Scopus), is the last request of the run, and the run
    does not come to its end.  (Scopus goes on after any status other than
    200; PubMed after any response.) *)
Theorem rejected_response_ends_run b terms kws st :
  let r := search_of b net cfg fuel terms kws st in
  exists urls,
    Trace.requests (trace (env (snd r))) = (Trace.requests (trace (env st)) ++ urls)%list /\
    issued (env (snd r)) = (issued (env st) + List.length urls)%nat /\
    forallb (Account.returned b)
            (removelast (Account.replies net (issued (env st)) urls)) = true /\
    (fst r = Ret tt ->
     forallb (Account.returned b) (Account.replies net (issued (env st)) urls) = true).
Proof.
  intros r. destruct (search_account b terms kws st) as (urls & Ha & K1 & K2).
  fold r in Ha, K2. exists urls.
  split; [exact (account_requests b urls st (snd r) Ha)|].
  split; [|split; [exact K1 | exact K2]].
  change (Account.clock (Account.of_state (snd r))
          = (Account.clock (Account.of_state st) + List.length urls)%nat).
  rewrite Ha. apply clock_calls.
Qed.

End AccountTheorems.

Section ResultsFile.

Variable net : network.
Variable cfg : config.
Variable fuel : nat.

(** The outer loop leaves the results file alone. *)
Lemma item_loop_keeps_results b terms kws l st0 :
  let C := connector_of b net cfg fuel in
  let I := fun st => FS.read (results_file C) (files (env st))
                     = FS.read (results_file C) (files (env st0)) in
  through I I (for_each l (item_body C terms kws)).
Proof.
  intros C I. apply item_loop_through with (changed := [checkpoint_file C]).
  - intros st st' [_ Hf] H. unfold I in *. rewrite <- H. apply Hf.
    intros [Hin|[]]. exact (connector_files net cfg fuel b Hin).
  - auto.
  - now left.
  - intros nested item name kw. apply hoare_frames.
    + apply connector_cell_frames.
    + intros st st' H S. unfold I in *. now rewrite (cs_files _ _ S).
    + auto.
Qed.

(** X7.  The results file is written at the very end.  A run of [search] that
    comes to its end leaves in the results file the document
    [{"Total": total_saved_records, "Biases": all_results}] of the state it
    ends in; a run that stops before (exception, or a loop that does not
    end) leaves the results file as it found it. *)
Theorem results_file_written_last b terms kws st :
  let r := search_of b net cfg fuel terms kws st in
  let file := results_file (connector_of b net cfg fuel) in
  match fst r with
  | Ret _ =>
      FS.read file (files (env (snd r)))
      = Some (JObj [ ("Total", JNum (total_saved_records (self (snd r))));
                     ("Biases", all_results (self (snd r))) ])
  | _ => FS.read file (files (env (snd r))) = FS.read file (files (env st))
  end.
Proof.
  intros r file. unfold r, search_of, search, bind at 1, read.
  pose proof (item_loop_keeps_results b terms kws
                (Py.range (item_index (self st)) (Py.len terms)) st st eq_refl) as H.
  unfold bind.
  destruct (for_each _ (item_body _ terms kws) st) as [[[]|e|] st1]; cbn [fst snd];
    [|exact H|exact H].
  unfold finish, bind, read, log_callback, emit, write_file, path_exists, remove_file.
  cbn [fst snd self env files set_files add_event].
  match goal with |- context [FS.exists_ ?a ?fs] => destruct (FS.exists_ a fs) end;
    cbn [fst snd self env files set_files add_event].
  - rewrite read_remove_other by (apply not_eq_sym, (connector_files net cfg fuel b)).
    apply read_written.
  - apply read_written.
Qed.

End ResultsFile.

Section ScopusStatus.

Variable net : network.
Variable cfg : config.

(** What [get_data_from_url] does before it looks at the response. *)
Lemma scopus_refused_run url st status content :
  net (issued (env st)) url = Http status content -> status <> 200 ->
  let c := request_counter (self st) in
  let hit := max_requests_per_day cfg <=? c in
  exists evs,
    (sleep 1 ;; ScopusAPI.get_data_from_url net cfg url) st
    = (Ret JNull,
       mkState (set_request_log
                  (request_log (self st)
                   ++ ScopusAPI.log_line ((if hit then 0 else c) + 1) url)
                  (if hit then set_request_counter 0 (self st) else self st))
               (mkWorld (files (env st)) (S (issued (env st)))
                        (trace (env st) ++ evs))) /\
    Trace.requests evs = [url].
Proof.
  intros Hn Hs. cbv zeta.
  unfold ScopusAPI.get_data_from_url, bind, read, assign, send, sleep, log_callback, emit,
    ret.
  cbn [self env request_counter fst snd].
  destruct (max_requests_per_day cfg <=? request_counter (self st));
    cbn [self env request_counter request_log set_request_counter set_request_log
         fst snd issued add_event trace files set_issued ret];
    rewrite Hn; destruct (Z.eqb_spec status 200); try contradiction;
    cbn [negb]; unfold set_issued, add_event; cbn [files issued trace];
    rewrite <- ?app_assoc; eexists; split; reflexivity.
Qed.

End ScopusStatus.

(** The loop of a cell whose request is refused ends there. *)
Lemma scopus_refused_loop net cfg fuel url total item_results st status content :
  net (issued (env st)) url = Http status content -> status <> 200 ->
  let c := request_counter (self st) in
  let hit := max_requests_per_day cfg <=? c in
  exists evs,
    ScopusAPI.page_loop net cfg (S fuel) url total item_results st
    = (Ret item_results,
       mkState (set_request_log
                  (request_log (self st)
                   ++ ScopusAPI.log_line ((if hit then 0 else c) + 1) url)
                  (if hit then set_request_counter 0 (self st) else self st))
               (mkWorld (files (env st)) (S (issued (env st)))
                        (trace (env st) ++ evs))) /\
    Trace.requests evs = [url].
Proof.
  intros Hn Hs c hit.
  destruct (scopus_refused_run net cfg url st status content Hn Hs) as (evs & Hrun & Hreq).
  fold c hit in Hrun.
  exists (evs ++ [Log (RequestTimed "Scopus" (if hit then 0 else c))])%list. split.
  - cbn [ScopusAPI.page_loop]. rewrite bind_assoc.
    rewrite (bind_run _ _ _ _ _ Hrun).
    unfold bind, read, log_callback, emit. cbn.
    destruct hit; cbn; now rewrite app_assoc.
  - rewrite requests_app, Hreq. reflexivity.
Qed.

(** X16.  A Scopus response with a status other than 200 ends the cell
    quietly.  Whatever its body, the pagination of the cell stops without
    an exception and the records gathered so far are the records of the
    cell (which [search] then merges and checkpoints as it does a complete
    cell); the request is in the log but is not counted. *)
Theorem scopus_error_status_ends_cell net cfg fuel url total item_results st status content :
  net (issued (env st)) url = Http status content -> status <> 200 ->
  let r := ScopusAPI.page_loop net cfg (S fuel) url total item_results st in
  let c := request_counter (self st) in
  let hit := max_requests_per_day cfg <=? c in
  fst r = Ret item_results /\
  Trace.requests (since st (snd r)) = [url] /\
  request_counter (self (snd r)) = (if hit then 0 else c) /\
  request_log (self (snd r))
  = request_log (self st) ++ request_line Scopus ((if hit then 0 else c) + 1) url.
Proof.
  intros Hn Hs r c hit.
  destruct (scopus_refused_loop net cfg fuel url total item_results st status content Hn Hs)
    as (evs & Hr & Hreq).
  fold c hit in Hr. fold r in Hr. rewrite Hr. cbn [fst snd self env trace].
  split; [reflexivity|]. split; [|split].
  - rewrite (since_app st _ evs) by reflexivity. exact Hreq.
  - now destruct hit.
  - now destruct hit.
Qed.

Section SpringerPages.

Variable net : network.
Variable cfg : config.

Lemma springer_get_run url st status data :
  net (issued (env st)) url = Http status (JsonDoc data) ->
  exists st1 evs,
    (sleep 1 ;; SpringerAPI.get_data_from_url net cfg url) st = (Ret data, st1) /\
    issued (env st1) = S (issued (env st)) /\
    trace (env st1) = (trace (env st) ++ evs)%list /\
    Trace.requests evs = [url].
Proof.
  intros Hn.
  unfold SpringerAPI.get_data_from_url, bind, read, assign, send, sleep, log_callback, emit,
    ret.
  cbn [self env request_counter fst snd].
  destruct (max_requests_per_day cfg <=? request_counter (self st));
    cbn [self env request_counter request_log set_request_counter set_request_log
         fst snd issued add_event trace files set_issued];
    rewrite Hn; cbn [parse_json ret];
    unfold ret, set_issued, add_event; cbn [files issued trace self env];
    rewrite <- ?app_assoc; do 2 eexists; (split; [reflexivity|]);
    cbn [env issued trace]; (split; [reflexivity|]); split; reflexivity.
Qed.

Lemma truthy_path path : path <> EmptyString -> Py.truthy (JStr path) = true.
Proof. intros H. simpl. destruct (String.eqb_spec path EmptyString); [contradiction|reflexivity]. Qed.

Lemma springer_total_step total data t :
  springer_total data = inr t ->
  forall s : state, exists t',
    (if total =? 0
     then lift (Py.rbind (Py.getitem data "result") (fun r =>
                Py.rbind (Py.getitem0 r) (fun r0 =>
                Py.rbind (Py.getitem r0 "total") Py.int)))
     else ret total) s = (Ret t', s).
Proof.
  intros Ht s. destruct (total =? 0); [|now exists total].
  exists t. unfold springer_total in Ht. now rewrite Ht.
Qed.

(** The loop of a cell along a chain of pages. *)
Lemma springer_pages_run : forall pages url last fuel total acc st,
  springer_pages net (issued (env st)) url pages last ->
  (List.length pages < fuel)%nat ->
  exists st' evs,
    SpringerAPI.page_loop net cfg fuel url total acc st
    = (Ret (acc ++ List.concat (map fst pages) ++ last)%list, st') /\
    trace (env st') = (trace (env st) ++ evs)%list /\
    Trace.requests evs = url :: map (fun p => SpringerAPI.base_url ++ snd p) pages.
Proof.
  intros pages. induction pages as [|[records path] pages IH];
    intros url last fuel total acc st (status & data & Hn & Hp) Hf;
    (destruct fuel as [|fuel]; [simpl in Hf; lia|]);
    cbn [SpringerAPI.page_loop]; rewrite bind_assoc;
    destruct (springer_get_run url st status data Hn) as (st1 & evs1 & Hrun & I1 & T1 & R1);
    rewrite (bind_run _ _ _ _ _ Hrun);
    erewrite bind_run by reflexivity;
    erewrite bind_run by reflexivity.
  - destruct Hp as [[Hd ->]|(next & (Hd & (t & Ht) & He & Hx) & Hnext)]; rewrite Hd; cbn [negb].
    + eexists. exists (evs1 ++ [Log (RequestTimed "Springer" (request_counter (self st1)))])%list.
      split; [cbn [List.concat map]; now rewrite !app_nil_r|].
      cbn [env trace add_event]. rewrite T1, <- app_assoc. split; [reflexivity|].
      rewrite requests_app, R1. reflexivity.
    + match goal with |- context [bind (if total =? 0 then _ else _) _ ?s] =>
        destruct (springer_total_step total data t Ht s) as (t' & Htot)
      end.
      rewrite (bind_run _ _ _ _ _ Htot).
      rewrite He. erewrite bind_run by reflexivity.
      rewrite Hx. erewrite bind_run by reflexivity.
      rewrite Hnext.
      erewrite bind_run by reflexivity.
      erewrite bind_run by reflexivity.
      eexists. exists (evs1 ++ [Log (RequestTimed "Springer" (request_counter (self st1)));
                                Progress (request_counter (self st1))])%list.
      split; [reflexivity|].
      cbn [env trace add_event self]. rewrite T1, <- !app_assoc. split; [reflexivity|].
      rewrite requests_app, R1. reflexivity.
  - destruct Hp as ((Hd & (t & Ht) & He & Hx) & Hne & Hrest). rewrite Hd. cbn [negb].
    match goal with |- context [bind (if total =? 0 then _ else _) _ ?s] =>
      destruct (springer_total_step total data t Ht s) as (t' & Htot)
    end.
    rewrite (bind_run _ _ _ _ _ Htot).
    rewrite He. erewrite bind_run by reflexivity.
    rewrite Hx. erewrite bind_run by reflexivity.
    rewrite (truthy_path path Hne).
    erewrite bind_run by reflexivity.
    erewrite bind_run by reflexivity.
    erewrite bind_run by reflexivity.
    match goal with |- context [SpringerAPI.page_loop net cfg fuel ?u ?t ?a ?s] =>
      destruct (IH u last fuel t a s) as (st' & evs & Hloop & T & R)
    end.
    { cbn [env issued add_event]. rewrite I1. exact Hrest. }
    { simpl in Hf. lia. }
    rewrite Hloop. exists st'.
    exists (evs1 ++ [Log (RequestTimed "Springer" (request_counter (self st1)));
                     Progress (request_counter (self st1))] ++ evs)%list.
    split; [|split].
    + cbn [map fst List.concat]. now rewrite <- !app_assoc.
    + rewrite T. cbn [env trace add_event self]. rewrite T1, <- !app_assoc. reflexivity.
    + rewrite !requests_app, R1, R. reflexivity.
Qed.

End SpringerPages.

(** X14.  A Springer cell follows the next-page links.  On a backend that serves
    the first URL of the cell with a chain of pages, the pagination
    returns (given fuel for one iteration per page) the records of all the
    pages in order, having requested the first URL and then, for each
    page that names a next page, the base URL followed by that path, and
    nothing else; it stops at the first page that names no next page, or
    at an empty document. *)
Theorem springer_cell_follows_next_page net cfg fuel nested item name kw pages last st :
  springer_pages net (issued (env st)) (SpringerAPI.initial_url cfg nested name kw)
                 pages last ->
  (List.length pages < fuel)%nat ->
  let r := SpringerAPI.cell net cfg fuel nested item name kw st in
  fst r = Ret (Some (List.concat (map fst pages) ++ last)%list) /\
  Trace.requests (since st (snd r))
  = SpringerAPI.initial_url cfg nested name kw
    :: map (fun p => SpringerAPI.base_url ++ snd p) pages.
Proof.
  intros Hp Hf r.
  destruct (springer_pages_run net cfg pages _ last fuel 0 [] st Hp Hf)
    as (st' & evs & Hloop & T & R).
  assert (Hr : r = (Ret (Some (List.concat (map fst pages) ++ last)%list), st')).
  { unfold r, SpringerAPI.cell. now rewrite (bind_run _ _ _ _ _ Hloop). }
  rewrite Hr. cbn [fst snd]. split; [reflexivity|].
  now rewrite (since_app st st' evs T).
Qed.

Section ScopusPages.

Variable net : network.
Variable cfg : config.

Lemma scopus_get_run url st data :
  net (issued (env st)) url = Http 200 (JsonDoc data) ->
  exists st1 evs,
    (sleep 1 ;; ScopusAPI.get_data_from_url net cfg url) st = (Ret data, st1) /\
    issued (env st1) = S (issued (env st)) /\
    trace (env st1) = (trace (env st) ++ evs)%list /\
    Trace.requests evs = [url].
Proof.
  intros Hn.
  unfold ScopusAPI.get_data_from_url, bind, read, assign, send, sleep, log_callback, emit,
    ret.
  cbn [self env request_counter fst snd].
  destruct (max_requests_per_day cfg <=? request_counter (self st));
    cbn [self env request_counter request_log set_request_counter set_request_log
         fst snd issued add_event trace files set_issued];
    rewrite Hn; cbn [parse_json ret Z.eqb Pos.eqb negb];
    unfold ret, set_issued, add_event; cbn [files issued trace self env];
    rewrite <- ?app_assoc; do 2 eexists; (split; [reflexivity|]);
    cbn [env issued trace]; (split; [reflexivity|]); split; reflexivity.
Qed.

(** The loop of a cell along a chain of pages. *)
Lemma scopus_pages_run : forall pages url last fuel total acc st,
  scopus_pages net (issued (env st)) url pages last ->
  (List.length pages < fuel)%nat ->
  exists st' evs,
    ScopusAPI.page_loop net cfg fuel url total acc st
    = (Ret (acc ++ List.concat (map fst pages) ++ last)%list, st') /\
    trace (env st') = (trace (env st) ++ evs)%list /\
    Trace.requests evs = url :: map snd pages.
Proof.
  intros pages. induction pages as [|[records href] pages IH];
    intros url last fuel total acc st (status & content & Hn & Hp) Hf;
    (destruct fuel as [|fuel]; [simpl in Hf; lia|]);
    cbn [ScopusAPI.page_loop]; rewrite bind_assoc.
  - destruct Hp as [[Hs ->]|(-> & data & -> & Hp)].
    + destruct (scopus_refused_run net cfg url st status content Hn Hs) as (evs1 & Hrun & R1).
      rewrite (bind_run _ _ _ _ _ Hrun).
      erewrite bind_run by reflexivity.
      erewrite bind_run by reflexivity.
      cbn [Py.truthy negb].
      eexists. eexists (evs1 ++ [_])%list.
      split; [cbn [List.concat map]; now rewrite !app_nil_r|].
      cbn [env trace add_event]. rewrite <- app_assoc. split; [reflexivity|].
      rewrite requests_app, R1. reflexivity.
    + destruct (scopus_get_run url st data Hn) as (st1 & evs1 & Hrun & I1 & T1 & R1).
      rewrite (bind_run _ _ _ _ _ Hrun).
      erewrite bind_run by reflexivity.
      erewrite bind_run by reflexivity.
      destruct Hp as [[Hd ->]|(next & (Hd & Ht & He & Hx) & Hnext)]; rewrite Hd; cbn [negb].
      * eexists. eexists (evs1 ++ [_])%list.
        split; [cbn [List.concat map]; now rewrite !app_nil_r|].
        cbn [env trace add_event]. rewrite T1, <- app_assoc. split; [reflexivity|].
        rewrite requests_app, R1. reflexivity.
      * destruct (Ht total) as (t' & Ht'). rewrite Ht'.
        erewrite bind_run by reflexivity.
        rewrite He. erewrite bind_run by reflexivity.
        unfold scopus_next in Hx. rewrite Hx. erewrite bind_run by reflexivity.
        rewrite Hnext.
        erewrite bind_run by reflexivity.
        erewrite bind_run by reflexivity.
        eexists. eexists (evs1 ++ [_; _])%list.
        split; [reflexivity|].
        cbn [env trace add_event self]. rewrite T1, <- !app_assoc. split; [reflexivity|].
        rewrite requests_app, R1. reflexivity.
  - destruct Hp as (-> & data & -> & (Hd & Ht & He & Hx) & Hne & Hrest).
    destruct (scopus_get_run url st data Hn) as (st1 & evs1 & Hrun & I1 & T1 & R1).
    rewrite (bind_run _ _ _ _ _ Hrun).
    erewrite bind_run by reflexivity.
    erewrite bind_run by reflexivity.
    rewrite Hd. cbn [negb].
    destruct (Ht total) as (t' & Ht'). rewrite Ht'.
    erewrite bind_run by reflexivity.
    rewrite He. erewrite bind_run by reflexivity.
    unfold scopus_next in Hx. rewrite Hx. erewrite bind_run by reflexivity.
    rewrite (truthy_path href Hne).
    erewrite bind_run by reflexivity.
    erewrite bind_run by reflexivity.
    erewrite bind_run by reflexivity.
    match goal with |- context [ScopusAPI.page_loop net cfg fuel ?u ?t ?a ?s] =>
      destruct (IH u last fuel t a s) as (st' & evs & Hloop & T & R)
    end.
    { cbn [env issued add_event]. rewrite I1. exact Hrest. }
    { simpl in Hf. lia. }
    rewrite Hloop. exists st'.
    exists (evs1 ++ [Log (RequestTimed "Scopus" (request_counter (self st1)));
                     Progress (request_counter (self st1))] ++ evs)%list.
    split; [|split].
    + cbn [map fst List.concat]. now rewrite <- !app_assoc.
    + rewrite T. cbn [env trace add_event self]. rewrite T1, <- !app_assoc. reflexivity.
    + rewrite !requests_app, R1, R. reflexivity.
Qed.

End ScopusPages.

(** X15.  A Scopus cell follows the links of relation "next".  On a backend
    that serves the first URL of the cell with a chain of pages, the
    pagination returns (given fuel for one iteration per page) the records
    of all the pages in order, having requested the first URL and then the
    next link of each page that has one, and nothing else; it stops at the
    first page without a next link, at an empty document, or at a response
    whose status is not 200. *)
Theorem scopus_cell_follows_next_link net cfg fuel nested item name kw pages last st :
  scopus_pages net (issued (env st)) (ScopusAPI.initial_url cfg name kw) pages last ->
  (List.length pages < fuel)%nat ->
  let r := ScopusAPI.cell net cfg fuel nested item name kw st in
  fst r = Ret (Some (List.concat (map fst pages) ++ last)%list) /\
  Trace.requests (since st (snd r)) = ScopusAPI.initial_url cfg name kw :: map snd pages.
Proof.
  intros Hp Hf r.
  destruct (scopus_pages_run net cfg pages _ last fuel 0 [] st Hp Hf)
    as (st' & evs & Hloop & T & R).
  assert (Hr : r = (Ret (Some (List.concat (map fst pages) ++ last)%list), st')).
  { unfold r, ScopusAPI.cell. now rewrite (bind_run _ _ _ _ _ Hloop). }
  rewrite Hr. cbn [fst snd]. split; [reflexivity|].
  now rewrite (since_app st st' evs T).
Qed.

Section PubMedPages.

Variable net : network.
Variable cfg : config.

Lemma pubmed_get_run url st status content :
  net (issued (env st)) url = Http status content ->
  exists st1 evs,
    PubMedAPI.get_data_from_url net cfg url st = (Ret content, st1) /\
    issued (env st1) = S (issued (env st)) /\
    trace (env st1) = (trace (env st) ++ evs)%list /\
    Trace.requests evs = [url].
Proof.
  intros Hn.
  unfold PubMedAPI.get_data_from_url, bind, read, assign, send, sleep, log_callback, emit,
    ret.
  cbn [self env request_counter fst snd].
  destruct (max_requests_per_day cfg <=? request_counter (self st));
    cbn [self env request_counter request_log set_request_counter set_request_log
         fst snd issued add_event trace files set_issued];
    rewrite Hn;
    unfold ret, set_issued, add_event; cbn [files issued trace self env];
    rewrite <- ?app_assoc; do 2 eexists; (split; [reflexivity|]);
    cbn [env issued trace]; (split; [reflexivity|]); split; reflexivity.
Qed.

(** The loop of the id search along the pages of ids. *)
Lemma pubmed_id_pages_run : forall pages query fuel retstart acc st,
  pubmed_id_pages net cfg (issued (env st)) query retstart pages ->
  (List.length pages < fuel)%nat ->
  exists st' evs,
    PubMedAPI.id_loop net cfg fuel query retstart acc st
    = (Ret (acc ++ List.concat pages)%list, st') /\
    issued (env st') = (issued (env st) + S (List.length pages))%nat /\
    trace (env st') = (trace (env st) ++ evs)%list /\
    Trace.requests evs
    = map (fun i => PubMedAPI.esearch_url cfg query (retstart + 100 * Z.of_nat i) 100)
          (seq 0 (S (List.length pages))).
Proof.
  intros pages. induction pages as [|ids pages IH];
    intros query fuel retstart acc st (status & root & Hn & Hp) Hf;
    (destruct fuel as [|fuel]; [simpl in Hf; lia|]);
    cbn [PubMedAPI.id_loop];
    destruct (pubmed_get_run _ st status (XmlDoc root) Hn) as (st1 & evs1 & Hrun & I1 & T1 & R1);
    rewrite (bind_run _ _ _ _ _ Hrun);
    erewrite bind_run by reflexivity;
    erewrite bind_run by reflexivity;
    erewrite bind_run by reflexivity;
    unfold pubmed_ids_of in Hp.
  - rewrite Hp. eexists. eexists (evs1 ++ [_])%list.
    split; [cbn [List.concat]; now rewrite app_nil_r|].
    cbn [env trace add_event issued self]. rewrite T1, I1, <- app_assoc.
    split; [simpl; lia|]. split; [reflexivity|].
    rewrite requests_app, R1. cbn. now rewrite Z.add_0_r.
  - destruct Hp as (Hi & Hne & Hrest). rewrite Hi.
    destruct ids as [|id ids]; [contradiction|].
    match goal with |- context [PubMedAPI.id_loop net cfg fuel ?q ?s ?a ?t] =>
      destruct (IH q fuel s a t) as (st' & evs & Hloop & I & T & R)
    end.
    { cbn [env issued add_event]. rewrite I1. exact Hrest. }
    { simpl in Hf. lia. }
    rewrite Hloop. exists st'. eexists (evs1 ++ [_] ++ evs)%list.
    split; [|split; [|split]].
    + cbn [List.concat]. now rewrite <- app_assoc.
    + rewrite I. cbn [env issued add_event List.length]. rewrite I1. lia.
    + rewrite T. cbn [env trace add_event self]. rewrite T1, <- !app_assoc. reflexivity.
    + rewrite !requests_app, R1, R.
      cbn [List.length].
      change (seq 0 (S (S (List.length pages)))) with (0%nat :: seq 1 (S (List.length pages))).
      rewrite <- seq_shift. cbn [map Trace.requests flat_map app].
      rewrite map_map. f_equal; [now rewrite Z.add_0_r|].
      apply map_ext. intros i. f_equal. lia.
Qed.

End PubMedPages.

Section PubMedFetch.

Variable net : network.
Variable cfg : config.

Lemma join_ids_text chunk :
  Forall (fun id : option string => id <> None) chunk ->
  PubMedAPI.join_ids chunk = inr (ids_text chunk).
Proof.
  intros H. unfold PubMedAPI.join_ids, Py.join, ids_text.
  assert (M : Py.mapR Py.as_str (map ET.text_json chunk)
              = inr (map (fun id => match id with Some s => s | None => EmptyString end)
                         chunk)).
  { induction H as [|[s|] chunk Hx H IH]; [reflexivity| |contradiction].
    cbn [map Py.mapR ET.text_json Py.as_str Py.rbind Py.ok]. now rewrite IH. }
  now rewrite M.
Qed.

Lemma Forall_firstn_skipn {A} (P : A -> Prop) n : forall l : list A,
  Forall P l -> Forall P (firstn n l) /\ Forall P (skipn n l).
Proof.
  induction n as [|n IH]; intros l H; [split; [constructor | exact H]|].
  destruct H as [|a l Ha H]; [split; constructor|].
  destruct (IH l H). split; [now constructor | assumption].
Qed.

Lemma chunks_from_Forall {A} (P : A -> Prop) n : forall l,
  Forall P l -> Forall (Forall P) (PubMedAPI.chunks_from n l).
Proof.
  induction n as [|n IH]; intros l H; [constructor|].
  destruct l as [|a l]; [constructor|].
  cbn [PubMedAPI.chunks_from]. constructor.
  - now apply Forall_firstn_skipn.
  - apply IH. now apply Forall_firstn_skipn.
Qed.

(** The loop over the chunks. *)
Lemma fetch_chunks_run : forall cs acc st,
  Forall (Forall (fun id : option string => id <> None)) cs ->
  serves_articles net (issued (env st)) ->
  exists st' evs records,
    PubMedAPI.fetch_chunks net cfg cs acc st = (Ret (acc ++ records)%list, st') /\
    trace (env st') = (trace (env st) ++ evs)%list /\
    Trace.requests evs = map (fun c => PubMedAPI.efetch_url cfg (ids_text c)) cs.
Proof.
  induction cs as [|chunk cs IH]; intros acc st Hc Hs; cbn [PubMedAPI.fetch_chunks].
  - exists st, [], []. rewrite !app_nil_r. repeat split.
  - inversion Hc as [|? ? Hchunk Hrest]; subst.
    rewrite (join_ids_text chunk Hchunk). erewrite bind_run by reflexivity.
    destruct (Hs (issued (env st)) (PubMedAPI.efetch_url cfg (ids_text chunk)) (le_n _))
      as (status & content & page & Hn & Hx).
    destruct (pubmed_get_run net cfg _ st status content Hn)
      as (st1 & evs1 & Hrun & I1 & T1 & R1).
    rewrite (bind_run _ _ _ _ _ Hrun), Hx.
    erewrite bind_run by reflexivity.
    erewrite bind_run by reflexivity.
    erewrite bind_run by reflexivity.
    erewrite bind_run by reflexivity.
    match goal with |- context [PubMedAPI.fetch_chunks net cfg cs ?a ?s] =>
      destruct (IH a s Hrest) as (st' & evs & records & Hloop & T & R)
    end.
    { intros n url Hle. apply Hs. cbn [env issued add_event] in Hle. lia. }
    rewrite Hloop. exists st'. eexists (evs1 ++ [_; _] ++ evs)%list. exists (page ++ records)%list.
    split; [now rewrite app_assoc|]. split.
    + rewrite T. cbn [env trace add_event self]. rewrite T1, <- !app_assoc. reflexivity.
    + rewrite !requests_app, R1, R. reflexivity.
Qed.

End PubMedFetch.

(** X17.  The two phases of a PubMed cell.  On a backend that answers the id
    search with pages of ids and then an empty page, and the fetches with
    documents the parser reads, a cell first asks for ids at the offsets
    0, 100, 200, ... until a page comes back empty (whatever the number of
    ids on a page), then fetches the ids found, in their order, by chunks
    of 100 at most, one request per chunk.  A cell whose first page of
    ids is empty is left without a fetch and without records. *)
Theorem pubmed_cell_two_phases net cfg fuel nested item name kw term1 term2 pages st :
  PyStr.split " AND " (PyStr.strip name ++ " AND " ++ kw) = [term1; term2] ->
  pubmed_id_pages net cfg (issued (env st)) (pubmed_query term1 term2) 0 pages ->
  (List.length pages < fuel)%nat ->
  Forall (fun id : option string => id <> None) (List.concat pages) ->
  serves_articles net (issued (env st) + S (List.length pages)) ->
  let r := PubMedAPI.cell net cfg fuel nested item name kw st in
  (exists records,
      fst r = Ret (match pages with [] => None | _ => Some records end)) /\
  Trace.requests (since st (snd r))
  = (map (fun o => PubMedAPI.esearch_url cfg (pubmed_query term1 term2) o 100)
         (id_offsets (S (List.length pages)))
     ++ map (fun c => PubMedAPI.efetch_url cfg (ids_text c))
            (PubMedAPI.chunks (List.concat pages)))%list.
Proof.
  intros Hsplit Hp Hf Hids Hs r.
  destruct (pubmed_id_pages_run net cfg pages _ fuel 0 [] st Hp Hf)
    as (st1 & evs1 & Hloop & I1 & T1 & R1).
  assert (R1' : Trace.requests evs1
                = map (fun o => PubMedAPI.esearch_url cfg (pubmed_query term1 term2) o 100)
                      (id_offsets (S (List.length pages)))).
  { rewrite R1. unfold id_offsets. rewrite map_map. reflexivity. }
  assert (Hget : PubMedAPI.get_pmids_for_search_term net cfg fuel
                   (PyStr.strip name ++ " AND " ++ kw) st
                 = (Ret (List.concat pages), st1)).
  { unfold PubMedAPI.get_pmids_for_search_term. rewrite Hsplit. exact Hloop. }
  unfold r, PubMedAPI.cell. rewrite (bind_run _ _ _ _ _ Hget).
  destruct pages as [|ids pages].
  - cbn [List.concat]. unfold ret. cbn [fst snd]. split; [exists []; reflexivity|].
    rewrite (since_app st st1 evs1 T1), R1'. cbn. reflexivity.
  - destruct Hp as (status & root & Hn & Hi & Hne & Hrest).
    destruct (List.concat (ids :: pages)) as [|id0 pmids] eqn:Hc.
    { cbn [List.concat] in Hc. destruct ids; [contradiction | discriminate]. }
    destruct (fetch_chunks_run net cfg (PubMedAPI.chunks (id0 :: pmids)) [] st1)
      as (st' & evs & records & Hfetch & T & R).
    { now apply chunks_from_Forall. }
    { now rewrite I1. }
    rewrite (bind_run _ _ _ _ _ Hfetch). unfold ret. cbn [fst snd].
    split; [exists records; reflexivity|].
    rewrite (since_app st st' (evs1 ++ evs)) by (now rewrite T, T1, app_assoc).
    now rewrite requests_app, R1', R.
Qed.

Section RangeFacts.

Context {A : Type}.

Lemma index_middle (pre : list A) x post :
  Py.index (pre ++ x :: post) (Py.len pre) = inr x.
Proof.
  unfold Py.index, Py.len.
  destruct (Z.ltb_spec (Z.of_nat (List.length pre)) 0); [lia|].
  destruct (Z.ltb_spec (Z.of_nat (List.length pre)) 0); [lia|].
  rewrite Nat2Z.id, nth_error_app2, Nat.sub_diag by lia. reflexivity.
Qed.

Lemma steps_cons (pre : list A) x (post : list A) :
  map (fun n => Py.len pre + Z.of_nat n) (seq 0 (List.length (x :: post)))
  = Py.len pre
    :: map (fun n => Py.len (pre ++ [x]) + Z.of_nat n) (seq 0 (List.length post)).
Proof.
  cbn [List.length seq map]. f_equal; [lia|].
  rewrite <- seq_shift, map_map. apply map_ext. intros n.
  unfold Py.len. rewrite length_app. simpl. lia.
Qed.

(** [range(j0, len(l))] walks the indices of [l[j0:]]. *)
Lemma range_drop (l : list A) j0 :
  0 <= j0 ->
  exists pre,
    l = (pre ++ drop j0 l)%list /\
    Py.range j0 (Py.len l)
    = map (fun n => Py.len pre + Z.of_nat n) (seq 0 (List.length (drop j0 l))).
Proof.
  intros H. unfold drop, Py.range, Py.len.
  destruct (Z.le_gt_cases j0 (Z.of_nat (List.length l))) as [Hle|Hgt].
  - exists (firstn (Z.to_nat j0) l). split; [now rewrite firstn_skipn|].
    rewrite length_skipn, length_firstn.
    replace (Z.to_nat (Z.of_nat (List.length l) - j0))
      with (List.length l - Z.to_nat j0)%nat by lia.
    apply map_ext. intros n. lia.
  - exists l. rewrite skipn_all2 by lia. split; [now rewrite app_nil_r|].
    replace (Z.to_nat (Z.of_nat (List.length l) - j0)) with 0%nat by lia.
    reflexivity.
Qed.

End RangeFacts.

Section PlanFacts.

Lemma names_from_zero kws item names :
  Plan.names_from kws item names 0
  = flat_map (fun name => Plan.keywords_from kws item (Some name) 0) names.
Proof. destruct names; reflexivity. Qed.

Lemma rows_zero resets kws items :
  Plan.rows resets kws items 0 0 = Plan.grid items kws.
Proof.
  induction items as [|item items IH]; [reflexivity|].
  cbn [Plan.rows Plan.grid flat_map]. f_equal.
  replace (Plan.next_keyword_index resets item 0 0) with 0; [exact IH|].
  unfold Plan.next_keyword_index.
  destruct resets; [reflexivity|]. destruct (_ =? 1); [reflexivity|].
  now destruct (drop 0 _).
Qed.

Lemma rows_resets kws items k0 j0 :
  Plan.rows true kws items k0 j0
  = match items with
    | [] => []
    | item :: later => (Plan.row kws item k0 j0 ++ Plan.grid later kws)%list
    end.
Proof.
  destruct items as [|item later]; [reflexivity|].
  cbn [Plan.rows]. f_equal. apply rows_zero.
Qed.

Lemma cells_app a b : Trace.cells (a ++ b) = (Trace.cells a ++ Trace.cells b)%list.
Proof. unfold Trace.cells. apply flat_map_app. Qed.

Lemma cells_quiet evs : forallb Trace.quiet evs = true -> Trace.cells evs = [].
Proof.
  induction evs as [|e evs IH]; [reflexivity|]. simpl. intros H.
  apply andb_prop in H as [He H]. destruct e; try discriminate; auto.
Qed.

Lemma subseq_refl {A} (l : list A) : subseq l l.
Proof. induction l; constructor; auto. Qed.

Lemma subseq_app {A} (a a' b b' : list A) :
  subseq a a' -> subseq b b' -> subseq (a ++ b) (a' ++ b').
Proof. intros Ha Hb. induction Ha; cbn; auto; constructor; auto. Qed.

Lemma covered_nil strict : covered strict [] [].
Proof. destruct strict; [reflexivity | constructor]. Qed.

Lemma covered_snoc strict merged done c :
  covered strict merged done -> covered strict (merged ++ [c]) (done ++ [c]).
Proof.
  destruct strict; cbn; [now intros -> |].
  intros H. apply subseq_app; [exact H | apply subseq_refl].
Qed.

Lemma covered_skip merged done c :
  covered false merged done -> covered false merged (done ++ [c]).
Proof.
  cbn. intros H. rewrite <- (app_nil_r merged).
  apply subseq_app; [exact H | repeat constructor].
Qed.

Lemma covered_subseq strict merged done : covered strict merged done -> subseq merged done.
Proof. destruct strict; cbn; [intros ->; apply subseq_refl | auto]. Qed.

End PlanFacts.

Section Walk.

Variable C : connector.
Variable E : state -> Prop.
Variable strict : bool.
Variable K : list Plan.cell_id -> state -> Prop.
Variable good : Z -> Z -> Z -> list Plan.cell_id -> Prop.
Variables terms kws : list string.
Variables base whole : list Plan.cell_id.

Hypothesis cell_frames : forall nested item name kw, frames (cell C nested item name kw).
Hypothesis K_files :
  forall todo st st', K todo st -> files (env st') = files (env st) -> K todo st'.
Hypothesis K_save :
  forall c todo i j k st,
    K (c :: todo) st -> good i k j todo -> Shape.wf (all_results (self st)) = true ->
    K todo (snd (checkpoint C i j k st)).
Hypothesis K_skip : strict = false -> forall c todo st, K (c :: todo) st -> K todo st.
Hypothesis cell_fails :
  forall (nested : bool) item name kw done todo k j st,
    walked_at strict K base whole done
              ((item, if nested then Some name else None, kw) :: todo) k j item st ->
    match fst (cell C nested item name kw st) with
    | Ret _ => True
    | _ => E (snd (cell C nested item name kw st))
    end.
Hypothesis cell_some :
  strict = true ->
  forall nested item name kw st, fst (cell C nested item name kw st) <> Ret None.

(** The checkpoint written after the cell of the keyword after [pre]. *)
Hypothesis good_flat :
  forall pre_t item post_t pre kw post k0 j0,
    terms = (pre_t ++ item :: post_t)%list ->
    Py.len (PyStr.split " or " item) = 1 ->
    kws = (pre ++ kw :: post)%list ->
    good (Py.len pre_t) 0 (Py.len pre + 1)
         (map (fun kw => (item, None, kw)) post
          ++ Plan.rows (resets_indices C) kws post_t 0
                       (Plan.next_keyword_index (resets_indices C) item k0 j0)).
Hypothesis good_nested :
  forall pre_t item post_t pre_n name post_n pre kw post k0 j0,
    terms = (pre_t ++ item :: post_t)%list ->
    Py.len (PyStr.split " or " item) <> 1 ->
    PyStr.split " or " item = (pre_n ++ name :: post_n)%list ->
    kws = (pre ++ kw :: post)%list ->
    good (Py.len pre_t) (Py.len pre_n) (Py.len pre + 1)
         (map (fun kw => (item, Some name, kw)) post
          ++ flat_map (fun name => Plan.keywords_from kws item (Some name) 0) post_n
          ++ Plan.rows (resets_indices C) kws post_t 0
                       (Plan.next_keyword_index (resets_indices C) item k0 j0)).

Lemma walked_cell_step done todo k j item st st' :
  walked_at strict K base whole done todo k j item st -> cell_step st st' ->
  walked_at strict K base whole done todo k j item st'.
Proof.
  intros [(W & Kn & J & (merged & T & V) & D & F) P] [a _ _ d e f (evs & g & q)].
  split; [split; [|split; [|split; [|split; [|split]]]]|]; try congruence.
  - exists merged. split; [|exact V].
    now rewrite g, cells_app, (cells_quiet _ q), app_nil_r.
  - eapply K_files; eauto.
Qed.

Lemma hoare_lift_ok {A B} (P : state -> Prop) (r : result A) a (k : A -> M B)
      (Q : B -> state -> Prop) :
  r = inr a -> hoare E P (k a) Q -> hoare E P (bind (lift r) k) Q.
Proof. intros -> H st HP. now apply H. Qed.

Lemma merge_flat_run item kw recs st :
  Shape.wf (all_results (self st)) = true ->
  present item (all_results (self st)) = true ->
  Py.len (PyStr.split " or " item) = 1 ->
  exists r,
    merge_flat item kw recs st
    = (Ret tt,
       mkState (set_total_saved_records (total_saved_records (self st) + Py.len recs)
                                        (set_all_results r (self st)))
               (add_event (Merge item None kw recs) (env st))) /\
    Shape.wf r = true /\ present item r = true.
Proof.
  intros W P Hlen.
  destruct (wf_set_flat_cell item kw (JArr recs) _ W P Hlen) as (r1 & E1 & W1 & P1).
  destruct (wf_add_item_total item (Py.len recs) r1 W1 P1) as (r2 & E2 & W2 & P2).
  exists r2. split; [|auto].
  unfold merge_flat.
  erewrite bind_run by (apply on_results_run; exact E1).
  erewrite bind_run by reflexivity.
  erewrite bind_run by (apply on_results_run; exact E2).
  reflexivity.
Qed.

Lemma merge_nested_run item name kw recs st :
  Shape.wf (all_results (self st)) = true ->
  present item (all_results (self st)) = true ->
  Py.len (PyStr.split " or " item) <> 1 ->
  In name (PyStr.split " or " item) ->
  exists r,
    merge_nested item name kw recs st
    = (Ret tt,
       mkState (set_total_saved_records (total_saved_records (self st) + Py.len recs)
                                        (set_all_results r (self st)))
               (add_event (Merge item (Some name) kw recs) (env st))) /\
    Shape.wf r = true /\ present item r = true.
Proof.
  intros W P Hlen Hin.
  destruct (wf_set_nested_cell item name kw (JArr recs) _ W P Hlen Hin)
    as (r1 & E1 & W1 & P1).
  destruct (wf_add_name_total item name (Py.len recs) r1 W1 P1 Hlen Hin)
    as (r2 & E2 & W2 & P2).
  destruct (wf_add_item_total item (Py.len recs) r2 W2 P2) as (r3 & E3 & W3 & P3).
  exists r3. split; [|auto].
  unfold merge_nested.
  erewrite bind_run by (apply on_results_run; exact E1).
  erewrite bind_run by reflexivity.
  erewrite bind_run by (apply on_results_run; exact E2).
  erewrite bind_run by (apply on_results_run; exact E3).
  reflexivity.
Qed.

(** A merge and its checkpoint. *)
Lemma merged_walk (nested : bool) item name kw records i j k k0 j0 done todo st r :
  walked_at strict K base whole done
            ((item, if nested then Some name else None, kw) :: todo) k0 j0 item st ->
  good i k j todo ->
  Shape.wf r = true -> present item r = true ->
  walked_at strict K base whole
            (done ++ [(item, if nested then Some name else None, kw)]) todo k0 j0 item
            (snd (checkpoint C i j k
                    (mkState (set_total_saved_records
                                (total_saved_records (self st) + Py.len records)
                                (set_all_results r (self st)))
                             (add_event (Merge item (if nested then Some name else None)
                                               kw records) (env st))))).
Proof.
  intros [(W & Kn & J & (merged & T & V) & D & F) P] G Wr Pr.
  match goal with |- walked_at _ _ _ _ _ _ _ _ _ (snd (checkpoint C i j k ?s)) =>
    pose proof (K_save _ todo i j k s (K_files _ st s F eq_refl) G Wr) as F';
    destruct (checkpoint_run C i j k s) as (doc & Hrun & _)
  end.
  rewrite Hrun in *. cbn [snd] in *.
  split; [split; [|split; [|split; [|split; [|split]]]]|]; cbn; auto.
  - exists (merged ++ [(item, if nested then Some name else None, kw)])%list.
    split; [|now apply covered_snoc].
    rewrite !cells_app, T. cbn. now rewrite app_nil_r, <- app_assoc.
  - now rewrite <- app_assoc.
Qed.

(** One cell of a keyword loop. *)
Lemma keyword_body_walk (nested : bool) item name i k k0 j0 pre kw post done todo :
  kws = (pre ++ kw :: post)%list ->
  (if nested
   then Py.len (PyStr.split " or " item) <> 1 /\ In name (PyStr.split " or " item)
   else Py.len (PyStr.split " or " item) = 1) ->
  good i k (Py.len pre + 1) todo ->
  hoare E (walked_at strict K base whole done
                     ((item, if nested then Some name else None, kw) :: todo) k0 j0 item)
        (keyword_body C nested kws item name i k (Py.len pre))
        (fun _ => walked_at strict K base whole
                    (done ++ [(item, if nested then Some name else None, kw)]) todo
                    k0 j0 item).
Proof.
  intros Hk Hshape G. unfold keyword_body.
  apply hoare_lift_ok with (a := kw); [rewrite Hk; apply index_middle|].
  intros st H.
  pose proof (cell_frames nested item name kw st) as S.
  pose proof (cell_fails nested item name kw _ _ _ _ st H) as F.
  pose proof (fun s => cell_some s nested item name kw st) as N.
  unfold bind.
  destruct (cell C nested item name kw st) as [[[records|]| |] st1];
    cbn [fst snd] in *; auto.
  - pose proof (walked_cell_step _ _ _ _ _ _ _ H S) as H1.
    pose proof H1 as [(W & _) P].
    destruct nested.
    + destruct Hshape as [Hlen Hin].
      destruct (merge_nested_run item name kw records st1 W P Hlen Hin)
        as (r & -> & Wr & Pr).
      pose proof (merged_walk true item name kw records i (Py.len pre + 1) k k0 j0
                              done todo st1 r H1 G Wr Pr) as H2.
      destruct (checkpoint_run C i (Py.len pre + 1) k
                  (mkState (set_total_saved_records
                              (total_saved_records (self st1) + Py.len records)
                              (set_all_results r (self st1)))
                           (add_event (Merge item (Some name) kw records) (env st1))))
        as (doc & Hrun & _).
      cbv beta iota in H2. rewrite Hrun in *. exact H2.
    + destruct (merge_flat_run item kw records st1 W P Hshape) as (r & -> & Wr & Pr).
      pose proof (merged_walk false item name kw records i (Py.len pre + 1) k k0 j0
                              done todo st1 r H1 G Wr Pr) as H2.
      destruct (checkpoint_run C i (Py.len pre + 1) k
                  (mkState (set_total_saved_records
                              (total_saved_records (self st1) + Py.len records)
                              (set_all_results r (self st1)))
                           (add_event (Merge item None kw records) (env st1))))
        as (doc & Hrun & _).
      cbv beta iota in H2. rewrite Hrun in *. exact H2.
  - pose proof (walked_cell_step _ _ _ _ _ _ _ H S)
      as [(W & Kn & J & (merged & T & V) & D & F') P].
    destruct strict eqn:Hs; [exfalso; now apply N|].
    split; [split; [|split; [|split; [|split; [|split]]]]|]; auto.
    + exists merged. split; [exact T | now apply covered_skip].
    + now rewrite <- app_assoc.
    + now apply (K_skip eq_refl) in F'.
Qed.

(** The keyword loop, from the keyword after [pre] on; [tail] is what is
    left to do after the loop. *)
Lemma keyword_steps (nested : bool) item name i k k0 j0 tail :
  (if nested
   then Py.len (PyStr.split " or " item) <> 1 /\ In name (PyStr.split " or " item)
   else Py.len (PyStr.split " or " item) = 1) ->
  (forall pre kw post,
      kws = (pre ++ kw :: post)%list ->
      good i k (Py.len pre + 1)
           (map (fun kw => (item, if nested then Some name else None, kw)) post ++ tail)) ->
  forall post pre done,
    kws = (pre ++ post)%list ->
    hoare E (walked_at strict K base whole done
                       (map (fun kw => (item, if nested then Some name else None, kw)) post
                        ++ tail) k0 j0 item)
          (for_each (map (fun n => Py.len pre + Z.of_nat n) (seq 0 (List.length post)))
                    (keyword_body C nested kws item name i k))
          (fun _ => walked_at strict K base whole
                      (done ++ map (fun kw => (item, if nested then Some name else None, kw))
                                   post) tail k0 j0 item).
Proof.
  intros Hshape Hgood. induction post as [|kw post IH]; intros pre done Hk.
  - cbn. rewrite app_nil_r. intros st H. exact H.
  - rewrite steps_cons. cbn [for_each map app].
    eapply hoare_bind.
    + apply (keyword_body_walk nested item name i k k0 j0 pre kw post done _ Hk Hshape).
      exact (Hgood pre kw post Hk).
    + intros u. eapply hoare_conseq.
      * apply (IH (pre ++ [kw])%list
                  (done ++ [(item, if nested then Some name else None, kw)])%list).
        now rewrite <- app_assoc.
      * intros st H. exact H.
      * intros a st. cbn beta. now rewrite <- app_assoc.
Qed.

Lemma keyword_loop_walk (nested : bool) item name i k k0 j0 done tail :
  0 <= j0 ->
  (if nested
   then Py.len (PyStr.split " or " item) <> 1 /\ In name (PyStr.split " or " item)
   else Py.len (PyStr.split " or " item) = 1) ->
  (forall pre kw post,
      kws = (pre ++ kw :: post)%list ->
      good i k (Py.len pre + 1)
           (map (fun kw => (item, if nested then Some name else None, kw)) post ++ tail)) ->
  hoare E (walked_at strict K base whole done
                     (Plan.keywords_from kws item (if nested then Some name else None) j0
                      ++ tail) k0 j0 item)
        (keyword_loop C nested kws item name i k)
        (fun _ => walked_at strict K base whole
                    (done ++ Plan.keywords_from kws item
                                                (if nested then Some name else None) j0)
                    tail k0 j0 item).
Proof.
  intros Hj Hshape Hgood. unfold keyword_loop.
  apply hoare_read_bind. intros j.
  intros st [-> H]. pose proof H as [(_ & _ & J & _) _]. rewrite J.
  destruct (range_drop kws j0 Hj) as (pre & Hk & ->).
  now apply (keyword_steps nested item name i k k0 j0 tail Hshape Hgood _ pre done Hk st).
Qed.

Lemma walked_at_keyword_index done todo k j j' item st :
  walked_at strict K base whole done todo k j item st ->
  walked_at strict K base whole done todo k j' item
            (mkState (set_keyword_index j' (self st)) (env st)).
Proof.
  intros [(W & Kn & J & T & D & F) P]. repeat split; auto.
  eapply K_files; eauto.
Qed.

Lemma walked_at_name_index done todo k k' j item st :
  walked_at strict K base whole done todo k j item st ->
  walked_at strict K base whole done todo k' j item
            (mkState (set_name_index k' (self st)) (env st)).
Proof.
  intros [(W & Kn & J & T & D & F) P]. repeat split; auto.
  eapply K_files; eauto.
Qed.

(** The name loop, from the name after [pre] on. *)
Lemma name_steps item i k0 tail :
  Py.len (PyStr.split " or " item) <> 1 ->
  (forall pre_n name post_n pre kw post,
      PyStr.split " or " item = (pre_n ++ name :: post_n)%list ->
      kws = (pre ++ kw :: post)%list ->
      good i (Py.len pre_n) (Py.len pre + 1)
           (map (fun kw => (item, Some name, kw)) post
            ++ flat_map (fun name => Plan.keywords_from kws item (Some name) 0) post_n
            ++ tail)) ->
  forall post pre done j0,
    0 <= j0 ->
    PyStr.split " or " item = (pre ++ post)%list ->
    hoare E (walked_at strict K base whole done
                       (Plan.names_from kws item post j0 ++ tail) k0 j0 item)
          (for_each (map (fun n => Py.len pre + Z.of_nat n) (seq 0 (List.length post)))
                    (name_body C kws (PyStr.split " or " item) item i))
          (fun _ => walked_at strict K base whole
                      (done ++ Plan.names_from kws item post j0) tail k0
                      (match post with [] => j0 | _ => 0 end) item).
Proof.
  intros Hlen Hgood. induction post as [|name post IH]; intros pre done j0 Hj Hn.
  - cbn. rewrite app_nil_r. intros st H. exact H.
  - rewrite steps_cons. cbn [for_each map].
    eapply hoare_bind with
      (Q := fun _ => walked_at strict K base whole
                       (done ++ Plan.keywords_from kws item (Some name) j0)
                       (Plan.names_from kws item post 0 ++ tail) k0 0 item).
    + unfold name_body.
      apply hoare_lift_ok with (a := name); [rewrite Hn at 1; apply index_middle|].
      eapply hoare_bind.
      * eapply hoare_pre;
          [|apply (keyword_loop_walk true item name i (Py.len pre) k0 j0 done
                     (Plan.names_from kws item post 0 ++ tail) Hj)].
        -- intros st H. cbn [Plan.names_from] in H.
           now rewrite <- app_assoc, <- names_from_zero in H.
        -- split; [exact Hlen|]. rewrite Hn. apply in_elt.
        -- intros pre' kw post' Hk. rewrite names_from_zero.
           exact (Hgood pre name post pre' kw post' Hn Hk).
      * intros u st H. exact (walked_at_keyword_index _ _ _ _ _ _ _ H).
    + intros u. eapply hoare_conseq.
      * apply (IH (pre ++ [name])%list
                  (done ++ Plan.keywords_from kws item (Some name) j0)%list 0);
          [lia | now rewrite <- app_assoc].
      * intros st H. exact H.
      * intros a st. cbn [Plan.names_from]. rewrite names_from_zero, <- app_assoc.
        now destruct post.
Qed.

Lemma ensure_entry_walk item entry done todo k j :
  Shape.entry_ok (item, entry) = true ->
  hoare E (walked strict K base whole done todo k j) (ensure_entry item entry)
        (fun _ => walked_at strict K base whole done todo k j item).
Proof.
  intros He st (W & Kn & J & T & D & F). unfold ensure_entry, bind, read, lift.
  destruct (all_results (self st)) as [| | | | |d] eqn:R; try discriminate.
  cbn [Py.contains Py.ok]. destruct (Py.mem item d) eqn:M; cbn.
  - repeat split; auto; rewrite R; auto.
  - repeat split; auto; cbn.
    + now apply forallb_dict_set.
    + eapply K_files; eauto.
    + apply mem_dict_set.
Qed.

(** The statements that end the body of the outer loop. *)
Lemma item_tail_walk done todo k j item :
  hoare E (walked_at strict K base whole done todo k j item)
        (reset_keyword_index C ;; assign (set_name_index 0))
        (fun _ => walked strict K base whole done todo 0 (if resets_indices C then 0 else j)).
Proof.
  intros st [(W & Kn & J & T & D & F) P]. unfold reset_keyword_index, bind, assign.
  destruct (resets_indices C); cbn; repeat split; auto; eapply K_files; eauto.
Qed.

Lemma single_name (names : list string) :
  Py.len names = 1 -> exists name, names = [name] /\ Py.index names 0 = inr name.
Proof.
  destruct names as [|name [|n2 names]]; unfold Py.len; cbn [List.length]; try lia.
  intros _. exists name. split; reflexivity.
Qed.

(** The body of the outer loop for the term after [pre]. *)
Lemma item_body_walk pre item post done k0 j0 :
  terms = (pre ++ item :: post)%list -> 0 <= k0 -> 0 <= j0 ->
  let next := Plan.next_keyword_index (resets_indices C) item k0 j0 in
  let tail := Plan.rows (resets_indices C) kws post 0 next in
  hoare E (walked strict K base whole done (Plan.row kws item k0 j0 ++ tail) k0 j0)
        (item_body C terms kws (Py.len pre))
        (fun _ => walked strict K base whole (done ++ Plan.row kws item k0 j0) tail 0 next).
Proof.
  intros Ht Hk Hj next tail. unfold item_body.
  apply hoare_lift_ok with (a := item); [rewrite Ht; apply index_middle|].
  unfold next, tail, Plan.row, Plan.next_keyword_index.
  destruct (Z.eqb_spec (Py.len (PyStr.split " or " item)) 1) as [Hlen|Hlen].
  - destruct (single_name _ Hlen) as (name & Hn & Hi).
    eapply hoare_bind with
      (Q := fun _ => walked_at strict K base whole
                       (done ++ Plan.keywords_from kws item None j0) tail k0
                       (if resets_indices C then 0 else j0) item).
    + eapply hoare_bind.
      * apply ensure_entry_walk. unfold Shape.entry_ok. cbn [fst snd]. now rewrite Hlen.
      * intros u. apply hoare_lift_ok with (a := name); [exact Hi|].
        eapply hoare_bind.
        -- apply (keyword_loop_walk false item name (Py.len pre) 0 k0 j0 done tail Hj Hlen).
           intros pre' kw post' Hkw.
           exact (good_flat pre item post pre' kw post' k0 j0 Ht Hlen Hkw).
        -- intros u' st H. unfold reset_keyword_index.
           destruct (resets_indices C);
             [exact (walked_at_keyword_index _ _ _ _ _ _ _ H) | exact H].
    + intros u. eapply hoare_conseq;
        [apply item_tail_walk | intros st H; exact H |].
      intros a st. cbn beta. unfold tail, next, Plan.next_keyword_index.
      destruct (Z.eqb_spec (Py.len (PyStr.split " or " item)) 1); [|contradiction].
      now destruct (resets_indices C).
  - eapply hoare_bind with
      (Q := fun _ => walked_at strict K base whole
                       (done ++ Plan.names_from kws item
                                                (drop k0 (PyStr.split " or " item)) j0)
                       tail
                       (if resets_indices C then 0 else k0)
                       (match drop k0 (PyStr.split " or " item) with
                        | [] => j0
                        | _ => 0
                        end) item).
    + eapply hoare_bind.
      * apply ensure_entry_walk. unfold Shape.entry_ok. cbn [fst snd].
        destruct (Z.eqb_spec (Py.len (PyStr.split " or " item)) 1); [contradiction|].
        apply empty_nested_entry_ok.
      * intros u. apply hoare_read_bind. intros k.
        intros st [-> H]. pose proof H as [(_ & Kn & _) _]. rewrite Kn.
        destruct (range_drop (PyStr.split " or " item) k0 Hk) as (pre' & Hn & ->).
        refine (hoare_bind E _ _ _ _ _ _ _ st H).
        -- apply (name_steps item (Py.len pre) k0 tail Hlen); [|exact Hj|exact Hn].
           intros pre_n name post_n pre'' kw post'' Hsplit Hkw.
           exact (good_nested pre item post pre_n name post_n pre'' kw post'' k0 j0
                              Ht Hlen Hsplit Hkw).
        -- intros u' st' H'. unfold reset_name_index.
           destruct (resets_indices C);
             [exact (walked_at_name_index _ _ _ _ _ _ _ H') | exact H'].
    + intros u. eapply hoare_conseq;
        [apply item_tail_walk | intros st H; exact H |].
      intros a st. cbn beta. unfold tail, next, Plan.next_keyword_index.
      destruct (Z.eqb_spec (Py.len (PyStr.split " or " item)) 1); [contradiction|].
      now destruct (resets_indices C).
Qed.

Lemma next_keyword_index_nonneg resets item k0 j0 :
  0 <= j0 -> 0 <= Plan.next_keyword_index resets item k0 j0.
Proof.
  intros H. unfold Plan.next_keyword_index.
  destruct resets; [lia|]. destruct (_ =? 1); [exact H|].
  destruct (drop k0 _); lia.
Qed.

(** The outer loop, from the term after [pre] on. *)
Lemma items_walk :
  forall post pre done k0 j0,
    0 <= k0 -> 0 <= j0 ->
    terms = (pre ++ post)%list ->
    hoare E (walked strict K base whole done
                    (Plan.rows (resets_indices C) kws post k0 j0) k0 j0)
          (for_each (map (fun n => Py.len pre + Z.of_nat n) (seq 0 (List.length post)))
                    (item_body C terms kws))
          (fun _ st => exists k j,
               walked strict K base whole
                      (done ++ Plan.rows (resets_indices C) kws post k0 j0) [] k j st).
Proof.
  induction post as [|item post IH]; intros pre done k0 j0 Hk Hj Ht.
  - cbn. rewrite app_nil_r. intros st H. exists k0, j0. exact H.
  - rewrite steps_cons. cbn [for_each map Plan.rows].
    eapply hoare_bind.
    + now apply (item_body_walk pre item post done k0 j0 Ht).
    + intros u. eapply hoare_conseq.
      * apply (IH (pre ++ [item])%list
                  (done ++ Plan.row kws item k0 j0)%list 0
                  (Plan.next_keyword_index (resets_indices C) item k0 j0));
          [lia | now apply next_keyword_index_nonneg | now rewrite <- app_assoc].
      * intros st H. exact H.
      * intros a st. cbn beta. now rewrite <- app_assoc.
Qed.

(** A whole run. *)
Lemma search_walk st :
  Shape.wf (all_results (self st)) = true ->
  0 <= item_index (self st) -> 0 <= name_index (self st) ->
  0 <= keyword_index (self st) ->
  Trace.cells (trace (env st)) = base ->
  Plan.cells (resets_indices C) terms kws (item_index (self st))
             (name_index (self st)) (keyword_index (self st)) = whole ->
  K whole st ->
  match search C terms kws st with
  | (Ret _, st') =>
      exists merged,
        Trace.cells (trace (env st')) = (base ++ merged)%list /\
        covered strict merged whole
  | (_, st') => E st'
  end.
Proof.
  intros W Hi Hk Hj Hb Hw HK. unfold search, bind at 1, read.
  destruct (range_drop terms (item_index (self st)) Hi) as (pre & Ht & ->).
  assert (H0 : walked strict K base whole []
                      (Plan.rows (resets_indices C) kws (drop (item_index (self st)) terms)
                                 (name_index (self st)) (keyword_index (self st)))
                      (name_index (self st)) (keyword_index (self st)) st).
  { unfold Plan.cells in Hw. rewrite Hw. repeat split; auto.
    exists []. split; [now rewrite app_nil_r | apply covered_nil]. }
  pose proof (items_walk _ pre [] _ _ Hk Hj Ht st H0) as H.
  unfold bind.
  destruct (for_each _ (item_body C terms kws) st) as [[[]|e|] st1]; auto.
  destruct H as (k & j & _ & _ & _ & (merged & T & V) & D & _).
  unfold Plan.cells in Hw. cbn [app] in V. rewrite Hw in V.
  unfold finish, bind, read, log_callback, emit, write_file, path_exists, remove_file.
  cbn [fst snd self env files set_files add_event trace].
  match goal with |- context [FS.exists_ ?a ?fs] => destruct (FS.exists_ a fs) end;
    cbn -[Plan.cells Trace.cells]; exists merged; (split; [|exact V]);
    rewrite !cells_app, T; cbn -[Plan.cells]; now rewrite !app_nil_r.
Qed.

End Walk.

(** A whole run, with nothing said of the files. *)
Lemma search_walk_plain (C : connector) (E : state -> Prop) (strict : bool)
      (base : list Plan.cell_id) :
  (forall nested item name kw, frames (cell C nested item name kw)) ->
  (forall nested item name kw st,
      match fst (cell C nested item name kw st) with
      | Ret _ => True
      | _ => E (snd (cell C nested item name kw st))
      end) ->
  (strict = true ->
   forall nested item name kw st, fst (cell C nested item name kw st) <> Ret None) ->
  forall terms kws st,
    Shape.wf (all_results (self st)) = true ->
    0 <= item_index (self st) -> 0 <= name_index (self st) ->
    0 <= keyword_index (self st) ->
    Trace.cells (trace (env st)) = base ->
    match search C terms kws st with
    | (Ret _, st') =>
        exists merged,
          Trace.cells (trace (env st')) = (base ++ merged)%list /\
          covered strict merged
                  (Plan.cells (resets_indices C) terms kws (item_index (self st))
                              (name_index (self st)) (keyword_index (self st)))
    | (_, st') => E st'
    end.
Proof.
  intros F Hf Hs terms kws st W Hi Hk Hj Hb.
  apply (search_walk C E strict (fun _ _ => True) (fun _ _ _ _ => True) terms kws base
           (Plan.cells (resets_indices C) terms kws (item_index (self st))
                       (name_index (self st)) (keyword_index (self st))) F);
    auto.
  all: intros; apply Hf.
Qed.

Section Coverage.

Variable net : network.
Variable cfg : config.
Variable fuel : nat.

(** The cells of a run that comes to its end on a connector that merges
    every cell it fetched. *)
Lemma run_plan b terms kws st :
  b <> PubMed ->
  Shape.wf (all_results (self st)) = true ->
  0 <= item_index (self st) -> 0 <= name_index (self st) ->
  0 <= keyword_index (self st) ->
  let r := search_of b net cfg fuel terms kws st in
  fst r = Ret tt ->
  Trace.cells (since st (snd r))
  = Plan.cells (resets_indices (connector_of b net cfg fuel)) terms kws
               (item_index (self st)) (name_index (self st)) (keyword_index (self st)).
Proof.
  intros Hb W Hi Hk Hj r Hr.
  pose proof (search_walk_plain (connector_of b net cfg fuel) (fun _ => True) true
                (Trace.cells (trace (env st)))
                (connector_cell_frames net cfg b fuel)) as H.
  specialize (H ltac:(intros nested item name kw st1;
                      destruct (fst (cell _ nested item name kw st1)); exact I)).
  specialize (H (fun _ nested item name kw st1 =>
                   cell_always_merged net cfg fuel b nested item name kw st1 Hb)).
  specialize (H terms kws st W Hi Hk Hj eq_refl).
  destruct (run_report_of net cfg fuel b terms kws st W) as (T & _).
  fold r in T. unfold search_of in r. fold r in H.
  destruct r as [[[]|e|] st']; try discriminate. cbn [fst snd] in *.
  destruct H as (merged & H & V). cbn in V. subst merged.
  rewrite T, cells_app in H. now apply app_inv_head in H.
Qed.

(** X1.  A fresh run covers the grid.  On IEEE, Springer and Scopus, a run of
    [search] that starts with the three indices at 0 and comes to its end
    has merged every cell (primary term, bias name, keyword) exactly once,
    in the order of the three nested loops. *)
Theorem fresh_run_covers_grid b terms kws st :
  b <> PubMed ->
  Shape.wf (all_results (self st)) = true ->
  item_index (self st) = 0 -> name_index (self st) = 0 -> keyword_index (self st) = 0 ->
  let r := search_of b net cfg fuel terms kws st in
  fst r = Ret tt ->
  Trace.cells (since st (snd r)) = Plan.grid terms kws.
Proof.
  intros Hb W Hi Hk Hj r Hr. unfold r.
  rewrite (run_plan b terms kws st Hb W) by (first [lia | exact Hr]).
  rewrite Hi, Hk, Hj. unfold Plan.cells. apply rows_zero.
Qed.

(** X2.  A resumed IEEE run covers what was left.  A run of the IEEE [search]
    that starts at term [i0], bias name [k0] and keyword [j0] (as
    [__init__] restores them from a checkpoint) and comes to its end has
    merged the rest of term [i0] (its names from [k0] on, the first of
    them from keyword [j0] on) and then every cell of every later term. *)
Theorem resumed_ieee_run_covers_rest terms kws st :
  Shape.wf (all_results (self st)) = true ->
  0 <= item_index (self st) -> 0 <= name_index (self st) ->
  0 <= keyword_index (self st) ->
  let r := search_of IEEE net cfg fuel terms kws st in
  fst r = Ret tt ->
  Trace.cells (since st (snd r))
  = match drop (item_index (self st)) terms with
    | [] => []
    | item :: later =>
        (Plan.row kws item (name_index (self st)) (keyword_index (self st))
         ++ Plan.grid later kws)%list
    end.
Proof.
  intros W Hi Hk Hj r Hr. unfold r.
  rewrite (run_plan IEEE terms kws st) by (first [discriminate | assumption]).
  unfold Plan.cells. cbn [connector_of IEEEAPI.connector resets_indices].
  apply rows_resets.
Qed.

Lemma rows_single kws items k0 j0 :
  forallb (fun item => Py.len (PyStr.split " or " item) =? 1) items = true ->
  Plan.rows false kws items k0 j0
  = flat_map (fun item => Plan.keywords_from kws item None j0) items.
Proof.
  revert k0. induction items as [|item items IH]; intros k0 H; [reflexivity|].
  cbn [forallb] in H. apply andb_prop in H as [H1 H].
  cbn [Plan.rows flat_map]. unfold Plan.row, Plan.next_keyword_index.
  rewrite H1. f_equal. now apply IH.
Qed.

(** X4.  The keyword index that is never set back.  A Springer or Scopus run
    that starts with [keyword_index = j0] over single-name terms and comes
    to its end has searched every term from keyword [j0] on only: the
    first [j0] keywords of every later term are passed over as well. *)
Theorem unreset_keyword_index_skips_keywords b terms kws st :
  b = Springer \/ b = Scopus ->
  Shape.wf (all_results (self st)) = true ->
  0 <= item_index (self st) -> 0 <= name_index (self st) ->
  0 <= keyword_index (self st) ->
  forallb (fun item => Py.len (PyStr.split " or " item) =? 1)
          (drop (item_index (self st)) terms) = true ->
  let r := search_of b net cfg fuel terms kws st in
  fst r = Ret tt ->
  Trace.cells (since st (snd r))
  = flat_map (fun item => Plan.keywords_from kws item None (keyword_index (self st)))
             (drop (item_index (self st)) terms).
Proof.
  intros Hb W Hi Hk Hj Hs r Hr. unfold r.
  rewrite (run_plan b terms kws st)
    by (first [assumption | destruct Hb as [->| ->]; discriminate]).
  unfold Plan.cells.
  replace (resets_indices (connector_of b net cfg fuel)) with false
    by (destruct Hb as [->| ->]; reflexivity).
  now apply rows_single.
Qed.


(** The cells of a run, however it stops: the loops went through the
    cells [done], a first part of those the run had to do, and merged them
    (some of them on PubMed); a run that does not return stopped in the
    pagination of the first of the cells left. *)
Lemma search_plan b terms kws st :
  Shape.wf (all_results (self st)) = true ->
  0 <= item_index (self st) -> 0 <= name_index (self st) ->
  0 <= keyword_index (self st) ->
  let r := search_of b net cfg fuel terms kws st in
  exists done todo,
    (done ++ todo)%list
    = Plan.cells (resets_indices (connector_of b net cfg fuel)) terms kws
                 (item_index (self st)) (name_index (self st)) (keyword_index (self st)) /\
    subseq (Trace.cells (since st (snd r))) done /\
    (b <> PubMed -> Trace.cells (since st (snd r)) = done) /\
    (fst r = Ret tt -> todo = []) /\
    (fst r <> Ret tt -> todo <> []).
Proof.
  intros W Hi Hk Hj r.
  set (strict := match b with PubMed => false | _ => true end).
  set (whole := Plan.cells (resets_indices (connector_of b net cfg fuel)) terms kws
                           (item_index (self st)) (name_index (self st))
                           (keyword_index (self st))).
  set (base := Trace.cells (trace (env st))).
  set (E := fun st' : state =>
              exists done c todo merged,
                Trace.cells (trace (env st')) = (base ++ merged)%list /\
                covered strict merged done /\ (done ++ c :: todo)%list = whole).
  pose proof (search_walk (connector_of b net cfg fuel) E strict
                (fun _ _ => True) (fun _ _ _ _ => True) terms kws base whole
                (connector_cell_frames net cfg b fuel)) as H.
  specialize (H ltac:(auto) ltac:(auto) ltac:(auto)).
  assert (Hf : forall (nested : bool) item name kw done todo k j st1,
             walked_at strict (fun _ _ => True) base whole done
                       ((item, if nested then Some name else None, kw) :: todo)
                       k j item st1 ->
             match fst (cell (connector_of b net cfg fuel) nested item name kw st1) with
             | Ret _ => True
             | _ => E (snd (cell (connector_of b net cfg fuel) nested item name kw st1))
             end).
  { intros nested item name kw done todo k j st1 [(_ & _ & _ & (merged & T & V) & D & _) _].
    pose proof (connector_cell_frames net cfg b fuel nested item name kw st1) as S.
    destruct S as [_ _ _ _ _ _ (evs & St & Sq)].
    assert (X : E (snd (cell (connector_of b net cfg fuel) nested item name kw st1))).
    { exists done, (item, if nested then Some name else None, kw), todo, merged.
      split; [|split; assumption].
      now rewrite St, cells_app, (cells_quiet _ Sq), app_nil_r. }
    destruct (fst (cell _ nested item name kw st1)); [exact I | exact X..]. }
  specialize (H Hf).
  assert (Hs : strict = true ->
               forall nested item name kw st1,
                 fst (cell (connector_of b net cfg fuel) nested item name kw st1)
                 <> Ret None).
  { intros S nested item name kw st1. apply cell_always_merged.
    intros ->. discriminate. }
  specialize (H Hs).
  specialize (H ltac:(intros; exact I)).
  specialize (H ltac:(intros; exact I)).
  specialize (H st W Hi Hk Hj eq_refl eq_refl I).
  destruct (run_report_of net cfg fuel b terms kws st W) as (T & _).
  fold r in T. unfold search_of in r. fold r in H.
  assert (X : exists done todo merged,
             Trace.cells (trace (env (snd r))) = (base ++ merged)%list /\
             covered strict merged done /\ (done ++ todo)%list = whole /\
             (fst r = Ret tt -> todo = []) /\ (fst r <> Ret tt -> todo <> [])).
  { destruct r as [[[]|e|] st']; cbn [fst snd] in *.
    - destruct H as (merged & Hc & V). exists whole, [], merged.
      rewrite app_nil_r. repeat split; auto.
    - destruct H as (done & c & todo & merged & Hc & V & D).
      exists done, (c :: todo), merged. repeat split; auto; discriminate.
    - destruct H as (done & c & todo & merged & Hc & V & D).
      exists done, (c :: todo), merged. repeat split; auto; discriminate. }
  destruct X as (done & todo & merged & Hc & V & D & R & N).
  rewrite T, cells_app in Hc. apply app_inv_head in Hc. rewrite Hc.
  exists done, todo. split; [exact D|]. split; [exact (covered_subseq _ _ _ V)|].
  split; [|split; [exact R | exact N]].
  intros Hb. unfold strict in V. destruct b; try exact V. contradiction.
Qed.

(** X19.  The cells merged follow the plan.  However a run of [search]
    stops, on any of the four connectors, the loops went through a first
    part [done] of the cells the run had to do, in their order, and the
    cells merged are cells of [done], in that order and each as often as
    it is there: all of them on IEEE, Springer and Scopus; on PubMed,
    which skips the cells without ids, some of them.  If [search] returned,
    [done] is all the run had to do. *)
Theorem merged_cells_follow_plan b terms kws st :
  Shape.wf (all_results (self st)) = true ->
  0 <= item_index (self st) -> 0 <= name_index (self st) ->
  0 <= keyword_index (self st) ->
  let r := search_of b net cfg fuel terms kws st in
  exists done todo,
    (done ++ todo)%list
    = Plan.cells (resets_indices (connector_of b net cfg fuel)) terms kws
                 (item_index (self st)) (name_index (self st)) (keyword_index (self st)) /\
    subseq (Trace.cells (since st (snd r))) done /\
    (b <> PubMed -> Trace.cells (since st (snd r)) = done) /\
    (fst r = Ret tt -> todo = []).
Proof.
  intros W Hi Hk Hj r.
  destruct (search_plan b terms kws st W Hi Hk Hj) as (done & todo & D & S & B & R & _).
  exists done, todo. auto.
Qed.

End Coverage.

(** [__init__] looks at the files only, and changes nothing outside the
    instance. *)
Lemma init_reads_files b s w s2 w2 :
  files w = files w2 ->
  fst (init_of b (mkState s w)) = fst (init_of b (mkState s2 w2)) /\
  self (snd (init_of b (mkState s w))) = self (snd (init_of b (mkState s2 w2))) /\
  env (snd (init_of b (mkState s w))) = w.
Proof.
  intros F.
  destruct b;
    unfold init_of, IEEEAPI.init, SpringerAPI.init, ScopusAPI.init, PubMedAPI.init,
      Checkpoint.init, Checkpoint.load_checkpoint, Checkpoint.load_checkpoint_restoring,
      bind, read_file, assign, lift, Checkpoint.as_int, ret, raise;
    cbn [env files self fst snd]; rewrite F;
    repeat match goal with
           | |- context [match ?x with _ => _ end] =>
               lazymatch x with
               | context [match _ with _ => _ end] => fail
               | _ => destruct x; cbn [env files self fst snd]
               end
           end; auto.
Qed.

Section DropFacts.

Context {A : Type}.

Lemma drop_app_len (pre post : list A) : drop (Py.len pre) (pre ++ post) = post.
Proof.
  unfold drop, Py.len. rewrite Nat2Z.id, skipn_app, Nat.sub_diag, skipn_all.
  reflexivity.
Qed.

Lemma drop_app_next (pre : list A) x post :
  drop (Py.len pre + 1) (pre ++ x :: post) = post.
Proof.
  replace (Py.len pre + 1) with (Py.len (pre ++ [x]))
    by (unfold Py.len; rewrite length_app; simpl; lia).
  replace (pre ++ x :: post)%list with ((pre ++ [x]) ++ post)%list
    by now rewrite <- app_assoc.
  apply drop_app_len.
Qed.

End DropFacts.

(** The cells left after the cell of the keyword after [pre], for a term
    with one name and for a name of a term with several. *)
Lemma cells_after_flat terms kws pre_t item post_t pre kw post :
  terms = (pre_t ++ item :: post_t)%list ->
  Py.len (PyStr.split " or " item) = 1 ->
  kws = (pre ++ kw :: post)%list ->
  Plan.cells true terms kws (Py.len pre_t) 0 (Py.len pre + 1)
  = (map (fun kw => (item, None, kw)) post ++ Plan.rows true kws post_t 0 0)%list.
Proof.
  intros Ht Hlen Hk. unfold Plan.cells. rewrite Ht, drop_app_len.
  cbn [Plan.rows]. unfold Plan.row, Plan.keywords_from, Plan.next_keyword_index.
  rewrite Hlen. cbn [Z.eqb Pos.eqb]. rewrite Hk at 1. rewrite drop_app_next.
  reflexivity.
Qed.

Lemma cells_after_nested terms kws pre_t item post_t pre_n name post_n pre kw post :
  terms = (pre_t ++ item :: post_t)%list ->
  Py.len (PyStr.split " or " item) <> 1 ->
  PyStr.split " or " item = (pre_n ++ name :: post_n)%list ->
  kws = (pre ++ kw :: post)%list ->
  Plan.cells true terms kws (Py.len pre_t) (Py.len pre_n) (Py.len pre + 1)
  = (map (fun kw => (item, Some name, kw)) post
     ++ flat_map (fun name => Plan.keywords_from kws item (Some name) 0) post_n
     ++ Plan.rows true kws post_t 0 0)%list.
Proof.
  intros Ht Hlen Hn Hk. unfold Plan.cells. rewrite Ht, drop_app_len.
  cbn [Plan.rows]. unfold Plan.row, Plan.next_keyword_index.
  destruct (Z.eqb_spec (Py.len (PyStr.split " or " item)) 1); [contradiction|].
  rewrite Hn, drop_app_len. cbn [Plan.names_from]. unfold Plan.keywords_from at 1.
  rewrite Hk at 1. rewrite drop_app_next, <- app_assoc. reflexivity.
Qed.

Section Resume.

Variable net : network.
Variable cfg : config.
Variable fuel : nat.

(** The checkpoint the IEEE connector writes after a cell is one a new
    instance starts from. *)
Lemma ieee_checkpoint_resumes terms kws i j k todo st :
  Shape.wf (all_results (self st)) = true ->
  0 <= i -> 0 <= k -> 0 <= j ->
  Plan.cells true terms kws i k j = todo ->
  ieee_resumes_with terms kws todo
                    (snd (checkpoint (connector_of IEEE net cfg fuel) i j k st)).
Proof.
  intros W Hi Hk Hj Hp s w F.
  unfold init_of, IEEEAPI.init, Checkpoint.init, Checkpoint.load_checkpoint,
    bind, read_file, assign.
  cbn [env files self]. rewrite F.
  unfold checkpoint, Checkpoint.save_checkpoint, bind, read, lift, emit, write_file.
  cbn [env files self snd fst connector_of checkpoint_file index_key IEEEAPI.connector].
  cbn -[Plan.cells Shape.wf]. rewrite read_written.
  cbn -[Plan.cells Shape.wf]. auto 10.
Qed.

(** An interrupted run leaves files a new instance resumes from. *)
Lemma ieee_search_resumes terms kws st :
  Shape.wf (all_results (self st)) = true ->
  0 <= item_index (self st) -> 0 <= name_index (self st) ->
  0 <= keyword_index (self st) ->
  ieee_resumes_with terms kws
                    (Plan.cells true terms kws (item_index (self st))
                                (name_index (self st)) (keyword_index (self st))) st ->
  let r := search_of IEEE net cfg fuel terms kws st in
  match fst r with
  | Ret _ => True
  | _ => exists done todo,
           Trace.cells (since st (snd r)) = done /\
           (done ++ todo)%list
           = Plan.cells true terms kws (item_index (self st))
                        (name_index (self st)) (keyword_index (self st)) /\
           ieee_resumes_with terms kws todo (snd r)
  end.
Proof.
  intros W Hi Hk Hj HK r.
  set (whole := Plan.cells true terms kws (item_index (self st))
                           (name_index (self st)) (keyword_index (self st))) in *.
  pose proof (search_walk (connector_of IEEE net cfg fuel)
                (fun st' => exists done todo,
                     Trace.cells (trace (env st'))
                     = (Trace.cells (trace (env st)) ++ done)%list /\
                     (done ++ todo)%list = whole /\
                     ieee_resumes_with terms kws todo st')
                true (ieee_resumes_with terms kws)
                (fun i k j todo =>
                   0 <= i /\ 0 <= k /\ 0 <= j /\ Plan.cells true terms kws i k j = todo)
                terms kws (Trace.cells (trace (env st))) whole
                (connector_cell_frames net cfg IEEE fuel)) as H.
  assert (Kf : forall todo st1 st2,
             ieee_resumes_with terms kws todo st1 ->
             files (env st2) = files (env st1) ->
             ieee_resumes_with terms kws todo st2).
  { intros todo st1 st2 H1 F s w Fw. apply H1. now rewrite Fw. }
  specialize (H Kf).
  specialize (H ltac:(intros c todo i j k st1 _ (Gi & Gk & Gj & Gp) W1;
                      now apply ieee_checkpoint_resumes)).
  specialize (H ltac:(discriminate)).
  assert (Hf : forall (nested : bool) item name kw done todo k j st1,
             walked_at true (ieee_resumes_with terms kws)
                       (Trace.cells (trace (env st))) whole done
                       ((item, if nested then Some name else None, kw) :: todo)
                       k j item st1 ->
             match fst (cell (connector_of IEEE net cfg fuel) nested item name kw st1) with
             | Ret _ => True
             | _ => exists done todo,
                      Trace.cells
                        (trace (env (snd (cell (connector_of IEEE net cfg fuel)
                                               nested item name kw st1))))
                      = (Trace.cells (trace (env st)) ++ done)%list /\
                      (done ++ todo)%list = whole /\
                      ieee_resumes_with terms kws todo
                        (snd (cell (connector_of IEEE net cfg fuel)
                                   nested item name kw st1))
             end).
  { intros nested item name kw done todo k j st1
           [(_ & _ & _ & (merged & T & V) & D & F) _].
    cbn in V. subst merged.
    pose proof (connector_cell_frames net cfg IEEE fuel nested item name kw st1) as S.
    destruct S as [_ _ _ _ _ Sf (evs & St & Sq)].
    assert (X : exists done todo,
               Trace.cells
                 (trace (env (snd (cell (connector_of IEEE net cfg fuel)
                                        nested item name kw st1))))
               = (Trace.cells (trace (env st)) ++ done)%list /\
               (done ++ todo)%list = whole /\
               ieee_resumes_with terms kws todo
                 (snd (cell (connector_of IEEE net cfg fuel) nested item name kw st1))).
    { exists done, ((item, if nested then Some name else None, kw) :: todo).
      split; [|split; [exact D|]].
      - now rewrite St, cells_app, (cells_quiet _ Sq), app_nil_r.
      - now apply (Kf _ st1). }
    destruct (fst (cell _ nested item name kw st1)); [exact I | exact X..]. }
  specialize (H Hf).
  specialize (H (fun _ nested item name kw st1 =>
                   cell_always_merged net cfg fuel IEEE nested item name kw st1
                                      ltac:(discriminate))).
  specialize (H ltac:(intros pre_t item post_t pre kw post k0 j0 Ht Hl Hkw;
                      repeat split; try (unfold Py.len; lia);
                      now apply (cells_after_flat terms kws pre_t item post_t pre kw post))).
  specialize (H ltac:(intros pre_t item post_t pre_n name post_n pre kw post k0 j0
                             Ht Hl Hn Hkw;
                      repeat split; try (unfold Py.len; lia);
                      now apply (cells_after_nested terms kws pre_t item post_t
                                                    pre_n name post_n pre kw post))).
  specialize (H st W Hi Hk Hj eq_refl eq_refl HK).
  destruct (run_report_of net cfg fuel IEEE terms kws st W) as (T & _).
  fold r in T. unfold search_of in r. fold r in H.
  destruct r as [[[]|e|] st']; cbn [fst snd] in *; [exact I|..];
    destruct H as (done & todo & Hc & Hd & Hr); exists done, todo;
    (split; [|split; assumption]);
    rewrite T, cells_app in Hc; now apply app_inv_head in Hc.
Qed.

(** The files [__init__] read are those a new instance resumes from. *)
Lemma ieee_init_resumes terms kws st0 :
  let st := snd (init_of IEEE st0) in
  fst (init_of IEEE st0) = Ret tt ->
  Shape.wf (all_results (self st)) = true ->
  0 <= item_index (self st) -> 0 <= name_index (self st) ->
  0 <= keyword_index (self st) ->
  ieee_resumes_with terms kws
                    (Plan.cells true terms kws (item_index (self st))
                                (name_index (self st)) (keyword_index (self st))) st.
Proof.
  intros st R W Hi Hk Hj s w F. unfold st in *. destruct st0 as [s0 w0].
  destruct (init_reads_files IEEE s0 w0 s w) as (E1 & E2 & E3).
  { rewrite F. destruct (init_reads_files IEEE s0 w0 s0 w0 eq_refl) as (_ & _ & ->).
    reflexivity. }
  cbv zeta. rewrite <- E1, <- E2. auto 10.
Qed.

(** X3.  An interrupted IEEE run is taken up where it stopped.  When [search]
    on a new instance fails or stops, and a second instance is made on the
    files it left and its [search] comes to its end (on any network), the
    cells the two runs merged, one after the other, are the cells the
    first run had to do: none is merged twice and none is left out. *)
Theorem interrupted_ieee_run_resumes terms kws st0 s net' cfg' fuel' :
  let st := snd (init_of IEEE st0) in
  fst (init_of IEEE st0) = Ret tt ->
  Shape.wf (all_results (self st)) = true ->
  0 <= item_index (self st) -> 0 <= name_index (self st) ->
  0 <= keyword_index (self st) ->
  let r := search_of IEEE net cfg fuel terms kws st in
  fst r <> Ret tt ->
  let st2 := snd (init_of IEEE (mkState s (env (snd r)))) in
  let r2 := search_of IEEE net' cfg' fuel' terms kws st2 in
  fst (init_of IEEE (mkState s (env (snd r)))) = Ret tt /\
  (fst r2 = Ret tt ->
   (Trace.cells (since st (snd r)) ++ Trace.cells (since st2 (snd r2)))%list
   = Plan.cells true terms kws (item_index (self st)) (name_index (self st))
                (keyword_index (self st))).
Proof.
  intros st R W Hi Hk Hj r Hr st2 r2.
  pose proof (ieee_search_resumes terms kws st W Hi Hk Hj
                (ieee_init_resumes terms kws st0 R W Hi Hk Hj)) as H.
  fold r in H.
  assert (X : exists done todo,
             Trace.cells (since st (snd r)) = done /\
             (done ++ todo)%list
             = Plan.cells true terms kws (item_index (self st))
                          (name_index (self st)) (keyword_index (self st)) /\
             ieee_resumes_with terms kws todo (snd r)).
  { cbv zeta in H. revert Hr H.
    destruct (fst r) as [[]| |]; intros Hr H; [now contradiction Hr | exact H..]. }
  destruct X as (done & todo & Hc & Hd & HK).
  destruct (HK s (env (snd r)) eq_refl) as (R2 & W2 & Hi2 & Hk2 & Hj2 & Hp).
  split; [exact R2|]. intros E2.
  unfold r2. rewrite (run_plan net' cfg' fuel' IEEE terms kws st2)
    by (first [discriminate | assumption]).
  cbn [connector_of IEEEAPI.connector resets_indices].
  unfold st2. rewrite Hp, Hc. exact Hd.
Qed.

End Resume.

Lemma init_without_file b s w :
  FS.exists_ (checkpoint_file (connector_of b (fun _ _ => NoResponse)
                                            (mkConfig EmptyString EmptyString 0) 0))
             (files w) = false ->
  init_of b (mkState s w) = (Ret tt, mkState Checkpoint.fresh w).
Proof.
  unfold FS.exists_, Py.mem. intros H.
  destruct b;
    unfold init_of, IEEEAPI.init, SpringerAPI.init, ScopusAPI.init, PubMedAPI.init,
      Checkpoint.init, Checkpoint.load_checkpoint, Checkpoint.load_checkpoint_restoring,
      bind, read_file, assign, FS.read;
    cbn [env files self fst snd connector_of checkpoint_file IEEEAPI.connector
         SpringerAPI.connector ScopusAPI.connector PubMedAPI.connector] in *;
    match goal with
    | |- context [Py.lookup ?f ?fs] => destruct (Py.lookup f fs); [discriminate|]
    end; reflexivity.
Qed.

Section StartOver.

Variable net : network.
Variable cfg : config.
Variable fuel : nat.

(** X6.  A run that came to its end is not resumed.  After a [search] that
    returned, on any of the four connectors, a new instance finds no
    checkpoint: it starts with empty results, a count of 0, the three
    indices at 0 and the request counter and log cleared, whatever the run
    had reached. *)
Theorem completed_run_starts_over b terms kws st s :
  Shape.wf (all_results (self st)) = true ->
  let r := search_of b net cfg fuel terms kws st in
  fst r = Ret tt ->
  init_of b (mkState s (env (snd r))) = (Ret tt, mkState Checkpoint.fresh (env (snd r))).
Proof.
  intros W r R.
  destruct (run_report_of net cfg fuel b terms kws st W) as (_ & _ & _ & _ & H).
  fold r in H. rewrite R in H. destruct H as [H _].
  apply init_without_file. destruct b; exact H.
Qed.

End StartOver.

(** X8.  A merge touches its own cell only.  After [merge_flat] the cell holds
    the records given, and every path of [all_results] that parts from the
    cell and from the total of its term reads as before; after
    [merge_nested] likewise, for the paths that part from the cell, from
    the total of its bias name and from the total of its term. *)
Theorem merge_keeps_other_cells item kw recs :
  (forall st st',
      merge_flat item kw recs st = (Ret tt, st') ->
      Results.get_path [item; "Records"; kw] (all_results (self st')) = inr (JArr recs) /\
      forall q,
        diverge q [item; "Records"; kw] = true ->
        diverge q [item; "Total records"] = true ->
        Results.get_path q (all_results (self st'))
        = Results.get_path q (all_results (self st)))
  /\
  (forall name st st',
      merge_nested item name kw recs st = (Ret tt, st') ->
      Results.get_path [item; "Records"; name; "Records"; kw] (all_results (self st'))
      = inr (JArr recs) /\
      forall q,
        diverge q [item; "Records"; name; "Records"; kw] = true ->
        diverge q [item; "Records"; name; "Total records"] = true ->
        diverge q [item; "Total records"] = true ->
        Results.get_path q (all_results (self st'))
        = Results.get_path q (all_results (self st))).
Proof.
  split; [intros st st' H | intros name st st' H].
  - split; [exact (proj1 (merge_flat_stores item kw recs st st' H))|].
    revert H. unfold merge_flat, on_results, add_total, bind, read, lift, assign, emit.
    cbn [self env all_results set_all_results].
    destruct (Results.set_path [item; "Records"] kw (JArr recs) (all_results (self st)))
      as [e|r1] eqn:E1; cbn; [discriminate|].
    destruct (Results.add_path [item] "Total records" (Py.len recs) r1)
      as [e|r2] eqn:E2; cbn; [discriminate|].
    intros H q D1 D2. inversion H. cbn.
    destruct (add_path_sets _ _ _ _ _ E2) as (new & S2).
    rewrite (get_set_path_other _ _ _ _ _ q S2 D2).
    exact (get_set_path_other _ _ _ _ _ q E1 D1).
  - split; [exact (proj1 (merge_nested_stores item name kw recs st st' H))|].
    revert H. unfold merge_nested, on_results, add_total, bind, read, lift, assign, emit.
    cbn [self env all_results set_all_results].
    destruct (Results.set_path [item; "Records"; name; "Records"] kw (JArr recs)
                               (all_results (self st))) as [e|r1] eqn:E1; cbn;
      [discriminate|].
    destruct (Results.add_path [item; "Records"; name] "Total records" (Py.len recs) r1)
      as [e|r2] eqn:E2; cbn; [discriminate|].
    destruct (Results.add_path [item] "Total records" (Py.len recs) r2)
      as [e|r3] eqn:E3; cbn; [discriminate|].
    intros H q D1 D2 D3. inversion H. cbn.
    destruct (add_path_sets _ _ _ _ _ E2) as (new2 & S2).
    destruct (add_path_sets _ _ _ _ _ E3) as (new3 & S3).
    rewrite (get_set_path_other _ _ _ _ _ q S3 D3).
    rewrite (get_set_path_other _ _ _ _ _ q S2 D2).
    exact (get_set_path_other _ _ _ _ _ q E1 D1).
Qed.

Section OtherFiles.

Variable net : network.
Variable cfg : config.
Variable fuel : nat.

(** X20.  [search] touches two files only.  However a run of [search]
    stops, on any of the four connectors, every file other than the
    checkpoint file and the results file of the connector reads as it did
    when the run started (so a connector never disturbs the checkpoint or
    the results of another). *)
Theorem search_touches_its_files_only b terms kws st f :
  f <> checkpoint_file (connector_of b net cfg fuel) ->
  f <> results_file (connector_of b net cfg fuel) ->
  FS.read f (files (env (snd (search_of b net cfg fuel terms kws st))))
  = FS.read f (files (env st)).
Proof.
  intros Hc Hr.
  set (C := connector_of b net cfg fuel) in *.
  set (I := fun st' : state => FS.read f (files (env st')) = FS.read f (files (env st))).
  assert (H : through I I (search C terms kws)).
  { apply search_through with (changed := [checkpoint_file C; results_file C]).
    - intros st1 st2 [_ Hf] H. unfold I in *. rewrite <- H. apply Hf.
      intros [Hin|[Hin|[]]]; congruence.
    - auto.
    - now left.
    - intros nested item name kw. apply hoare_frames.
      + apply connector_cell_frames.
      + intros st1 st2 H S. unfold I in *. now rewrite (cs_files _ _ S).
      + auto.
    - right. now left. }
  specialize (H st eq_refl). unfold search_of. fold C.
  destruct (search C terms kws st) as [[[]|e|] st']; exact H.
Qed.

End OtherFiles.

Section LastMerge.

Lemma cell_eqb_eq c c' : cell_eqb c c' = true <-> c = c'.
Proof.
  destruct c as [[i n] k], c' as [[i' n'] k']. unfold cell_eqb. split.
  - intros H. apply andb_prop in H as [H Hk]. apply andb_prop in H as [Hi Hn].
    apply String.eqb_eq in Hi, Hk. subst.
    destruct n as [a|], n' as [a'|]; try discriminate; [|reflexivity].
    apply String.eqb_eq in Hn. now subst.
  - intros H. inversion H; subst. rewrite !String.eqb_refl.
    destruct n'; [now rewrite String.eqb_refl | reflexivity].
Qed.

Lemma cell_eqb_refl c : cell_eqb c c = true.
Proof. now apply cell_eqb_eq. Qed.

Lemma cell_eqb_neq c c' : c <> c' -> cell_eqb c c' = false.
Proof.
  intros N. destruct (cell_eqb c c') eqn:E; [|reflexivity].
  apply cell_eqb_eq in E. contradiction.
Qed.

Lemma last_merge_app c a : forall b,
  last_merge c (a ++ b)
  = match last_merge c b with Some recs => Some recs | None => last_merge c a end.
Proof.
  induction a as [|e a IH]; intros b; cbn [app last_merge].
  - now destruct (last_merge c b).
  - rewrite IH. destruct (last_merge c b); [reflexivity|].
    reflexivity.
Qed.

Lemma last_merge_none c evs : Trace.cells evs = [] -> last_merge c evs = None.
Proof.
  induction evs as [|e evs IH]; [reflexivity|]. cbn [last_merge].
  unfold Trace.cells. cbn [flat_map]. intros H.
  apply app_eq_nil in H as [He H]. rewrite (IH H).
  destruct e; try reflexivity. discriminate.
Qed.

Lemma last_merge_cells c evs recs :
  last_merge c evs = Some recs -> In c (Trace.cells evs).
Proof.
  induction evs as [|e evs IH]; [discriminate|]. cbn [last_merge].
  unfold Trace.cells. cbn [flat_map]. intros H. apply in_or_app.
  destruct (last_merge c evs) as [x|]; [right; now apply IH|].
  destruct e as [| | | |item name keyword records| | |]; try discriminate.
  destruct (cell_eqb (item, name, keyword) c) eqn:Ec; [|discriminate].
  apply cell_eqb_eq in Ec. left. now left.
Qed.

Lemma cells_last_merge c evs :
  In c (Trace.cells evs) -> exists recs, last_merge c evs = Some recs.
Proof.
  induction evs as [|e evs IH]; [intros []|].
  unfold Trace.cells. cbn [flat_map last_merge]. intros H.
  apply in_app_or in H.
  destruct (last_merge c evs) as [x|] eqn:L; [eauto|].
  destruct H as [H|H]; [|destruct (IH H); discriminate].
  destruct e; try contradiction. destruct H as [<-|[]].
  rewrite cell_eqb_refl. eauto.
Qed.

Lemma stored_tail e evs r : stored (e :: evs) r -> stored evs r.
Proof.
  intros H c recs L. apply H. cbn [last_merge]. now rewrite L.
Qed.

(** The lengths of the cells merged, none of them twice, are the lengths
    of these cells in the results that hold them. *)
Lemma merged_records_stored r evs :
  NoDup (Trace.cells evs) -> stored evs r ->
  Trace.merged_records evs = cells_length r (Trace.cells evs).
Proof.
  induction evs as [|e evs IH]; [reflexivity|].
  intros N S. pose proof (stored_tail _ _ _ S) as S'.
  destruct e as [| | | |item name keyword records| | |];
    cbn [Trace.merged_records fold_right] in *; try (now apply IH).
  change (Trace.cells (Merge item name keyword records :: evs))
    with ((item, name, keyword) :: Trace.cells evs) in *.
  inversion N as [|c cs Hnot N']; subst.
  cbn [cells_length fold_right]. fold (cells_length r (Trace.cells evs)).
  change (fold_right
            (fun e acc => match e with Merge _ _ _ c => Py.len c + acc | _ => acc end)
            0 evs) with (Trace.merged_records evs).
  rewrite (IH N' S'). f_equal.
  unfold cell_length. rewrite (S (item, name, keyword) records); [reflexivity|].
  cbn [last_merge].
  destruct (last_merge (item, name, keyword) evs) as [x|] eqn:L.
  - apply last_merge_cells in L. contradiction.
  - now rewrite cell_eqb_refl.
Qed.

(** The paths of two cells, and the paths a merge of one writes. *)
Lemma paths_part c c0 :
  shaped c -> shaped c0 -> c <> c0 ->
  forallb (diverge (cell_path c)) (written_paths c0) = true.
Proof.
  destruct c as [[i n] k], c0 as [[i0 n0] k0]. unfold shaped. cbn [fst snd].
  intros S S0 N.
  destruct (String.eqb_spec i i0) as [->|Ni].
  - assert (Hn : n = None <-> n0 = None) by (rewrite S, S0; tauto).
    destruct n as [a|], n0 as [a0|];
      try (exfalso; destruct Hn as [H1 H2];
           first [now specialize (H1 eq_refl) | now specialize (H2 eq_refl)]).
    + cbn [cell_path written_paths forallb diverge]. rewrite !String.eqb_refl.
      cbn [String.eqb Ascii.eqb Bool.eqb andb].
      destruct (String.eqb_spec a a0) as [->|Na]; [|reflexivity].
      rewrite ?String.eqb_refl. cbn.
      destruct (String.eqb_spec k k0) as [->|Nk]; [now contradiction N | reflexivity].
    + cbn [cell_path written_paths forallb diverge]. rewrite !String.eqb_refl.
      cbn [String.eqb Ascii.eqb Bool.eqb andb].
      destruct (String.eqb_spec k k0) as [->|Nk]; [now contradiction N | reflexivity].
  - destruct n, n0; cbn [cell_path written_paths forallb diverge];
      destruct (String.eqb_spec i i0); try contradiction; reflexivity.
Qed.

End LastMerge.

(** What a merge that returns has done to the results. *)
Lemma merge_flat_to item kw recs st st' :
  merge_flat item kw recs st = (Ret tt, st') ->
  merged_to (item, None, kw) recs (all_results (self st)) (all_results (self st')) /\
  trace (env st') = (trace (env st) ++ [Merge item None kw recs])%list.
Proof.
  intros H. split; [split|]; try apply (merge_flat_stores item kw recs st st' H).
  revert H. unfold merge_flat, on_results, add_total, bind, read, lift, assign, emit.
  cbn [self env all_results set_all_results].
  destruct (Results.set_path [item; "Records"] kw (JArr recs) (all_results (self st)))
    as [e|r1] eqn:E1; cbn; [discriminate|].
  destruct (Results.add_path [item] "Total records" (Py.len recs) r1)
    as [e|r2] eqn:E2; cbn; [discriminate|].
  intros H q D. inversion H. cbn.
  cbn [written_paths forallb] in D.
  apply andb_prop in D as [D1 D]. apply andb_prop in D as [D2 _].
  destruct (add_path_sets _ _ _ _ _ E2) as (new & S2).
  rewrite (get_set_path_other _ _ _ _ _ q S2 D2).
  exact (get_set_path_other _ _ _ _ _ q E1 D1).
Qed.

Lemma merge_nested_to item name kw recs st st' :
  merge_nested item name kw recs st = (Ret tt, st') ->
  merged_to (item, Some name, kw) recs (all_results (self st)) (all_results (self st')) /\
  trace (env st') = (trace (env st) ++ [Merge item (Some name) kw recs])%list.
Proof.
  intros H. split; [split|]; try apply (merge_nested_stores item name kw recs st st' H).
  revert H. unfold merge_nested, on_results, add_total, bind, read, lift, assign, emit.
  cbn [self env all_results set_all_results].
  destruct (Results.set_path [item; "Records"; name; "Records"] kw (JArr recs)
                             (all_results (self st))) as [e|r1] eqn:E1; cbn;
    [discriminate|].
  destruct (Results.add_path [item; "Records"; name] "Total records" (Py.len recs) r1)
    as [e|r2] eqn:E2; cbn; [discriminate|].
  destruct (Results.add_path [item] "Total records" (Py.len recs) r2)
    as [e|r3] eqn:E3; cbn; [discriminate|].
  intros H q D. inversion H. cbn.
  cbn [written_paths forallb] in D.
  apply andb_prop in D as [D1 D]. apply andb_prop in D as [D2 D].
  apply andb_prop in D as [D3 _].
  destruct (add_path_sets _ _ _ _ _ E2) as (new2 & S2).
  destruct (add_path_sets _ _ _ _ _ E3) as (new3 & S3).
  rewrite (get_set_path_other _ _ _ _ _ q S3 D3).
  rewrite (get_set_path_other _ _ _ _ _ q S2 D2).
  exact (get_set_path_other _ _ _ _ _ q E1 D1).
Qed.

Section Filed.

Variable C : connector.
Variable st0 : state.
Hypothesis cell_frames : forall nested item name kw, frames (cell C nested item name kw).

Lemma filed_start : Shape.wf (all_results (self st0)) = true -> filed st0 st0.
Proof.
  intros W. split; [exact W|]. exists []. split; [now rewrite app_nil_r|].
  split; [intros c []|]. intros c recs H. discriminate.
Qed.

(** Events that merge nothing. *)
Lemma filed_events st st' evs :
  filed st0 st ->
  all_results (self st') = all_results (self st) ->
  trace (env st') = (trace (env st) ++ evs)%list ->
  Trace.cells evs = [] ->
  filed st0 st'.
Proof.
  intros [W (new & T & Sh & S)] R Tr Q. split; [now rewrite R|].
  exists (new ++ evs)%list. split; [now rewrite Tr, T, app_assoc|]. split.
  - intros c H. rewrite cells_app, Q, app_nil_r in H. auto.
  - intros c recs H. rewrite last_merge_app, (last_merge_none c evs Q) in H.
    rewrite R. auto.
Qed.

Lemma filed_cell_step st st' : filed st0 st -> cell_step st st' -> filed st0 st'.
Proof.
  intros H [a _ _ _ _ _ (evs & g & q)].
  apply (filed_events st st' evs H a g). now apply cells_quiet.
Qed.

Lemma filed_at_cell_step item st st' :
  filed_at st0 item st -> cell_step st st' -> filed_at st0 item st'.
Proof.
  intros [L P] S. split; [eapply filed_cell_step; eauto|].
  now rewrite (cs_results _ _ S).
Qed.

(** Assignments to the indices. *)
Lemma filed_assign_index (f : instance -> instance) item :
  (forall s, all_results (f s) = all_results s) ->
  hoare (filed st0) (filed_at st0 item) (assign f) (fun _ => filed_at st0 item).
Proof.
  intros Hf st [H P]. cbn. split; [|cbn; now rewrite Hf].
  apply (filed_events st _ [] H); cbn; [apply Hf | now rewrite app_nil_r | reflexivity].
Qed.

(** After a merge and its checkpoint the results hold the cell merged and
    all those they held. *)
Lemma filed_after_merge item c recs st st1 st2 doc :
  filed_at st0 item st -> shaped c ->
  merged_to c recs (all_results (self st)) (all_results (self st1)) ->
  trace (env st1)
  = (trace (env st) ++ [Merge (fst (fst c)) (snd (fst c)) (snd c) recs])%list ->
  Shape.wf (all_results (self st1)) = true ->
  present item (all_results (self st1)) = true ->
  all_results (self st2) = all_results (self st1) ->
  trace (env st2) = (trace (env st1) ++ [SaveCheckpoint doc])%list ->
  filed_at st0 item st2.
Proof.
  intros [[W (new & T & Sh & S)] P] Hc [Hs Ho] T1 W1 P1 R2 T2.
  split; [split|]; [now rewrite R2| |now rewrite R2].
  exists (new ++ [Merge (fst (fst c)) (snd (fst c)) (snd c) recs; SaveCheckpoint doc])%list.
  split; [rewrite T2, T1, T, <- !app_assoc; reflexivity|].
  destruct c as [[i n] k]. cbn [fst snd] in *. split.
  - intros c H. rewrite cells_app in H. apply in_app_or in H as [H|H]; [auto|].
    cbn in H. destruct H as [<-|[]]. exact Hc.
  - intros c recs' H. rewrite R2. rewrite last_merge_app in H. cbn [last_merge] in H.
    destruct (cell_eqb (i, n, k) c) eqn:Ec.
    + apply cell_eqb_eq in Ec. subst c. inversion H; subst. exact Hs.
    + rewrite Ho; [now apply S|].
      apply paths_part; [|exact Hc|].
      * apply Sh. eapply last_merge_cells; eauto.
      * intros ->. now rewrite cell_eqb_refl in Ec.
Qed.

Lemma merge_flat_filed item kw recs i j k st :
  filed_at st0 item st -> Py.len (PyStr.split " or " item) = 1 ->
  exists st', (merge_flat item kw recs ;; checkpoint C i j k) st = (Ret tt, st') /\
              filed_at st0 item st'.
Proof.
  intros H Hlen. pose proof H as [[W _] P].
  destruct (merge_flat_run item kw recs st W P Hlen) as (r & Hrun & Wr & Pr).
  destruct (merge_flat_to item kw recs st _ Hrun) as (M & T1).
  rewrite (bind_run _ _ _ _ _ Hrun).
  match goal with |- context [checkpoint C i j k ?s] =>
    destruct (checkpoint_run C i j k s) as (doc & -> & _) end.
  eexists. split; [reflexivity|].
  eapply (filed_after_merge item (item, None, kw) recs st); eauto.
  - unfold shaped. cbn. tauto.
  - reflexivity.
Qed.

Lemma merge_nested_filed item name kw recs i j k st :
  filed_at st0 item st -> Py.len (PyStr.split " or " item) <> 1 ->
  In name (PyStr.split " or " item) ->
  exists st', (merge_nested item name kw recs ;; checkpoint C i j k) st = (Ret tt, st') /\
              filed_at st0 item st'.
Proof.
  intros H Hlen Hin. pose proof H as [[W _] P].
  destruct (merge_nested_run item name kw recs st W P Hlen Hin) as (r & Hrun & Wr & Pr).
  destruct (merge_nested_to item name kw recs st _ Hrun) as (M & T1).
  rewrite (bind_run _ _ _ _ _ Hrun).
  match goal with |- context [checkpoint C i j k ?s] =>
    destruct (checkpoint_run C i j k s) as (doc & -> & _) end.
  eexists. split; [reflexivity|].
  eapply (filed_after_merge item (item, Some name, kw) recs st); eauto.
  - unfold shaped. cbn. split; [discriminate | contradiction].
  - reflexivity.
Qed.

(** A new entry hides no cell. *)
Lemma ensure_entry_filed item entry :
  Shape.entry_ok (item, entry) = true ->
  hoare (filed st0) (filed st0) (ensure_entry item entry) (fun _ => filed_at st0 item).
Proof.
  intros He st [W N]. unfold ensure_entry, bind, read, lift. simpl.
  destruct (all_results (self st)) as [| | | | |d] eqn:R; try discriminate.
  simpl. destruct (Py.mem item d) eqn:M; simpl.
  - split; [split|]; rewrite ?R; auto.
  - split; [split|]; simpl.
    + now apply forallb_dict_set.
    + destruct N as (new & T & Sh & S). exists new. split; [exact T|].
      split; [exact Sh|]. intros c recs H. specialize (S c recs H).
      destruct c as [[i n] k].
      assert (Hi : Py.lookup i (Py.dict_set item entry d) = Py.lookup i d).
      { apply lookup_dict_set_neq. intros ->.
        unfold Py.mem in M.
        destruct n; cbn [cell_path Results.get_path Py.getitem Py.rbind] in S;
          destruct (Py.lookup item d); discriminate. }
      destruct n; cbn [cell_path Results.get_path Py.getitem Py.rbind] in *;
        now rewrite Hi.
    + apply mem_dict_set.
Qed.

Lemma filed_at_filed item st : filed_at st0 item st -> filed st0 st.
Proof. now intros [H _]. Qed.

Lemma keyword_body_filed (nested : bool) kws item name i k j :
  (if nested
   then Py.len (PyStr.split " or " item) <> 1 /\ In name (PyStr.split " or " item)
   else Py.len (PyStr.split " or " item) = 1) ->
  hoare (filed st0) (filed_at st0 item)
        (keyword_body C nested kws item name i k j) (fun _ => filed_at st0 item).
Proof.
  intros Hshape. unfold keyword_body.
  apply hoare_lift_bind; [apply filed_at_filed|]. intros keyword _.
  apply hoare_frames_bind;
    [apply cell_frames | apply filed_at_cell_step | apply filed_at_filed |].
  intros [records|]; [|apply hoare_ret with (Q := fun _ => filed_at st0 item)].
  intros st H. destruct nested.
  - destruct Hshape as [Hlen Hin].
    destruct (merge_nested_filed item name keyword records i (j + 1) k st H Hlen Hin)
      as (st' & -> & H'). exact H'.
  - destruct (merge_flat_filed item keyword records i (j + 1) k st H Hshape)
      as (st' & -> & H'). exact H'.
Qed.

Lemma keyword_loop_filed (nested : bool) kws item name i k :
  (if nested
   then Py.len (PyStr.split " or " item) <> 1 /\ In name (PyStr.split " or " item)
   else Py.len (PyStr.split " or " item) = 1) ->
  hoare (filed st0) (filed_at st0 item)
        (keyword_loop C nested kws item name i k) (fun _ => filed_at st0 item).
Proof.
  intros Hshape. unfold keyword_loop.
  apply hoare_read_bind. intros j0.
  eapply hoare_pre; [intros st [_ H]; exact H|].
  apply hoare_for_each. intros j _. now apply keyword_body_filed.
Qed.

Lemma reset_keyword_index_filed item :
  hoare (filed st0) (filed_at st0 item) (reset_keyword_index C)
        (fun _ => filed_at st0 item).
Proof.
  unfold reset_keyword_index. destruct (resets_indices C).
  - apply filed_assign_index. now intros s.
  - apply hoare_ret with (Q := fun _ => filed_at st0 item).
Qed.

Lemma name_body_filed kws names item i k :
  names = PyStr.split " or " item -> Py.len names <> 1 ->
  hoare (filed st0) (filed_at st0 item)
        (name_body C kws names item i k) (fun _ => filed_at st0 item).
Proof.
  intros -> Hlen. unfold name_body.
  apply hoare_lift_bind; [apply filed_at_filed|]. intros name Hn.
  eapply hoare_bind.
  - apply keyword_loop_filed. split; [exact Hlen | eapply index_In; eauto].
  - intros u. apply filed_assign_index. now intros s.
Qed.

Lemma item_body_filed terms kws i :
  hoare (filed st0) (filed st0) (item_body C terms kws i) (fun _ => filed st0).
Proof.
  unfold item_body.
  apply hoare_lift_bind; [auto|]. intros item _.
  eapply hoare_bind with (Q := fun _ => filed_at st0 item).
  - destruct (Z.eqb_spec (Py.len (PyStr.split " or " item)) 1) as [Hlen|Hlen].
    + eapply hoare_bind.
      * apply ensure_entry_filed. unfold Shape.entry_ok. simpl. now rewrite Hlen.
      * intros u. apply hoare_lift_bind; [apply filed_at_filed|]. intros name _.
        eapply hoare_bind; [now apply keyword_loop_filed|].
        intros u'. apply reset_keyword_index_filed.
    + eapply hoare_bind.
      * apply ensure_entry_filed. unfold Shape.entry_ok. simpl.
        destruct (Z.eqb_spec (Py.len (PyStr.split " or " item)) 1); [contradiction|].
        apply empty_nested_entry_ok.
      * intros u. apply hoare_read_bind. intros k0.
        eapply hoare_pre; [intros st [_ H]; exact H|].
        eapply hoare_bind.
        -- apply hoare_for_each. intros k _. now apply name_body_filed.
        -- intros u'. unfold reset_name_index. destruct (resets_indices C).
           ++ apply filed_assign_index. now intros s.
           ++ apply hoare_ret with (Q := fun _ => filed_at st0 item).
  - intros u. eapply hoare_bind; [apply reset_keyword_index_filed|].
    intros u'. eapply hoare_conseq.
    + apply (filed_assign_index (set_name_index 0) item). now intros s.
    + auto.
    + intros a st. apply filed_at_filed.
Qed.

Lemma item_loop_filed terms kws l :
  hoare (filed st0) (filed st0) (for_each l (item_body C terms kws)) (fun _ => filed st0).
Proof. apply hoare_for_each. intros i _. apply item_body_filed. Qed.

(** A whole run, however it stops. *)
Lemma search_filed terms kws :
  Shape.wf (all_results (self st0)) = true ->
  filed st0 (snd (search C terms kws st0)).
Proof.
  intros W. unfold search, bind at 1, read.
  pose proof (item_loop_filed terms kws
                (Py.range (item_index (self st0)) (Py.len terms)) st0
                (filed_start W)) as H.
  unfold bind.
  destruct (for_each _ (item_body C terms kws) st0) as [[[]|e|] st1]; cbn [snd];
    [|exact H..].
  unfold finish, bind, read, log_callback, emit, write_file, path_exists, remove_file.
  cbn [fst snd self env files set_files add_event trace].
  match goal with |- context [FS.exists_ ?a ?fs] => destruct (FS.exists_ a fs) end;
    cbn [fst snd self env files set_files add_event trace ret].
  - eapply (filed_events st1 _ _ H); cbn; [reflexivity| |].
    + rewrite <- ?app_assoc. reflexivity.
    + reflexivity.
  - eapply (filed_events st1 _ _ H); cbn; [reflexivity| |].
    + rewrite <- ?app_assoc. reflexivity.
    + reflexivity.
Qed.

End Filed.

Section RunsRevisited.

Variable net : network.
Variable cfg : config.
Variable fuel : nat.


(** C2.  Wherever a run of [search] stops, on every backend, with [new]
    the events of the run: [total_saved_records] is its value at the
    start plus the lengths of the cells merged since; it never decreases;
    every checkpoint written during the run already carries the count
    that includes the cell merged just before it; every cell merged during
    the run is in [all_results], under its term, bias name and keyword,
    with the records of its last merge, so that, when no cell was merged
    twice, the count is its value at the start plus the lengths of these
    cells as [all_results] holds them.  And each merge does the three in
    one step: it stores the cell, adds its length to the count, and is
    recorded by one event. *)
Theorem total_saved_records_ledger b terms kws st :
  Shape.wf (all_results (self st)) = true ->
  let st' := snd (search_of b net cfg fuel terms kws st) in
  let new := since st st' in
  total_saved_records (self st')
  = total_saved_records (self st) + Trace.merged_records new /\
  total_saved_records (self st) <= total_saved_records (self st') /\
  Trace.audit (total_saved_records (self st)) new = Some (total_saved_records (self st')) /\
  stored new (all_results (self st')) /\
  (NoDup (Trace.cells new) ->
   total_saved_records (self st')
   = total_saved_records (self st)
     + cells_length (all_results (self st')) (Trace.cells new)) /\
  (forall item kw recs s s',
      merge_flat item kw recs s = (Ret tt, s') ->
      Results.get_path [item; "Records"; kw] (all_results (self s')) = inr (JArr recs) /\
      total_saved_records (self s') = total_saved_records (self s) + Py.len recs /\
      trace (env s') = (trace (env s) ++ [Merge item None kw recs])%list) /\
  (forall item name kw recs s s',
      merge_nested item name kw recs s = (Ret tt, s') ->
      Results.get_path [item; "Records"; name; "Records"; kw] (all_results (self s'))
      = inr (JArr recs) /\
      total_saved_records (self s') = total_saved_records (self s) + Py.len recs /\
      trace (env s') = (trace (env s) ++ [Merge item (Some name) kw recs])%list).
Proof.
  intros W st' new.
  destruct (run_report_of net cfg fuel b terms kws st W) as (_ & A & _).
  fold st' new in A. pose proof (audit_sum _ _ _ A) as S.
  pose proof (merged_records_nonneg new) as N.
  destruct (search_filed (connector_of b net cfg fuel) st
              (connector_cell_frames net cfg b fuel) terms kws W)
    as (_ & new' & T & _ & F).
  fold (search_of b net cfg fuel terms kws st) in T, F. fold st' in T, F.
  assert (En : new = new') by (unfold new; now rewrite (since_app _ _ _ T)).
  rewrite <- En in F.
  split; [exact S|]. split; [lia|]. split; [exact A|]. split; [exact F|].
  split; [|split].
  - intros Hn. rewrite S. f_equal. now apply merged_records_stored.
  - intros item kw recs s s'. apply merge_flat_stores.
  - intros item name kw recs s s'. apply merge_nested_stores.
Qed.



End RunsRevisited.

(* ================================================================== *)
(** * Runs on synthetic backends *)

(** C1 on a concrete run.  [api_2] and [api_3] do not set
    [self.keyword_index] back to 0 after the keyword loop of a single-name
    term: a run resumed at keyword 1 of term "A" also starts term "B" at
    keyword 1 and never runs the cell ("B", "k0"), and the index is still 1
    at the end.  [api_1] and [api_4], which have the statement, run the
    three cells that were left and end with the index at 0. *)
Theorem later_terms_skip_keywords :
  Stub.crash_and_resume Springer
  = (1, Ret tt, [("A", None, "k1"); ("B", None, "k1")], 1) /\
  Stub.crash_and_resume Scopus
  = (1, Ret tt, [("A", None, "k1"); ("B", None, "k1")], 1) /\
  Stub.crash_and_resume IEEE
  = (1, Ret tt, [("A", None, "k1"); ("B", None, "k0"); ("B", None, "k1")], 0) /\
  Stub.crash_and_resume PubMed
  = (1, Ret tt, [("A", None, "k1"); ("B", None, "k0"); ("B", None, "k1")], 0).
Proof. repeat split; vm_compute; reflexivity. Qed.

(** C9 on concrete responses.  A response with an unexpected shape makes
    [search] raise: a Springer document without "result", a Scopus document
    without "search-results", a PubMed body that is not XML, an IEEE
    document that is a list.  (An empty Springer document, on the other
    hand, ends the cell quietly.) *)
Theorem shape_errors_propagate :
  fst (Stub.one_cell Springer (Http 200 (JsonDoc (JObj [("records", JArr [])]))))
  = Raise (KeyError "result") /\
  fst (Stub.one_cell Scopus (Http 200 (JsonDoc (JObj [("error", JStr "x")]))))
  = Raise (KeyError "search-results") /\
  fst (Stub.one_cell PubMed (Http 200 Garbled)) = Raise ParseError /\
  fst (Stub.one_cell IEEE (Http 200 (JsonDoc (JArr [])))) = Raise AttributeError /\
  fst (Stub.one_cell Springer (Http 200 (JsonDoc (JObj [])))) = Ret tt.
Proof. repeat split; vm_compute; reflexivity. Qed.

(** Against C3 as stated: after 501 answered calls of a fresh Springer
    connector the log has 501 lines and the counter is 1. *)
Lemma counter_is_not_the_number_of_lines :
  PyStr.count_lines (request_log (self Stub.after_501_calls)) = 501%nat /\
  request_counter (self Stub.after_501_calls) = 1 /\
  request_counter (self Stub.after_501_calls)
  <> Z.of_nat (PyStr.count_lines (request_log (self Stub.after_501_calls))).
Proof. vm_compute. repeat split. discriminate. Qed.


(** A PubMed cell whose id search finds nothing is left by [continue]:
    a request was sent, nothing is merged and no checkpoint is written. *)
Lemma pubmed_cell_without_ids :
  fst (Stub.one_cell PubMed (Http 200 (XmlDoc (Stub.pubmed_ids [])))) = Ret tt /\
  List.length (Trace.requests
                 (trace (env (snd (Stub.one_cell PubMed
                                     (Http 200 (XmlDoc (Stub.pubmed_ids []))))))))
  = 1%nat /\
  Trace.count Trace.is_merge
    (trace (env (snd (Stub.one_cell PubMed (Http 200 (XmlDoc (Stub.pubmed_ids [])))))))
  = 0%nat /\
  Trace.count Trace.is_save
    (trace (env (snd (Stub.one_cell PubMed (Http 200 (XmlDoc (Stub.pubmed_ids [])))))))
  = 0%nat.
Proof. vm_compute. repeat split. Qed.

(** An IEEE cell with no record is merged and checkpointed like any other. *)
Lemma ieee_cell_without_records :
  fst (Stub.one_cell IEEE (Http 200 (JsonDoc (JObj [])))) = Ret tt /\
  Trace.cells (trace (env (snd (Stub.one_cell IEEE (Http 200 (JsonDoc (JObj [])))))))
  = [("A", None, "k")] /\
  Trace.merged_records
    (trace (env (snd (Stub.one_cell IEEE (Http 200 (JsonDoc (JObj [])))))))
  = 0 /\
  Trace.count Trace.is_save
    (trace (env (snd (Stub.one_cell IEEE (Http 200 (JsonDoc (JObj [])))))))
  = 1%nat.
Proof. vm_compute. repeat split. Qed.

(** Against C7 as stated: the PubMed parser builds a record whose only
    field is a title without text, and drops it. *)
Lemma pubmed_drops_empty_record :
  PubMedAPI.article_data (Stub.pubmed_article None) = inr (Some [("title", JNull)]) /\
  Py.any_value [("title", JNull)] = false /\
  PubMedAPI.extract_pubmed_data
    (XmlDoc (Elem "PubmedArticleSet" [] None [Stub.pubmed_article None]))
  = inr [].
Proof. vm_compute. repeat split. Qed.

(** IEEE and Springer keep a record all of whose values are false. *)
Lemma ieee_springer_keep_empty_record :
  IEEEAPI.records_of_page (JObj [("articles", JArr [Stub.blank])])
  = inr [JObj [ ("title", JStr EmptyString); ("abstract", JStr EmptyString);
                ("authors", JStr EmptyString); ("doi", JStr EmptyString);
                ("isbn", JStr EmptyString); ("issn", JStr EmptyString);
                ("publication year", JStr EmptyString) ]] /\
  SpringerAPI.extract_data (JObj [("records", JArr [Stub.blank])])
  = inr [JObj [ ("title", JStr EmptyString); ("abstract", JStr EmptyString);
                ("authors", JStr EmptyString); ("doi", JStr EmptyString);
                ("isbn", JStr EmptyString); ("issn", JStr EmptyString);
                ("publicationDate", JStr EmptyString) ]].
Proof. split; vm_compute; reflexivity. Qed.

(** Against C8 as stated: for a Scopus entry without a doi the record has
    [None] in its [doi] field, not "No DOI". *)
Lemma scopus_doi_is_none :
  ScopusAPI.article_data (JObj [("dc:title", JStr "T")])
  = inr [ ("title", JStr "T"); ("abstract", JNull); ("authors", JStr EmptyString);
          ("doi", JNull); ("isbn", JStr "null"); ("issn", JStr "null");
          ("publication year", JStr EmptyString) ] /\
  Py.rbind (ScopusAPI.article_data (JObj [("dc:title", JStr "T")]))
           (fun d => Py.getitem (JObj d) "doi")
  <> inr (JStr "No DOI").
Proof. split; [vm_compute; reflexivity | vm_compute; discriminate]. Qed.

(* ================================================================== *)
(** * The theorems at work on the synthetic backends *)

Lemma connector_call_accounting_witness :
  answered Springer (Stub.healthy Springer 0%nat "u") = true /\
  fst (connector_call Springer (Stub.healthy Springer) Stub.cfg "u" 0 Stub.fresh_state)
  = Ret tt /\
  request_log (self (snd (connector_call Springer (Stub.healthy Springer) Stub.cfg
                                         "u" 0 Stub.fresh_state)))
  = "Springer API request #1: u" ++ LF /\
  request_counter (self (snd (connector_call Springer (Stub.healthy Springer) Stub.cfg
                                             "u" 0 Stub.fresh_state)))
  = 1.
Proof.
  split; [reflexivity|].
  exact (connector_call_accounting (Stub.healthy Springer) Stub.cfg Springer "u" 0
           Stub.fresh_state eq_refl).
Defined.

Lemma daily_budget_guard_witness :
  metered PubMed = true /\
  max_requests_per_day Stub.cfg2 = 2 /\
  request_counter (self Stub.fresh_state) = 0 /\
  (forall n u, answered PubMed (Stub.healthy PubMed n u) = true) /\
  Trace.sleeps
    (since Stub.fresh_state
       (snd (connector_calls PubMed (Stub.healthy PubMed) Stub.cfg2
                             [("a", 0); ("b", 0); ("c", 0)] Stub.fresh_state)))
  = [24 * 60 * 60] /\
  request_counter
    (self (snd (connector_calls PubMed (Stub.healthy PubMed) Stub.cfg2
                                [("a", 0); ("b", 0); ("c", 0)] Stub.fresh_state)))
  = 1.
Proof.
  assert (Ha : forall n u, answered PubMed (Stub.healthy PubMed n u) = true)
    by (intros n u; reflexivity).
  split; [reflexivity|]. split; [reflexivity|]. split; [reflexivity|].
  split; [exact Ha|].
  exact (proj2 (proj2 (proj2 (daily_budget_guard (Stub.healthy PubMed) Stub.cfg2))
                  PubMed "a" 0 "b" 0 "c" 0 Stub.fresh_state eq_refl eq_refl eq_refl Ha)).
Defined.

Lemma ieee_cell_pagination_witness :
  serves_pages Stub.thirty /\
  Stub.thirty 0%nat (IEEEAPI.url_of "KEY" (IEEEAPI.form_query "A" "k") 1)
  = Http 200 (JsonDoc (Stub.ieee_page 30)) /\
  Py.get (Stub.ieee_page 30) "total_records" (JNum 0) = inr (JNum 30) /\
  (pages 30 <= 5)%nat /\
  Trace.requests
    (since Stub.fresh_state
       (snd (IEEEAPI.cell Stub.thirty "KEY" 5 false "A" "A" "k" Stub.fresh_state)))
  = [ IEEEAPI.url_of "KEY" (IEEEAPI.form_query "A" "k") 1;
      IEEEAPI.url_of "KEY" (IEEEAPI.form_query "A" "k") 26 ] /\
  issued (env (snd (IEEEAPI.cell Stub.thirty "KEY" 5 false "A" "A" "k" Stub.fresh_state)))
  = 2%nat.
Proof.
  assert (Hs : serves_pages Stub.thirty).
  { intros n u. do 2 eexists. split; reflexivity. }
  assert (Hf : (pages 30 <= 5)%nat) by (vm_compute; lia).
  split; [exact Hs|]. split; [reflexivity|]. split; [reflexivity|]. split; [exact Hf|].
  destruct (ieee_cell_pagination Stub.thirty "KEY" 5 false "A" "A" "k" Stub.fresh_state
              (Stub.ieee_page 30) 30 Hs eq_refl eq_refl Hf) as (_ & R & I & _).
  split; [exact R | exact I].
Defined.

Lemma empty_record_policy_witness :
  Py.mapR ScopusAPI.article_data
          [JObj [("dc:title", JStr "T")];
           JObj [("prism:isbn", JStr EmptyString); ("prism:issn", JNull)]]
  = inr [ [ ("title", JStr "T"); ("abstract", JNull); ("authors", JStr EmptyString);
            ("doi", JNull); ("isbn", JStr "null"); ("issn", JStr "null");
            ("publication year", JStr EmptyString) ];
          [ ("title", JNull); ("abstract", JNull); ("authors", JStr EmptyString);
            ("doi", JNull); ("isbn", JStr EmptyString); ("issn", JNull);
            ("publication year", JStr EmptyString) ] ] /\
  ScopusAPI.extract_entries
    [JObj [("dc:title", JStr "T")];
     JObj [("prism:isbn", JStr EmptyString); ("prism:issn", JNull)]] []
  = inr [ JObj [ ("title", JStr "T"); ("abstract", JNull); ("authors", JStr EmptyString);
                 ("doi", JNull); ("isbn", JStr "null"); ("issn", JStr "null");
                 ("publication year", JStr EmptyString) ] ].
Proof.
  split; [reflexivity|].
  exact (proj1 empty_record_policy
           [JObj [("dc:title", JStr "T")];
            JObj [("prism:isbn", JStr EmptyString); ("prism:issn", JNull)]]
           [ [ ("title", JStr "T"); ("abstract", JNull); ("authors", JStr EmptyString);
               ("doi", JNull); ("isbn", JStr "null"); ("issn", JStr "null");
               ("publication year", JStr EmptyString) ];
             [ ("title", JNull); ("abstract", JNull); ("authors", JStr EmptyString);
               ("doi", JNull); ("isbn", JStr EmptyString); ("issn", JNull);
               ("publication year", JStr EmptyString) ] ] eq_refl).
Defined.

Lemma record_defaults_witness :
  IEEEAPI.record_of (JObj [("title", JStr "T")])
  = inr (JObj [ ("title", JStr "T"); ("abstract", JStr "null");
                ("authors", JStr EmptyString); ("doi", JStr "No DOI");
                ("isbn", JStr "null"); ("issn", JStr "null");
                ("publication year", JStr "null") ]) /\
  exists authors,
    JObj [ ("title", JStr "T"); ("abstract", JStr "null");
           ("authors", JStr EmptyString); ("doi", JStr "No DOI");
           ("isbn", JStr "null"); ("issn", JStr "null");
           ("publication year", JStr "null") ]
    = JObj [ ("title", JStr "T"); ("abstract", JStr "null");
             ("authors", JStr authors); ("doi", JStr "No DOI");
             ("isbn", JStr "null"); ("issn", JStr "null");
             ("publication year", JStr "null") ] /\
    authors = EmptyString.
Proof.
  split; [reflexivity|].
  destruct (proj1 record_defaults [("title", JStr "T")]
                  (JObj [ ("title", JStr "T"); ("abstract", JStr "null");
                          ("authors", JStr EmptyString); ("doi", JStr "No DOI");
                          ("isbn", JStr "null"); ("issn", JStr "null");
                          ("publication year", JStr "null") ]) eq_refl)
    as (authors & E & A).
  exists authors. split; [exact E | exact (A eq_refl)].
Defined.

Lemma checkpoint_round_trip_witness :
  Py.lookup "request_counter" Stub.first_checkpoint
  = Some (JNum (request_counter (self Stub.fresh_state))) /\
  Py.lookup "request_log" Stub.first_checkpoint
  = Some (JStr (request_log (self Stub.fresh_state))) /\
  Checkpoint.load_checkpoint IEEEAPI.checkpoint_file
    (snd (Checkpoint.save_checkpoint IEEEAPI.checkpoint_file (JObj Stub.first_checkpoint)
                                     Stub.fresh_state))
  = (Ret (Some (JObj Stub.first_checkpoint)),
     snd (Checkpoint.save_checkpoint IEEEAPI.checkpoint_file (JObj Stub.first_checkpoint)
                                     Stub.fresh_state)) /\
  self (snd (init_of IEEE
               (snd (Checkpoint.save_checkpoint IEEEAPI.checkpoint_file
                                                (JObj Stub.first_checkpoint)
                                                Stub.fresh_state))))
  = mkInstance (JObj []) 0 0 1 0 0 EmptyString.
Proof.
  split; [reflexivity|]. split; [reflexivity|].
  destruct (checkpoint_round_trip IEEEAPI.checkpoint_file Stub.first_checkpoint
              Stub.fresh_state eq_refl eq_refl) as (_ & L & _ & I).
  split; [exact L|].
  exact (proj2 (I IEEE (Stub.healthy IEEE) Stub.cfg 5%nat 0 1 0 eq_refl eq_refl)).
Defined.

Lemma metered_counter_within_budget_witness :
  metered Springer = true /\
  1 <= max_requests_per_day Stub.cfg /\
  0 <= request_counter (self (snd (Stub.healthy_cell Springer))) <= 500.
Proof.
  split; [reflexivity|]. split; [cbn; lia|].
  apply (metered_counter_within_budget (Stub.healthy Springer) Stub.cfg 5 Springer
           ["A"] ["k"] Stub.fresh_state eq_refl); cbn; lia.
Defined.

Lemma scopus_error_status_ends_cell_witness :
  Demo.refusing 0%nat "u" = Http 500 Garbled /\
  fst (ScopusAPI.page_loop Demo.refusing Stub.cfg 1 "u" 0 [] Stub.fresh_state) = Ret [] /\
  request_counter
    (self (snd (ScopusAPI.page_loop Demo.refusing Stub.cfg 1 "u" 0 [] Stub.fresh_state)))
  = 0.
Proof.
  split; [reflexivity|].
  destruct (scopus_error_status_ends_cell Demo.refusing Stub.cfg 0 "u" 0 []
              Stub.fresh_state 500 Garbled eq_refl ltac:(lia)) as (R & _ & C & _).
  split; [exact R | exact C].
Defined.

Lemma springer_cell_follows_next_page_witness :
  springer_pages Demo.springer_two 0
                 (SpringerAPI.initial_url Stub.cfg false "A" "k")
                 [([Demo.springer_record "T1"], "/openaccess/json?q=next")]
                 [Demo.springer_record "T"] /\
  fst (SpringerAPI.cell Demo.springer_two Stub.cfg 5 false "A" "A" "k" Stub.fresh_state)
  = Ret (Some [Demo.springer_record "T1"; Demo.springer_record "T"]) /\
  Trace.requests
    (since Stub.fresh_state
       (snd (SpringerAPI.cell Demo.springer_two Stub.cfg 5 false "A" "A" "k"
                              Stub.fresh_state)))
  = [ SpringerAPI.initial_url Stub.cfg false "A" "k";
      SpringerAPI.base_url ++ "/openaccess/json?q=next" ].
Proof.
  assert (H : springer_pages Demo.springer_two 0
                (SpringerAPI.initial_url Stub.cfg false "A" "k")
                [([Demo.springer_record "T1"], "/openaccess/json?q=next")]
                [Demo.springer_record "T"]).
  { exists 200, Demo.springer_first. split; [reflexivity|].
    split; [|split; [discriminate|]].
    - split; [reflexivity|]. split; [exists 2; reflexivity|]. split; reflexivity.
    - exists 200, Stub.springer_page. split; [reflexivity|]. right.
      exists JNull. split; [|reflexivity].
      split; [reflexivity|]. split; [exists 1; reflexivity|]. split; reflexivity. }
  split; [exact H|].
  exact (springer_cell_follows_next_page Demo.springer_two Stub.cfg 5 false "A" "A" "k"
           [([Demo.springer_record "T1"], "/openaccess/json?q=next")]
           [Demo.springer_record "T"] Stub.fresh_state H ltac:(cbn; lia)).
Defined.

Lemma scopus_cell_follows_next_link_witness :
  scopus_pages Demo.scopus_two 0 (ScopusAPI.initial_url Stub.cfg "A" "k")
               [([Demo.scopus_record "T1"], "v")] [Demo.scopus_record "T"] /\
  fst (ScopusAPI.cell Demo.scopus_two Stub.cfg 5 false "A" "A" "k" Stub.fresh_state)
  = Ret (Some [Demo.scopus_record "T1"; Demo.scopus_record "T"]) /\
  Trace.requests
    (since Stub.fresh_state
       (snd (ScopusAPI.cell Demo.scopus_two Stub.cfg 5 false "A" "A" "k" Stub.fresh_state)))
  = [ScopusAPI.initial_url Stub.cfg "A" "k"; "v"].
Proof.
  assert (H : scopus_pages Demo.scopus_two 0 (ScopusAPI.initial_url Stub.cfg "A" "k")
                [([Demo.scopus_record "T1"], "v")] [Demo.scopus_record "T"]).
  { exists 200, (JsonDoc Demo.scopus_first). split; [reflexivity|].
    split; [reflexivity|]. exists Demo.scopus_first. split; [reflexivity|].
    split; [|split; [discriminate|]].
    - split; [reflexivity|]. split; [|split; reflexivity].
      intros total. unfold ScopusAPI.read_total.
      destruct (total =? 0); eexists; reflexivity.
    - exists 200, (JsonDoc Stub.scopus_page). split; [reflexivity|]. right.
      split; [reflexivity|]. exists Stub.scopus_page. split; [reflexivity|]. right.
      exists JNull. split; [|reflexivity].
      split; [reflexivity|]. split; [|split; reflexivity].
      intros total. unfold ScopusAPI.read_total.
      destruct (total =? 0); eexists; reflexivity. }
  split; [exact H|].
  exact (scopus_cell_follows_next_link Demo.scopus_two Stub.cfg 5 false "A" "A" "k"
           [([Demo.scopus_record "T1"], "v")] [Demo.scopus_record "T"]
           Stub.fresh_state H ltac:(cbn; lia)).
Defined.

Lemma pubmed_cell_two_phases_witness :
  PyStr.split " AND " (PyStr.strip "A" ++ " AND " ++ "k") = ["A"; "k"] /\
  pubmed_id_pages (Stub.healthy PubMed) Stub.cfg 0 (pubmed_query "A" "k") 0 [[Some "1"]] /\
  serves_articles (Stub.healthy PubMed) 2 /\
  Trace.requests
    (since Stub.fresh_state
       (snd (PubMedAPI.cell (Stub.healthy PubMed) Stub.cfg 5 false "A" "A" "k"
                            Stub.fresh_state)))
  = [ PubMedAPI.esearch_url Stub.cfg (pubmed_query "A" "k") 0 100;
      PubMedAPI.esearch_url Stub.cfg (pubmed_query "A" "k") 100 100;
      PubMedAPI.efetch_url Stub.cfg "1" ].
Proof.
  assert (Hp : pubmed_id_pages (Stub.healthy PubMed) Stub.cfg 0 (pubmed_query "A" "k") 0
                               [[Some "1"]]).
  { exists 200. eexists. split; [reflexivity|].
    split; [reflexivity|]. split; [discriminate|].
    exists 200. eexists. split; reflexivity. }
  assert (Hs : serves_articles (Stub.healthy PubMed) 2).
  { intros n url _. unfold Stub.healthy.
    destruct (PyStr.contains "efetch" url); [|destruct (PyStr.contains "retstart=0&" url)];
      do 3 eexists; split; reflexivity. }
  split; [reflexivity|]. split; [exact Hp|]. split; [exact Hs|].
  exact (proj2 (pubmed_cell_two_phases (Stub.healthy PubMed) Stub.cfg 5 false "A" "A" "k"
                  "A" "k" [[Some "1"]] Stub.fresh_state eq_refl Hp ltac:(cbn; lia)
                  ltac:(repeat constructor; discriminate) Hs)).
Defined.

Lemma fresh_run_covers_grid_witness :
  fst (search_of IEEE (Stub.healthy IEEE) Stub.cfg 5 Demo.terms Demo.keywords
                 Stub.fresh_state) = Ret tt /\
  Trace.cells
    (since Stub.fresh_state
       (snd (search_of IEEE (Stub.healthy IEEE) Stub.cfg 5 Demo.terms Demo.keywords
                       Stub.fresh_state)))
  = [ ("A", None, "k0"); ("A", None, "k1");
      ("B or C", Some "B", "k0"); ("B or C", Some "B", "k1");
      ("B or C", Some "C", "k0"); ("B or C", Some "C", "k1") ].
Proof.
  assert (R : fst (search_of IEEE (Stub.healthy IEEE) Stub.cfg 5 Demo.terms Demo.keywords
                             Stub.fresh_state) = Ret tt) by (vm_compute; reflexivity).
  split; [exact R|].
  exact (fresh_run_covers_grid (Stub.healthy IEEE) Stub.cfg 5 IEEE Demo.terms Demo.keywords
           Stub.fresh_state ltac:(discriminate) eq_refl eq_refl eq_refl eq_refl R).
Defined.

Lemma resumed_ieee_run_covers_rest_witness :
  keyword_index (self (Demo.resumed IEEE)) = 1 /\
  Trace.cells
    (since (Demo.resumed IEEE)
       (snd (search_of IEEE (Stub.healthy IEEE) Stub.cfg 5 Demo.terms Demo.keywords
                       (Demo.resumed IEEE))))
  = [ ("A", None, "k1");
      ("B or C", Some "B", "k0"); ("B or C", Some "B", "k1");
      ("B or C", Some "C", "k0"); ("B or C", Some "C", "k1") ].
Proof.
  split; [vm_compute; reflexivity|].
  exact (resumed_ieee_run_covers_rest (Stub.healthy IEEE) Stub.cfg 5 Demo.terms
           Demo.keywords (Demo.resumed IEEE)
           ltac:(vm_compute; reflexivity) ltac:(vm_compute; discriminate)
           ltac:(vm_compute; discriminate) ltac:(vm_compute; discriminate)
           ltac:(vm_compute; reflexivity)).
Defined.

Lemma unreset_keyword_index_skips_keywords_witness :
  keyword_index (self (Demo.resumed Springer)) = 1 /\
  Trace.cells
    (since (Demo.resumed Springer)
       (snd (search_of Springer (Stub.healthy Springer) Stub.cfg 5 ["A"; "B"]
                       Demo.keywords (Demo.resumed Springer))))
  = [("A", None, "k1"); ("B", None, "k1")].
Proof.
  split; [vm_compute; reflexivity|].
  exact (unreset_keyword_index_skips_keywords (Stub.healthy Springer) Stub.cfg 5 Springer
           ["A"; "B"] Demo.keywords (Demo.resumed Springer)
           (or_introl eq_refl)
           ltac:(vm_compute; reflexivity) ltac:(vm_compute; discriminate)
           ltac:(vm_compute; discriminate) ltac:(vm_compute; discriminate)
           ltac:(vm_compute; reflexivity) ltac:(vm_compute; reflexivity)).
Defined.


Lemma interrupted_ieee_run_resumes_witness :
  fst (Demo.crashed IEEE) = Raise ConnectionError /\
  (Trace.cells (since (snd (init_of IEEE Stub.fresh_state)) (snd (Demo.crashed IEEE)))
   ++ Trace.cells
        (since (Demo.resumed IEEE)
           (snd (search_of IEEE (Stub.healthy IEEE) Stub.cfg 5 Demo.terms Demo.keywords
                           (Demo.resumed IEEE)))))%list
  = [ ("A", None, "k0"); ("A", None, "k1");
      ("B or C", Some "B", "k0"); ("B or C", Some "B", "k1");
      ("B or C", Some "C", "k0"); ("B or C", Some "C", "k1") ].
Proof.
  split; [vm_compute; reflexivity|].
  exact (proj2 (interrupted_ieee_run_resumes
                  (Stub.flaky IEEE 1) Stub.cfg 5 Demo.terms Demo.keywords
                  Stub.fresh_state Checkpoint.fresh (Stub.healthy IEEE) Stub.cfg 5
                  eq_refl eq_refl ltac:(vm_compute; discriminate)
                  ltac:(vm_compute; discriminate) ltac:(vm_compute; discriminate)
                  ltac:(vm_compute; discriminate))
               ltac:(vm_compute; reflexivity)).
Defined.

Lemma completed_run_starts_over_witness :
  fst (search_of PubMed (Stub.healthy PubMed) Stub.cfg 5 ["A"] ["k"] Stub.fresh_state)
  = Ret tt /\
  init_of PubMed
          (mkState (mkInstance (JObj []) 7 3 2 1 9 "log")
                   (env (snd (search_of PubMed (Stub.healthy PubMed) Stub.cfg 5 ["A"] ["k"]
                                        Stub.fresh_state))))
  = (Ret tt,
     mkState Checkpoint.fresh
             (env (snd (search_of PubMed (Stub.healthy PubMed) Stub.cfg 5 ["A"] ["k"]
                                  Stub.fresh_state)))).
Proof.
  assert (R : fst (search_of PubMed (Stub.healthy PubMed) Stub.cfg 5 ["A"] ["k"]
                             Stub.fresh_state) = Ret tt) by (vm_compute; reflexivity).
  split; [exact R|].
  exact (completed_run_starts_over (Stub.healthy PubMed) Stub.cfg 5 PubMed ["A"] ["k"]
           Stub.fresh_state (mkInstance (JObj []) 7 3 2 1 9 "log") eq_refl R).
Defined.

Lemma merge_keeps_other_cells_witness :
  Results.get_path ["A"; "Records"; "k1"]
                   (all_results (self (snd (merge_flat "A" "k0" [JNull] Demo.entered_flat))))
  = Results.get_path ["A"; "Records"; "k1"] (all_results (self Demo.entered_flat)) /\
  Results.get_path ["B or C"; "Records"; "C"; "Records"; "k0"]
                   (all_results
                      (self (snd (merge_nested "B or C" "B" "k0" [JNull]
                                               Demo.entered_nested))))
  = Results.get_path ["B or C"; "Records"; "C"; "Records"; "k0"]
                     (all_results (self Demo.entered_nested)).
Proof.
  split.
  - exact (proj2 (proj1 (merge_keeps_other_cells "A" "k0" [JNull])
                        Demo.entered_flat
                        (snd (merge_flat "A" "k0" [JNull] Demo.entered_flat)) eq_refl)
                 ["A"; "Records"; "k1"] eq_refl eq_refl).
  - exact (proj2 (proj2 (merge_keeps_other_cells "B or C" "k0" [JNull])
                        "B" Demo.entered_nested
                        (snd (merge_nested "B or C" "B" "k0" [JNull] Demo.entered_nested))
                        eq_refl)
                 ["B or C"; "Records"; "C"; "Records"; "k0"] eq_refl eq_refl eq_refl).
Defined.

Lemma merged_cells_follow_plan_witness :
  Trace.cells
    (since Stub.fresh_state
       (snd (search_of PubMed Demo.sparse Stub.cfg 5 Demo.terms Demo.keywords
                       Stub.fresh_state)))
  = [("A", None, "k1"); ("B or C", Some "B", "k1"); ("B or C", Some "C", "k1")] /\
  exists done todo,
    (done ++ todo)%list
    = Plan.cells (resets_indices (connector_of PubMed Demo.sparse Stub.cfg 5))
                 Demo.terms Demo.keywords 0 0 0 /\
    subseq (Trace.cells
              (since Stub.fresh_state
                 (snd (search_of PubMed Demo.sparse Stub.cfg 5 Demo.terms Demo.keywords
                                 Stub.fresh_state))))
           done /\
    (PubMed <> PubMed ->
     Trace.cells
       (since Stub.fresh_state
          (snd (search_of PubMed Demo.sparse Stub.cfg 5 Demo.terms Demo.keywords
                          Stub.fresh_state)))
     = done) /\
    (fst (search_of PubMed Demo.sparse Stub.cfg 5 Demo.terms Demo.keywords
                    Stub.fresh_state) = Ret tt ->
     todo = []).
Proof.
  split; [vm_compute; reflexivity|].
  exact (merged_cells_follow_plan Demo.sparse Stub.cfg 5 PubMed Demo.terms Demo.keywords
           Stub.fresh_state eq_refl ltac:(cbn; lia) ltac:(cbn; lia) ltac:(cbn; lia)).
Defined.

Lemma search_touches_its_files_only_witness :
  FS.read ScopusAPI.checkpoint_file
          (files (env (snd (search_of IEEE (Stub.healthy IEEE) Stub.cfg 5 ["A"] ["k"]
                                      Demo.beside_scopus))))
  = Some (JObj [("item_index", JNum 3)]).
Proof.
  exact (search_touches_its_files_only (Stub.healthy IEEE) Stub.cfg 5 IEEE ["A"] ["k"]
           Demo.beside_scopus ScopusAPI.checkpoint_file
           ltac:(cbn; discriminate) ltac:(cbn; discriminate)).
Defined.

Lemma total_saved_records_ledger_witness :
  Shape.wf (all_results (self Stub.fresh_state)) = true /\
  total_saved_records (self (snd (Stub.healthy_cell IEEE)))
  = 0 + Trace.merged_records (since Stub.fresh_state (snd (Stub.healthy_cell IEEE))) /\
  Trace.audit 0 (since Stub.fresh_state (snd (Stub.healthy_cell IEEE)))
  = Some (total_saved_records (self (snd (Stub.healthy_cell IEEE)))) /\
  Results.get_path ["A"; "Records"; "k"]
                   (all_results (self (snd (Stub.healthy_cell IEEE))))
  = inr (JArr [JObj [ ("title", JStr "T"); ("abstract", JStr "null");
                      ("authors", JStr EmptyString); ("doi", JStr "No DOI");
                      ("isbn", JStr "null"); ("issn", JStr "null");
                      ("publication year", JStr "null") ]]) /\
  total_saved_records (self (snd (Stub.healthy_cell IEEE)))
  = 0 + cells_length (all_results (self (snd (Stub.healthy_cell IEEE))))
                     (Trace.cells (since Stub.fresh_state (snd (Stub.healthy_cell IEEE)))).
Proof.
  split; [reflexivity|].
  destruct (total_saved_records_ledger (Stub.healthy IEEE) Stub.cfg 5 IEEE ["A"] ["k"]
              Stub.fresh_state eq_refl) as (S & _ & A & F & N & _).
  split; [exact S|]. split; [exact A|]. split.
  - exact (F ("A", None, "k") _ ltac:(vm_compute; reflexivity)).
  - apply N. vm_compute. repeat constructor. intros [].
Defined.

